(** * LoadData: loading a CSV file of per-image data

    A shallow embedding of [cellprofiler/modules/loaddata.py] and the
    properties of its header helpers, its type inference, its loader
    ([prepare_run]), its per-cycle publisher ([run]) and its column
    declarations ([get_measurement_columns]).

    Python strings are [string], Python ints are [Z], dictionaries are
    [gmap]s, and an operation that can raise returns a [res]. *)

From Stdlib Require Import Ascii String ZArith QArith.
From stdpp Require Import gmap strings list fin_maps pretty.

Local Open Scope Z_scope.

(** ** Python strings *)

Module Str.

(** [s.startswith(p)] *)
Definition startswith (s p : string) : bool := String.prefix p s.

(** [s[n:]] *)
Fixpoint drop (n : nat) (s : string) : string :=
  match n, s with
  | O, _ => s
  | S _, EmptyString => EmptyString
  | S n', String _ s' => drop n' s'
  end.

(** [len(s)] *)
Definition len (s : string) : nat := String.length s.

(** [s.split(c)]: the pieces between the occurrences of [c]; never empty. *)
Fixpoint split (c : ascii) (s : string) : list string :=
  match s with
  | EmptyString => [EmptyString]
  | String a s' =>
      if Ascii.eqb a c then EmptyString :: split c s'
      else match split c s' with
           | [] => [String a EmptyString]
           | w :: ws => String a w :: ws
           end
  end.

(** [sep.join(l)] *)
Definition join (sep : string) (l : list string) : string :=
  String.concat sep l.

End Str.

(** ** Constants *)

(** Modelled from the spec: [cpmeas.IMAGE], the object name of per-image
    measurements, is defined in [cellprofiler.measurements]; the header
    prefix it forms is ["Image_"]. *)
Definition IMAGE : string := "Image".

Definition PATH_NAME : string := "PathName".
Definition FILE_NAME : string := "FileName".
(** Reserve extra space in pathnames for batch processing name rewrites *)
Definition PATH_PADDING : nat := 20.

(** Modelled from the spec: the storage types that
    [cellprofiler.measurements] names [COLTYPE_INTEGER], [COLTYPE_FLOAT]
    and [COLTYPE_VARCHAR_FORMAT % n] (integer / float / bounded string of
    width [n]). *)
Inductive coltype : Type :=
| COLTYPE_INTEGER
| COLTYPE_FLOAT
| COLTYPE_VARCHAR (n : nat).

Definition quote : string := String "034"%char EmptyString.
Definition newline : string := String "010"%char EmptyString.

(** ** Errors *)

Inductive exn : Type :=
| OSError            (* [os.stat] on a missing file *)
| IOError            (* [open] fails *)
| StopIteration      (* [reader.next()] on an exhausted reader *)
| CsvError           (* [csv.Error] raised by the reader *)
| IndexError         (* sequence index out of range *)
| KeyError (k : string)
| UnboundLocalError (v : string)
| ValueError (msg : string).

Inductive res (A : Type) : Type :=
| Ok (a : A)
| Raise (e : exn).
Arguments Ok {A} a.
Arguments Raise {A} e.

Definition bind {A B} (m : res A) (k : A → res B) : res B :=
  match m with
  | Ok a => k a
  | Raise e => Raise e
  end.

Notation "'let*' x := m 'in' k" := (bind m (λ x, k))
  (at level 10, x name, m at level 100, k at level 200, only parsing).

(** [[f(x) for x in l]] where [f] may raise *)
Fixpoint for_each {A B} (f : A → res B) (l : list A) : res (list B) :=
  match l with
  | [] => Ok []
  | x :: l' => let* y := f x in let* ys := for_each f l' in Ok (y :: ys)
  end.

(** [for x in l: s = f(x, s)] where the body may raise *)
Fixpoint for_fold {A S} (f : A → S → res S) (l : list A) (s : S) : res S :=
  match l with
  | [] => Ok s
  | x :: l' => let* s' := f x s in for_fold f l' s'
  end.

(** [l[i]] for [i] taken from a [range] *)
Definition list_get {A} (l : list A) (i : nat) : res A :=
  match l !! i with
  | Some x => Ok x
  | None => Raise IndexError
  end.

(** [l[i]] for any integer [i]: a negative index counts from the end *)
Definition py_index {A} (l : list A) (i : Z) : res A :=
  let j := if i <? 0 then i + Z.of_nat (length l) else i in
  if j <? 0 then Raise IndexError else list_get l (Z.to_nat j).

(** ** Header helpers *)

(** Convert the field name in the header to a column name *)
Definition header_to_column (field : string) : string :=
  if Str.startswith field (IMAGE +:+ "_" +:+ PATH_NAME +:+ "_")
  then Str.drop (Str.len IMAGE + 1) field
  else if Str.startswith field (IMAGE +:+ "_" +:+ FILE_NAME +:+ "_")
  then Str.drop (Str.len IMAGE + 1) field
  else field.

Definition is_path_name_feature (feature : string) : bool :=
  Str.startswith feature (PATH_NAME +:+ "_").

Definition is_file_name_feature (feature : string) : bool :=
  Str.startswith feature (FILE_NAME +:+ "_").

Definition get_image_name (feature : string) : res string :=
  if is_path_name_feature feature
  then Ok (Str.drop (Str.len (PATH_NAME +:+ "_")) feature)
  else if is_file_name_feature feature
  then Ok (Str.drop (Str.len (FILE_NAME +:+ "_")) feature)
  else Raise (ValueError (quote +:+ feature +:+ quote +:+
                          " is not a path feature or file name feature")).

Definition make_path_name_feature (image : string) : string :=
  PATH_NAME +:+ "_" +:+ image.

Definition make_file_name_feature (image : string) : string :=
  FILE_NAME +:+ "_" +:+ image.

(** ** Values and columns

    [F] is the type of Python floats.  A column is a numpy array: all
    integers, all floats or all strings. *)

Inductive pyval (F : Type) : Type :=
| VInt (z : Z)
| VFloat (f : F)
| VStr (s : string).
Arguments VInt {F} z.
Arguments VFloat {F} f.
Arguments VStr {F} s.

Inductive column (F : Type) : Type :=
| IntColumn (l : list Z)
| FloatColumn (l : list F)
| StrColumn (l : list string).
Arguments IntColumn {F} l.
Arguments FloatColumn {F} l.
Arguments StrColumn {F} l.

Definition column_values {F} (c : column F) : list (pyval F) :=
  match c with
  | IntColumn l => VInt <$> l
  | FloatColumn l => VFloat <$> l
  | StrColumn l => VStr <$> l
  end.

Definition column_len {F} (c : column F) : nat := length (column_values c).

(** ** The file system and the csv reader

    A file is what [csv.reader] yields for it, record by record: a row of
    fields, or a record that makes the reader raise [csv.Error]. *)

Inductive csv_item : Type :=
| CsvRow (row : list string)
| CsvBad.

Record file : Type := {
  st_ctime : Z;
  content : option (list csv_item)   (* [None]: the file cannot be opened *)
}.

Definition os_stat (fs : gmap string file) (path : string) : res Z :=
  match fs !! path with
  | Some f => Ok (st_ctime f)
  | None => Raise OSError
  end.

Definition open_csv (fs : gmap string file) (path : string)
  : res (list csv_item) :=
  match fs !! path with
  | Some f => match content f with
              | Some c => Ok c
              | None => Raise IOError
              end
  | None => Raise IOError
  end.

(** [reader.next()] *)
Definition reader_next (reader : list csv_item)
  : res (list string * list csv_item) :=
  match reader with
  | [] => Raise StopIteration
  | CsvBad :: _ => Raise CsvError
  | CsvRow row :: rest => Ok (row, rest)
  end.

(** [[row for row in reader]] *)
Fixpoint read_all (reader : list csv_item) : res (list (list string)) :=
  match reader with
  | [] => Ok []
  | CsvBad :: _ => Raise CsvError
  | CsvRow row :: rest => let* rows := read_all rest in Ok (row :: rows)
  end.

(** ** Settings, the image set list and the header cache *)

Record settings : Type := {
  csv_path : string;        (* the resolved path of the CSV file *)
  csv_file_name : string;
  wants_images : bool;
  wants_rows : bool;
  row_range_min : Z;
  row_range_max : Z;
  module_num : Z
}.

(** What [image_set_list.get_image_set] is called with. *)
Inductive unit_key (F : Type) : Type :=
| ByKey (key : gmap string (pyval F))
| ByNumber (i : nat).
Arguments ByKey {F} key.
Arguments ByNumber {F} i.

(** The image set list as this module sees it: the [associating_by_key]
    attribute ([None], [True] or [False]), the calls of [get_image_set]
    in order, and the [legacy_fields] dictionary. *)
Record image_set_list (F : Type) : Type := {
  associating_by_key : option bool;
  requested : list (unit_key F);
  legacy_fields : gmap string (gmap string (column F))
}.
Arguments associating_by_key {F} _.
Arguments requested {F} _.
Arguments legacy_fields {F} _.

(** A declared measurement column: object name, column name, type. *)
Definition measurement_column : Type := string * string * coltype.

(** An entry of [header_cache]. *)
Record cache_entry : Type := {
  e_ctime : Z;
  e_header : option (list string);
  e_measurement_columns : option (list measurement_column)
}.

(** The dictionaries that [prepare_run] fills column by column. *)
Record tables (F : Type) : Type := {
  dictionary : gmap string (column F);
  metadata : gmap string (column F);
  images : gmap string (gmap string (list string))
}.
Arguments dictionary {F} _.
Arguments metadata {F} _.
Arguments images {F} _.

Definition legacy_field_key (s : settings) : string :=
  "LoadTextMetadata_" +:+ pretty (module_num s).

(** ** Reference conversions

    [int(x)] and [float(x)] are Python built-ins, and the model takes them
    as parameters.  The conversions below read plain decimal literals (an
    optional sign, digits, and for floats an optional fraction), with
    floats as exact rationals; they are used to run the model on concrete
    files. *)

Module Ref.

Fixpoint digits (acc : Z) (s : string) : option Z :=
  match s with
  | EmptyString => Some acc
  | String c s' =>
      match Ascii.is_nat c with
      | Some d => digits (10 * acc + Z.of_nat d) s'
      | None => None
      end
  end.

Definition unsigned (s : string) : option Z :=
  match s with
  | EmptyString => None
  | _ => digits 0 s
  end.

Definition signed {A} (f : string → option A) (neg : A → A) (s : string)
  : option A :=
  match s with
  | String "-" s' => neg <$> f s'
  | String "+" s' => f s'
  | _ => f s
  end.

Definition int_of_string : string → option Z := signed unsigned Z.opp.

Definition unsigned_float (s : string) : option Q :=
  match Str.split "." s with
  | [ip] => (λ z, inject_Z z) <$> unsigned ip
  | [ip; fp] =>
      (λ z, Qmake z (Nat.iter (Str.len fp) (Pos.mul 10) 1%positive))
        <$> unsigned (ip +:+ fp)
  | _ => None
  end.

Definition float_of_string : string → option Q := signed unsigned_float Qopp.

(** [==] between a value of a column and a value of a key *)
Definition eq (x y : pyval Q) : bool :=
  match x, y with
  | VInt a, VInt b => Z.eqb a b
  | VInt a, VFloat q | VFloat q, VInt a => Qeq_bool (inject_Z a) q
  | VFloat p, VFloat q => Qeq_bool p q
  | VStr s, VStr t => String.eqb s t
  | _, _ => false
  end.

End Ref.

(** ** The module *)

Section LoadData.

Context {F : Type}.
(** [int(x)] and [float(x)] on a string; [None] is [ValueError]. *)
Variable py_int : string → option Z.
Variable py_float : string → option F.
(** [x == y] between a column value and a key value. *)
Variable py_eq : pyval F → pyval F → bool.
(** [cpmeas.PATH_NAME_LENGTH] *)
Variable PATH_NAME_LENGTH : nat.
(** The MD5 digest of the pixel data of the current image set's image of
    the given name; fetching the image may raise. *)
Variable image_md5 : string → res string.

(** Return the best cast (integer, float or string) of the sequence *)
Definition best_cast (sequence : list string) : column F :=
  match mapM py_int sequence with
  | Some ints => IntColumn ints
  | None =>
      match mapM py_float sequence with
      | Some floats => FloatColumn floats
      | None => StrColumn sequence
      end
  end.

(** *** The header cache *)

(** Get the cached information for the data file.  The entry returned is
    the dictionary stored in the cache under the path, when there is one:
    later assignments to it are [alter]s of the cache at that path. *)
Definition get_cache_info (s : settings) (fs : gmap string file)
    (header_cache : gmap string cache_entry)
  : res cache_entry * gmap string cache_entry :=
  let entry :=
    default {| e_ctime := 0; e_header := None;
               e_measurement_columns := None |}
            (header_cache !! csv_path s) in
  match os_stat fs (csv_path s) with
  | Raise e => (Raise e, header_cache)
  | Ok ctime =>
      if e_ctime entry <? ctime then
        let entry := {| e_ctime := ctime; e_header := None;
                        e_measurement_columns := None |} in
        (Ok entry, <[csv_path s := entry]> header_cache)
      else (Ok entry, header_cache)
  end.

Definition set_header (h : list string) (e : cache_entry) : cache_entry :=
  {| e_ctime := e_ctime e; e_header := Some h;
     e_measurement_columns := e_measurement_columns e |}.

Definition set_measurement_columns (c : list measurement_column)
    (e : cache_entry) : cache_entry :=
  {| e_ctime := e_ctime e; e_header := e_header e;
     e_measurement_columns := Some c |}.

(** Read the header fields from the csv file *)
Definition get_header (s : settings) (fs : gmap string file)
    (header_cache : gmap string cache_entry)
  : res (list string) * gmap string cache_entry :=
  match get_cache_info s fs header_cache with
  | (Raise e, hc) => (Raise e, hc)
  | (Ok entry, hc) =>
      match e_header entry with
      | Some header => (Ok header, hc)
      | None =>
          match (let* reader := open_csv fs (csv_path s) in
                 reader_next reader) with
          | Raise e => (Raise e, hc)
          | Ok (header, _) =>
              let header := header_to_column <$> header in
              (Ok header, alter (set_header header) (csv_path s) hc)
          end
      end
  end.

(** Get name providers from the CSV header *)
Definition other_providers (s : settings) (fs : gmap string file)
    (header_cache : gmap string cache_entry) (group : string)
  : list string * gmap string cache_entry :=
  if String.eqb group "imagegroup" && wants_images s then
    match get_header s fs header_cache with
    | (Ok header, hc) =>
        match for_each get_image_name (filter is_file_name_feature header) with
        | Ok names => (names, hc)
        | Raise _ => ([], hc)
        end
    | (Raise _, hc) => ([], hc)
    end
  else ([], header_cache).

(** *** prepare_run *)

Definition skip_message (i : Z) (n_row n_header : nat) : string :=
  "Row # " +:+ pretty i +:+ " has the wrong number of elements: " +:+
  pretty n_row +:+ ". Expected " +:+ pretty n_header.

Definition line_message (s : settings) (i : nat) (row : list string)
    (n_header : nat) : string :=
  "Error on line " +:+ pretty (i + 2)%nat +:+ " of " +:+ csv_file_name s +:+
  "." +:+ newline +:+ newline +:+ quote +:+ Str.join "," row +:+ quote +:+
  newline +:+ pretty (length row) +:+ " rows found, expected " +:+
  pretty n_header.

Definition image_message (image : string) : string :=
  "The CSV file has an Image_PathName_" +:+ image +:+
  " metadata column without a corresponding Image_FileName_" +:+ image +:+
  " column".

Definition batch_message (s : settings) : string :=
  "Can't find the CSV file, " +:+ quote +:+ csv_path s +:+ quote +:+
  ". Please check that the name matches exactly, including the case".

(** [for i in range(n): reader.next()] *)
Fixpoint skip_rows (n : nat) (reader : list csv_item)
  : res (list csv_item) :=
  match n with
  | O => Ok reader
  | S n' => let* next := reader_next reader in skip_rows n' next.2
  end.

(** The loop that reads the rows of the requested range. *)
Fixpoint read_range (n_header : nat) (max : Z) (reader : list csv_item)
    (i : Z) (rows : list (list string)) : res (list (list string)) :=
  match reader with
  | [] => Ok rows
  | CsvBad :: _ => Raise CsvError
  | CsvRow row :: rest =>
      if bool_decide (length row ≠ n_header)
      then Raise (ValueError (skip_message i (length row) n_header))
      else
        let rows := rows ++ [row] in
        if bool_decide (i = max - 1) then Ok rows
        else read_range n_header max rest (i + 1) rows
  end.

Definition load_rows (s : settings) (header : list string)
    (reader : list csv_item) : res (list (list string)) :=
  if wants_rows s then
    let n_to_skip := row_range_min s - 1 in
    let i := 0 in
    let* reader := skip_rows (Z.to_nat n_to_skip) reader in
    let i := if 0 <? n_to_skip then n_to_skip - 1 else i in
    let i := i + 1 in
    read_range (length header) (row_range_max s) reader i []
  else read_all reader.

(** Check for correct # of columns *)
Fixpoint check_rows (s : settings) (n_header : nat) (i : nat)
    (rows : list (list string)) : res unit :=
  match rows with
  | [] => Ok ()
  | row :: rest =>
      if bool_decide (length row ≠ n_header)
      then Raise (ValueError (line_message s i row n_header))
      else check_rows s n_header (S i) rest
  end.

Definition add_image (image part : string) (column : list string)
    (images : gmap string (gmap string (list string)))
  : gmap string (gmap string (list string)) :=
  let images :=
    if bool_decide (is_Some (images !! image)) then images
    else <[image := ∅]> images in
  alter (insert part column) image images.

(** [[row[i] for row in rows]] *)
Definition column_cells (rows : list (list string)) (i : nat)
  : res (list string) :=
  for_each (λ row, list_get row i) rows.

(** Arrange the metadata in columns: the body of the loop over the
    header. *)
Definition arrange_column (s : settings) (header : list string)
    (rows : list (list string)) (i : nat) (t : tables F) : res (tables F) :=
  let* column := column_cells rows i in
  let* h := list_get header i in
  if Str.startswith h "Metadata_" then
    let key := Str.drop (Str.len "Metadata_") h in
    let cast := best_cast column in
    Ok {| dictionary := <[h := cast]> (dictionary t);
          metadata := <[key := cast]> (metadata t);
          images := images t |}
  else if wants_images s && is_file_name_feature h then
    let* image := get_image_name h in
    Ok {| dictionary := <[h := StrColumn column]> (dictionary t);
          metadata := metadata t;
          images := add_image image FILE_NAME column (images t) |}
  else if wants_images s && is_path_name_feature h then
    let* image := get_image_name h in
    Ok {| dictionary := <[h := StrColumn column]> (dictionary t);
          metadata := metadata t;
          images := add_image image PATH_NAME column (images t) |}
  else
    Ok {| dictionary := <[h := best_cast column]> (dictionary t);
          metadata := metadata t;
          images := images t |}.

Definition arrange (s : settings) (header : list string)
    (rows : list (list string)) : res (tables F) :=
  for_fold (arrange_column s header rows) (seq 0 (length header))
    {| dictionary := ∅; metadata := ∅; images := ∅ |}.

(** [for image in images.keys(): ...].  The order in which a Python
    dictionary yields its keys is not specified; [map_to_list] stands for
    it here and in [run], and no property below depends on the order. *)
Definition check_images (images : gmap string (gmap string (list string)))
  : res unit :=
  for_fold (λ '(image, parts) _,
              if bool_decide (is_Some (parts !! FILE_NAME)) then Ok ()
              else Raise (ValueError (image_message image)))
           (map_to_list images) ().

(** The key of row [i]: every metadata column's value at that row. *)
Definition key_at (metadata : gmap string (column F)) (i : nat)
  : res (gmap string (pyval F)) :=
  if bool_decide (map_Forall (λ _ c, i < column_len c)%nat metadata)
  then Ok (omap (λ c, column_values c !! i) metadata)
  else Raise IndexError.

Definition use_key (isl : image_set_list F) : bool :=
  negb (bool_decide (associating_by_key isl = Some false)).

(** Populate the image set list *)
Definition populate (isl : image_set_list F)
    (metadata : gmap string (column F)) (rows : list (list string))
  : res (list (unit_key F)) :=
  for_each (λ i,
              if negb (size metadata =? 0)%nat && use_key isl
              then let* key := key_at metadata i in Ok (ByKey key)
              else Ok (ByNumber i))
           (seq 0 (length rows)).

(** Load the CSV file at the outset and populate the image set list *)
Definition prepare_run (s : settings) (in_batch_mode : bool)
    (fs : gmap string file) (isl : image_set_list F)
  : res (bool * image_set_list F) :=
  if in_batch_mode then
    if bool_decide (is_Some (fs !! csv_path s)) then Ok (true, isl)
    else Raise (ValueError (batch_message s))
  else
    let* fd := open_csv fs (csv_path s) in
    let* next := reader_next fd in
    let '(first, reader) := next in
    let header := header_to_column <$> first in
    let* rows := load_rows s header reader in
    let* _ := check_rows s (length header) 0 rows in
    let* t := arrange s header rows in
    let* _ := check_images (images t) in
    let* units := populate isl (metadata t) rows in
    Ok (true,
        {| associating_by_key := associating_by_key isl;
           requested := requested isl ++ units;
           legacy_fields :=
             <[legacy_field_key s := dictionary t]> (legacy_fields isl) |}).

(** *** run *)

(** Whether the image set carries more than its number:
    [len(keys.keys()) > 1 or keys.keys()[0] != 'number']. *)
Definition has_metadata_keys (image_set_keys : gmap string (pyval F))
  : res bool :=
  let keys := (map_to_list image_set_keys).*1 in
  if (1 <? length keys)%nat then Ok true
  else let* k := list_get keys 0 in Ok (negb (String.eqb k "number")).

(** The inner loop: does row [index] fail to match some key? *)
Fixpoint match_failure (d : gmap string (column F)) (index : Z)
    (keys : list (string * pyval F)) : res bool :=
  match keys with
  | [] => Ok false
  | (key, wanted) :: rest =>
      let md_key := "Metadata_" +:+ key in
      match d !! md_key with
      | None => Raise (KeyError md_key)
      | Some column =>
          let* value := py_index (column_values column) index in
          if negb (py_eq value wanted) then Ok true
          else match_failure d index rest
      end
  end.

(** Match keys against each dictionary entry.  [index] is the loop
    variable: [None] while it is unbound. *)
Fixpoint match_rows (d : gmap string (column F))
    (keys : list (string * pyval F)) (indices : list nat)
    (index : option Z) : res (option Z) :=
  match indices with
  | [] => Ok index
  | i :: rest =>
      let index := Z.of_nat i in
      let* failure := match_failure d index keys in
      if negb failure then Ok (Some index)
      else match_rows d keys rest (Some index)
  end.

Definition find_index (d : gmap string (column F))
    (image_set_keys : gmap string (pyval F)) (image_set_number : Z)
  : res (option Z) :=
  let* by_key := has_metadata_keys image_set_keys in
  if by_key then
    let* first := list_get (map_to_list d).*2 0 in
    match_rows d (map_to_list image_set_keys)
               (seq 0 (column_len first)) None
  else Ok (Some (image_set_number - 1)).

Definition publish_columns (d : gmap string (column F)) (index : option Z)
  : res (list (string * pyval F)) :=
  for_each (λ '(feature_name, column),
              let* index :=
                match index with
                | Some i => Ok i
                | None => Raise (UnboundLocalError "index")
                end in
              let* value := py_index (column_values column) index in
              Ok (feature_name, value))
           (map_to_list d).

(** Calculate the MD5 hash of every image *)
Definition publish_digests (image_names : list string)
  : res (list (string * pyval F)) :=
  for_each (λ image_name,
              let* md5 := image_md5 image_name in
              Ok ("MD5Digest_" +:+ image_name, VStr md5))
           image_names.

(** Populate the image measurements on each run iteration: the result is
    the list of the calls of [add_image_measurement].  The table shown
    when a frame is attached is left out. *)
Definition run (s : settings) (fs : gmap string file)
    (header_cache : gmap string cache_entry) (isl : image_set_list F)
    (image_set_keys : gmap string (pyval F)) (image_set_number : Z)
  : res (list (string * pyval F)) * gmap string cache_entry :=
  match (let* d :=
           match legacy_fields isl !! legacy_field_key s with
           | Some d => Ok d
           | None => Raise (KeyError (legacy_field_key s))
           end in
         let* index := find_index d image_set_keys image_set_number in
         publish_columns d index) with
  | Raise e => (Raise e, header_cache)
  | Ok statistics =>
      let '(image_names, hc) :=
        other_providers s fs header_cache "imagegroup" in
      (let* digests := publish_digests image_names in
       Ok (statistics ++ digests), hc)
  end.

(** *** Introspection and column declarations *)

Definition get_categories (s : settings) (fs : gmap string file)
    (header_cache : gmap string cache_entry) (object_name : string)
  : list string * gmap string cache_entry :=
  if negb (String.eqb object_name IMAGE) then ([], header_cache)
  else
    match get_header s fs header_cache with
    | (Ok header, hc) =>
        ((λ x, default "" (head (Str.split "_" x))) <$> header, hc)
    | (Raise _, hc) => ([], hc)
    end.

Definition get_measurements (s : settings) (fs : gmap string file)
    (header_cache : gmap string cache_entry) (object_name category : string)
  : list string * gmap string cache_entry :=
  if negb (String.eqb object_name IMAGE) then ([], header_cache)
  else
    match get_header s fs header_cache with
    | (Ok header, hc) =>
        ((λ x, Str.join "_" (tail (Str.split "_" x))) <$>
           filter (λ x, default "" (head (Str.split "_" x)) = category)
                  header,
         hc)
    | (Raise _, hc) => ([], hc)
    end.

(** The body of the loop over the fields of a row.  [len_field], the
    padded length of a path name, is computed as in the source, which
    never reads it. *)
Definition scan_field (s : settings) (field : string) (index : nat)
    (st : list coltype * list nat) : res (list coltype * list nat) :=
  let '(coltypes, collen) := st in
  let len_field := Str.len field in
  let len_field :=
    if Str.startswith field PATH_NAME && wants_images s
    then Nat.max PATH_NAME_LENGTH (len_field + PATH_PADDING)
    else len_field in
  let widen (coltypes : list coltype) :=
    let* known := list_get collen index in
    if (known <? Str.len field)%nat
    then Ok (<[index := COLTYPE_VARCHAR (Str.len field)]> coltypes,
             <[index := Str.len field]> collen)
    else Ok (coltypes, collen) in
  let try_float (coltypes : list coltype) :=
    let* coltype := list_get coltypes index in
    match coltype with
    | COLTYPE_FLOAT =>
        match py_float field with
        | Some _ => Ok (coltypes, collen)
        | None => widen (<[index := COLTYPE_VARCHAR (Str.len field)]> coltypes)
        end
    | _ => widen coltypes
    end in
  let* coltype := list_get coltypes index in
  match coltype with
  | COLTYPE_INTEGER =>
      match py_int field with
      | Some _ => Ok (coltypes, collen)
      | None => try_float (<[index := COLTYPE_FLOAT]> coltypes)
      end
  | _ => try_float coltypes
  end.

Definition scan_row (s : settings) (row : list string)
    (st : list coltype * list nat) : res (list coltype * list nat) :=
  for_fold (λ '(field, index) st, scan_field s field index st)
           (zip row (seq 0 (length row))) st.

(** [for row in reader: ...] *)
Fixpoint scan_reader (s : settings) (reader : list csv_item)
    (st : list coltype * list nat) : res (list coltype * list nat) :=
  match reader with
  | [] => Ok st
  | CsvBad :: _ => Raise CsvError
  | CsvRow row :: rest => let* st := scan_row s row st in scan_reader s rest st
  end.

(** Return column definitions for measurements output by this module *)
Definition get_measurement_columns (s : settings) (fs : gmap string file)
    (header_cache : gmap string cache_entry)
  : res (list measurement_column) * gmap string cache_entry :=
  match get_cache_info s fs header_cache with
  | (Raise _, hc) => (Ok [], hc)
  | (Ok entry, hc) =>
      match e_measurement_columns entry with
      | Some columns => (Ok columns, hc)
      | None =>
          match (let* fd := open_csv fs (csv_path s) in reader_next fd) with
          | Raise _ =>
              (Ok [], alter (set_measurement_columns []) (csv_path s) hc)
          | Ok (first, reader) =>
              let header := header_to_column <$> first in
              let coltypes := replicate (length header) COLTYPE_INTEGER in
              let collen := replicate (length header) 0%nat in
              match scan_reader s reader (coltypes, collen) with
              | Raise e => (Raise e, hc)
              | Ok (coltypes, _) =>
                  let '(image_names, hc) :=
                    other_providers s fs hc "imagegroup" in
                  let result :=
                    ((λ '(colname, coltype), (IMAGE, colname, coltype)) <$>
                       zip header coltypes) ++
                    ((λ image_name,
                        (IMAGE, "MD5Digest_" +:+ image_name,
                         COLTYPE_VARCHAR 32)) <$> image_names) in
                  (Ok result,
                   alter (set_measurement_columns result) (csv_path s) hc)
              end
          end
      end
  end.

End LoadData.

(** ** Folder choices, earlier settings and batch files *)

Definition DIR_DEFAULT_IMAGE : string := "Default Input Folder".
Definition DIR_DEFAULT_OUTPUT : string := "Default Output Folder".
Definition DIR_NONE : string := "None".
Definition DIR_OTHER : string := "Elsewhere...".

(** The folder settings of the module. *)
Record locations : Type := {
  csv_directory_choice : string;
  csv_custom_directory : string;
  image_directory_choice : string;
  image_custom_directory : string
}.

Section Upgrade.

(** [cps.NO] *)
Variable NO : string.

(** Bring the settings of an earlier revision to the current one.  The
    warning written to [sys.stderr] is left out; the result is the triple
    that the method returns. *)
Definition upgrade_settings (setting_values : list string)
    (variable_revision_number : Z) (from_matlab : bool)
  : res (list string * Z * bool) :=
  let* st :=
    if from_matlab && (variable_revision_number =? 2) then
      let* text_file_name := list_get setting_values 0 in
      let* field_name := list_get setting_values 1 in
      let* path_name := list_get setting_values 2 in
      let path_choice :=
        if String.eqb path_name "." then DIR_DEFAULT_IMAGE
        else if String.eqb path_name "&" then DIR_DEFAULT_OUTPUT
        else DIR_OTHER in
      Ok ([path_choice; path_name; text_file_name; NO; DIR_DEFAULT_IMAGE;
           "."; NO; "1,100000"], 1, false)
    else Ok (setting_values, variable_revision_number, from_matlab) in
  let '(setting_values, variable_revision_number, from_matlab) := st in
  let '(setting_values, variable_revision_number) :=
    if negb from_matlab && (variable_revision_number =? 1)
    then (setting_values ++ [NO; ""], 2)
    else (setting_values, variable_revision_number) in
  if (variable_revision_number =? 2) && negb from_matlab then
    let* first := list_get setting_values 0 in
    let setting_values :=
      if Str.startswith first "Default Image"
      then [DIR_DEFAULT_IMAGE] ++ drop 1 setting_values
      else if Str.startswith first "Default Output"
      then [DIR_DEFAULT_OUTPUT] ++ drop 1 setting_values
      else setting_values in
    let* fifth := list_get setting_values 4 in
    let setting_values :=
      if Str.startswith fifth "Default Image"
      then take 4 setting_values ++ [DIR_DEFAULT_IMAGE] ++
           drop 5 setting_values
      else if Str.startswith fifth "Default Output"
      then take 4 setting_values ++ [DIR_DEFAULT_OUTPUT] ++
           drop 5 setting_values
      else setting_values in
    Ok (setting_values, 3, from_matlab)
  else Ok (setting_values, variable_revision_number, from_matlab).

End Upgrade.

Section Batch.

Context {F : Type}.
(** [cpprefs.get_default_image_directory()],
    [cpprefs.get_default_output_directory()] and
    [cpprefs.get_absolute_path] *)
Variable default_image_directory : string.
Variable default_output_directory : string.
Variable get_absolute_path : string → string.
(** The function that takes a pathname on the local host and returns a
    pathname on the remote host.  It is applied to the elements of the
    path name columns and to the folder settings, and it may raise. *)
Variable fn_alter_path : pyval F → res string.

(** [dictionary[key] = np.array([fn_alter_path(path) for path in
    dictionary[key]])] *)
Definition alter_column (key : string) (d : gmap string (column F))
  : res (gmap string (column F)) :=
  let* column :=
    match d !! key with
    | Some column => Ok column
    | None => Raise (KeyError key)
    end in
  let* paths := for_each fn_alter_path (column_values column) in
  Ok (<[key := StrColumn paths]> d).

(** Prepare to create a batch file.  The dictionary is the one stored in
    the image set list, so the new columns are seen there. *)
Definition prepare_to_create_batch (s : settings) (loc : locations)
    (isl : image_set_list F) : res (bool * locations * image_set_list F) :=
  let* d :=
    match legacy_fields isl !! legacy_field_key s with
    | Some d => Ok d
    | None => Raise (KeyError (legacy_field_key s))
    end in
  let path_keys := filter (λ key, is_path_name_feature key = true)
                          (map_to_list d).*1 in
  let* d := for_fold alter_column path_keys d in
  let '(choice, custom) :=
    if String.eqb (csv_directory_choice loc) DIR_DEFAULT_IMAGE
    then (DIR_OTHER, default_image_directory)
    else if String.eqb (csv_directory_choice loc) DIR_DEFAULT_OUTPUT
    then (DIR_OTHER, default_output_directory)
    else (csv_directory_choice loc,
          get_absolute_path (csv_custom_directory loc)) in
  let* custom := fn_alter_path (VStr custom) in
  let* image_custom := fn_alter_path (VStr (image_custom_directory loc)) in
  Ok (true,
      {| csv_directory_choice := choice;
         csv_custom_directory := custom;
         image_directory_choice := image_directory_choice loc;
         image_custom_directory := image_custom |},
      {| associating_by_key := associating_by_key isl;
         requested := requested isl;
         legacy_fields :=
           <[legacy_field_key s := d]> (legacy_fields isl) |}).

End Batch.

(** The choices that [visible_settings] gives to the metadata fields
    setting when images are grouped by metadata. *)
Definition metadata_field_choices (s : settings) (fs : gmap string file)
    (header_cache : gmap string cache_entry)
  : res (list string) * gmap string cache_entry :=
  if bool_decide (is_Some (fs !! csv_path s)) then
    match get_header s fs header_cache with
    | (Ok header, hc) =>
        (Ok (Str.drop (Str.len "Metadata_") <$>
               filter (λ field, Str.startswith field "Metadata_" = true)
                      header),
         hc)
    | (Raise e, hc) => (Raise e, hc)
    end
  else (Ok ["No CSV file"], header_cache).

(** ** Sample inputs *)

Module Sample.

Definition settings_with (images rows : bool) (min max : Z) : settings :=
  {| csv_path := "/data/plate.csv"; csv_file_name := "plate.csv";
     wants_images := images; wants_rows := rows;
     row_range_min := min; row_range_max := max; module_num := 1 |}.

Definition disk (records : list csv_item) : gmap string file :=
  {[ "/data/plate.csv" := {| st_ctime := 1278000000;
                             content := Some records |} ]}.

Definition fresh (by_key : option bool) : image_set_list Q :=
  {| associating_by_key := by_key; requested := []; legacy_fields := ∅ |}.

Definition best_cast := best_cast Ref.int_of_string Ref.float_of_string.

Definition prepare_run :=
  prepare_run Ref.int_of_string Ref.float_of_string.

Definition get_measurement_columns :=
  get_measurement_columns Ref.int_of_string Ref.float_of_string 256.

Definition run := run Ref.eq (λ _, Ok "d41d8cd98f00b204e9800998ecf8427e").

(** Two plates, keyed by their metadata. *)
Definition plates : list csv_item :=
  [CsvRow ["Metadata_Plate"; "Titration"];
   CsvRow ["P1"; "750"];
   CsvRow ["P2"; "2750"]].

(** A header of four fields and a second data row of three. *)
Definition short_row_header : list string :=
  ["Image_FileName_DNA"; "Metadata_Plate"; "Metadata_Well"; "Dose"].

Definition short_row_rows : list (list string) :=
  [["a.tif"; "P1"; "A01"; "1"]; ["b.tif"; "P1"; "A02"]].

(** Three wells, one per row. *)
Definition wells : list csv_item :=
  [CsvRow ["Well"]; CsvRow ["A01"]; CsvRow ["A02"]; CsvRow ["A03"]].

(** Rows of one, two and three fields under a header of two. *)
Definition ragged : list csv_item :=
  [CsvRow ["Well"; "Dose"];
   CsvRow ["A01"];
   CsvRow ["A02"; "2"];
   CsvRow ["A03"; "3"; "x"]].

(** A path name column without its file name column. *)
Definition path_only : list csv_item :=
  [CsvRow ["Image_PathName_DAPI"]; CsvRow ["plate1"]].

(** A file whose third record the reader rejects. *)
Definition broken : list csv_item :=
  [CsvRow ["Well"]; CsvRow ["A01"]; CsvBad].

(** A data row with more fields than the header. *)
Definition long_row : list csv_item :=
  [CsvRow ["Well"]; CsvRow ["A01"; "1"]].

(** A path name column, and a column whose first cell is a number. *)
Definition paths_and_wells : list csv_item :=
  [CsvRow ["Image_PathName_DNA"; "Well"];
   CsvRow ["plate1/dna"; "12345"];
   CsvRow ["plate1/dna"; "B"]].

(** The table of [plates] as [prepare_run] stores it. *)
Definition plates_table : gmap string (column Q) :=
  {[ "Metadata_Plate" := StrColumn ["P1"; "P2"];
     "Titration" := IntColumn [750; 2750] ]}.

Definition loaded (table : gmap string (column Q)) : image_set_list Q :=
  {| associating_by_key := Some true; requested := [];
     legacy_fields := {[ "LoadTextMetadata_1" := table ]} |}.

(** A file name and a path name column whose cells look like numbers. *)
Definition numbered_images : list csv_item :=
  [CsvRow ["Image_FileName_DNA"; "Image_PathName_DNA"; "Metadata_Plate"];
   CsvRow ["1"; "2009"; "P1"];
   CsvRow ["2"; "2010"; "P2"]].

(** A column of floats, and a data row shorter than the header. *)
Definition doses : list csv_item :=
  [CsvRow ["Well"; "Dose"]; CsvRow ["A01"; "1"]; CsvRow ["A02"; "2.5"]].

Definition short_rows : list csv_item :=
  [CsvRow ["Well"; "Dose"]; CsvRow ["A01"]].

(** The cache entry of a file that was examined and not read. *)
Definition examined : gmap string cache_entry :=
  {[ "/data/plate.csv" :=
       {| e_ctime := 1278000000; e_header := None;
          e_measurement_columns := None |} ]}.

(** A cache entry older than the file of [disk]. *)
Definition stale : gmap string cache_entry :=
  {[ "/data/plate.csv" :=
       {| e_ctime := 1277000000; e_header := Some ["Old"];
          e_measurement_columns := Some [("Image", "Old", COLTYPE_INTEGER)]
       |} ]}.

(** A table with a path name column, and the folder settings. *)
Definition paths_table : gmap string (column Q) :=
  {[ "PathName_DNA" := StrColumn ["plate1"; "plate2"];
     "FileName_DNA" := StrColumn ["a.tif"; "b.tif"] ]}.

Definition folders : locations :=
  {| csv_directory_choice := DIR_DEFAULT_IMAGE;
     csv_custom_directory := ".";
     image_directory_choice := DIR_DEFAULT_IMAGE;
     image_custom_directory := "." |}.

(** A function that alters paths: it puts them under a remote folder. *)
Definition to_remote (path : pyval Q) : res string :=
  match path with
  | VStr p => Ok ("/remote/" +:+ p)
  | _ => Raise (ValueError "not a path")
  end.

Definition prepare_to_create_batch :=
  prepare_to_create_batch (F:=Q) "/input" "/output" (λ p, p) to_remote.

Definition run_settings : settings := settings_with true false 1 1.

End Sample.

(** ** Facts about strings *)

Lemma Str_app_cons a (s t : string) : String a s +:+ t = String a (s +:+ t).
Proof. reflexivity. Qed.

Lemma Str_startswith_app p s : Str.startswith (p +:+ s) p = true.
Proof.
  unfold Str.startswith. induction p as [|a p IH].
  - by destruct s.
  - rewrite Str_app_cons. simpl.
    destruct (ascii_dec a a); [exact IH | congruence].
Qed.

Lemma Str_drop_app p s : Str.drop (String.length p) (p +:+ s) = s.
Proof. induction p as [|a p IH]; [by destruct s | exact IH]. Qed.

Lemma Str_startswith_split s p :
  Str.startswith s p = true → s = p +:+ Str.drop (String.length p) s.
Proof.
  unfold Str.startswith. revert s.
  induction p as [|a p IH]; intros s Hp.
  - by destruct s.
  - destruct s as [|b s]; simpl in *; [done|].
    destruct (ascii_dec a b) as [->|]; [|done].
    rewrite Str_app_cons. f_equal. by apply IH.
Qed.

Lemma Str_startswith_spec s p :
  Str.startswith s p = true ↔ ∃ t, s = p +:+ t.
Proof.
  split.
  - intros H. eexists. by apply Str_startswith_split.
  - intros [t ->]. apply Str_startswith_app.
Qed.

(** ** Header helpers *)

Ltac show_prefixes :=
  unfold header_to_column;
  change (IMAGE +:+ "_" +:+ PATH_NAME +:+ "_") with "Image_PathName_";
  change (IMAGE +:+ "_" +:+ FILE_NAME +:+ "_") with "Image_FileName_".

Lemma header_to_column_path x :
  header_to_column ("Image_PathName_" +:+ x) = "PathName_" +:+ x.
Proof. show_prefixes. by rewrite Str_startswith_app. Qed.

Lemma header_to_column_file x :
  header_to_column ("Image_FileName_" +:+ x) = "FileName_" +:+ x.
Proof.
  show_prefixes. rewrite Str_startswith_app.
  by destruct (Str.startswith _ _).
Qed.

Lemma not_startswith_other_head a b (p s t : string) :
  a ≠ b → Str.startswith (String b s +:+ t) (String a p) = false.
Proof.
  intros Hab. unfold Str.startswith. rewrite Str_app_cons. simpl.
  by destruct (ascii_dec a b).
Qed.

Lemma header_to_column_metadata x :
  header_to_column ("Metadata_" +:+ x) = "Metadata_" +:+ x.
Proof. show_prefixes. by rewrite !not_startswith_other_head. Qed.

Lemma is_feature_make image :
  is_path_name_feature (make_path_name_feature image) = true ∧
  is_file_name_feature (make_file_name_feature image) = true ∧
  is_path_name_feature (make_file_name_feature image) = false ∧
  is_file_name_feature (make_path_name_feature image) = false.
Proof.
  unfold is_path_name_feature, is_file_name_feature, make_path_name_feature,
    make_file_name_feature.
  change (PATH_NAME +:+ "_" +:+ image) with ((PATH_NAME +:+ "_") +:+ image).
  change (FILE_NAME +:+ "_" +:+ image) with ((FILE_NAME +:+ "_") +:+ image).
  rewrite !Str_startswith_app. split_and!; done.
Qed.

Lemma header_to_column_other field :
  Str.startswith field "Image_FileName_" = false →
  Str.startswith field "Image_PathName_" = false →
  header_to_column field = field.
Proof. intros Hf Hp. show_prefixes. by rewrite Hf, Hp. Qed.

Lemma header_to_column_cases field :
  (∃ x, field = "Image_PathName_" +:+ x ∧
        header_to_column field = "PathName_" +:+ x) ∨
  (∃ x, field = "Image_FileName_" +:+ x ∧
        header_to_column field = "FileName_" +:+ x) ∨
  (Str.startswith field "Image_FileName_" = false ∧
   Str.startswith field "Image_PathName_" = false ∧
   header_to_column field = field).
Proof.
  destruct (Str.startswith field "Image_PathName_") eqn:Hp.
  { left. apply Str_startswith_spec in Hp as [x ->]. exists x.
    by rewrite header_to_column_path. }
  destruct (Str.startswith field "Image_FileName_") eqn:Hf.
  { right; left. apply Str_startswith_spec in Hf as [x ->]. exists x.
    by rewrite header_to_column_file. }
  right; right. by rewrite header_to_column_other.
Qed.

(** C8: header normalization is a total function, it is idempotent, it
    maps "Image_FileName_X" to "FileName_X" and "Image_PathName_X" to
    "PathName_X" for every suffix X, and it leaves every name that starts
    with neither prefix (a "Metadata_" name among them) unchanged. *)
Theorem header_to_column_normalizes (field x : string) :
  header_to_column (header_to_column field) = header_to_column field ∧
  header_to_column ("Image_FileName_" +:+ x) = "FileName_" +:+ x ∧
  header_to_column ("Image_PathName_" +:+ x) = "PathName_" +:+ x ∧
  header_to_column ("Metadata_" +:+ x) = "Metadata_" +:+ x ∧
  (Str.startswith field "Image_FileName_" = false →
   Str.startswith field "Image_PathName_" = false →
   header_to_column field = field).
Proof.
  split_and!.
  - destruct (header_to_column_cases field)
      as [(y & -> & ->)|[(y & -> & ->)|(_ & _ & H)]];
      [| |by rewrite !H];
      show_prefixes; by rewrite !not_startswith_other_head.
  - apply header_to_column_file.
  - apply header_to_column_path.
  - apply header_to_column_metadata.
  - apply header_to_column_other.
Qed.

Lemma header_to_column_normalizes_witness :
  header_to_column "Well" = "Well".
Proof.
  apply (header_to_column_normalizes "Well" "CY3"); reflexivity.
Defined.

Lemma get_image_name_file image :
  get_image_name (make_file_name_feature image) = Ok image.
Proof.
  destruct (is_feature_make image) as (Hp & Hf & Hpf & Hfp).
  unfold get_image_name. by rewrite Hpf, Hf.
Qed.

Lemma get_image_name_path image :
  get_image_name (make_path_name_feature image) = Ok image.
Proof.
  destruct (is_feature_make image) as (Hp & Hf & Hpf & Hfp).
  unfold get_image_name. by rewrite Hp.
Qed.

(** C9: the image name of the file name feature, and of the path name
    feature, made from an image name is that image name. *)
Theorem get_image_name_make_feature (image : string) :
  get_image_name (make_file_name_feature image) = Ok image ∧
  get_image_name (make_path_name_feature image) = Ok image.
Proof. split; [apply get_image_name_file | apply get_image_name_path]. Qed.

Lemma file_feature_inv h :
  is_file_name_feature h = true → ∃ image, h = make_file_name_feature image.
Proof.
  intros H. apply Str_startswith_spec in H as [image ->]. by exists image.
Qed.

Lemma path_feature_inv h :
  is_path_name_feature h = true → ∃ image, h = make_path_name_feature image.
Proof.
  intros H. apply Str_startswith_spec in H as [image ->]. by exists image.
Qed.

Lemma metadata_name_inv h :
  Str.startswith h "Metadata_" = true →
  h = "Metadata_" +:+ Str.drop (Str.len "Metadata_") h.
Proof. apply Str_startswith_split. Qed.

Lemma make_file_name_feature_inj image image' :
  make_file_name_feature image = make_file_name_feature image' →
  image = image'.
Proof. intros [= H]. exact H. Qed.

Lemma make_path_name_feature_inj image image' :
  make_path_name_feature image = make_path_name_feature image' →
  image = image'.
Proof. intros [= H]. exact H. Qed.

Lemma metadata_name_inj (name name' : string) :
  "Metadata_" +:+ name = "Metadata_" +:+ name' → name = name'.
Proof. intros [= H]. exact H. Qed.

(** ** Properties of the module *)

Section Properties.

Context {F : Type}.
Variable py_int : string → option Z.
Variable py_float : string → option F.
Variable py_eq : pyval F → pyval F → bool.
Variable PATH_NAME_LENGTH : nat.
Variable image_md5 : string → res string.

(** *** Type inference *)

Lemma best_cast_int sequence ints :
  mapM py_int sequence = Some ints →
  best_cast py_int py_float sequence = IntColumn ints.
Proof. intros H. unfold best_cast. by rewrite H. Qed.

Lemma best_cast_float sequence floats :
  mapM py_int sequence = None →
  mapM py_float sequence = Some floats →
  best_cast py_int py_float sequence = FloatColumn floats.
Proof. intros Hi Hf. unfold best_cast. by rewrite Hi, Hf. Qed.

Lemma best_cast_str sequence :
  mapM py_int sequence = None →
  mapM py_float sequence = None →
  best_cast py_int py_float sequence = StrColumn sequence.
Proof. intros Hi Hf. unfold best_cast. by rewrite Hi, Hf. Qed.

Lemma mapM_None_not_all {A B} (f : A → option B) (l : list A) :
  mapM f l = None ↔ ¬ Forall (λ x, is_Some (f x)) l.
Proof.
  rewrite eq_None_not_Some, mapM_is_Some. done.
Qed.

(** C1: if every cell parses as an integer the result is the sequence of
    those integers; otherwise, if every cell parses as a float the result
    is the sequence of those floats; otherwise the result is the original
    sequence of strings. *)
Theorem best_cast_priority (sequence : list string) :
  (Forall (λ x, is_Some (py_int x)) sequence →
   ∃ ints, Forall2 (λ x z, py_int x = Some z) sequence ints ∧
           best_cast py_int py_float sequence = IntColumn ints) ∧
  (¬ Forall (λ x, is_Some (py_int x)) sequence →
   Forall (λ x, is_Some (py_float x)) sequence →
   ∃ floats, Forall2 (λ x f, py_float x = Some f) sequence floats ∧
             best_cast py_int py_float sequence = FloatColumn floats) ∧
  (¬ Forall (λ x, is_Some (py_int x)) sequence →
   ¬ Forall (λ x, is_Some (py_float x)) sequence →
   best_cast py_int py_float sequence = StrColumn sequence).
Proof.
  split_and!.
  - intros Hall. apply (mapM_is_Some py_int) in Hall as [ints Hints].
    exists ints. split; [by apply mapM_Some | by apply best_cast_int].
  - intros Hint Hall. apply mapM_None_not_all in Hint.
    apply (mapM_is_Some py_float) in Hall as [floats Hfloats].
    exists floats. split; [by apply mapM_Some | by apply best_cast_float].
  - intros Hint Hfloat.
    apply best_cast_str; by apply mapM_None_not_all.
Qed.

(** *** Loops *)

Lemma for_fold_app {A S} (f : A → S → res S) (l1 l2 : list A) (s : S) :
  for_fold f (l1 ++ l2) s = bind (for_fold f l1 s) (for_fold f l2).
Proof.
  revert s. induction l1 as [|x l1 IH]; intros s; simpl; [done|].
  destruct (f x s); simpl; [apply IH | done].
Qed.

Lemma for_fold_range_inv {S} (P : nat → S → Prop) (f : nat → S → res S)
    (n : nat) (s0 s : S) :
  P 0%nat s0 →
  (∀ k s s', (k < n)%nat → P k s → f k s = Ok s' → P (Datatypes.S k) s') →
  for_fold f (seq 0 n) s0 = Ok s → P n s.
Proof.
  intros H0 Hstep. revert s.
  induction n as [|n IH]; intros s.
  { by intros [= <-]. }
  rewrite seq_S, for_fold_app. simpl.
  destruct (for_fold f (seq 0 n) s0) as [s1|] eqn:E1; simpl; [|done].
  destruct (f n s1) as [s2|] eqn:E2; simpl; [|done].
  intros [= <-]. apply (Hstep n s1); [lia| |done].
  apply IH; [|done]. intros k t t' Hk. apply Hstep. lia.
Qed.

Lemma for_fold_range_ok {S} (f : nat → S → res S) (n : nat) (s0 : S) :
  (∀ k s, (k < n)%nat → ∃ s', f k s = Ok s') →
  ∃ s, for_fold f (seq 0 n) s0 = Ok s.
Proof.
  intros Hstep. induction n as [|n IH]; [by eexists|].
  rewrite seq_S, for_fold_app.
  destruct IH as [s1 ->]; [intros k s Hk; apply Hstep; lia|]. simpl.
  destruct (Hstep n s1) as [s2 ->]; [lia|]. by eexists.
Qed.

Lemma for_each_length {A B} (f : A → res B) (l : list A) (k : list B) :
  for_each f l = Ok k → length k = length l.
Proof.
  revert k. induction l as [|x l IH]; intros k; simpl.
  { by intros [= <-]. }
  destruct (f x); simpl; [|done].
  destruct (for_each f l); simpl; [|done].
  intros [= <-]. simpl. f_equal. by apply IH.
Qed.

Lemma for_each_lookup {A B} (f : A → res B) (l : list A) (k : list B) i x :
  for_each f l = Ok k → l !! i = Some x → ∃ y, k !! i = Some y ∧ f x = Ok y.
Proof.
  revert k i. induction l as [|a l IH]; intros k i; simpl; [done|].
  destruct (f a) as [b|] eqn:Ea; simpl; [|done].
  destruct (for_each f l) as [k'|]; simpl; [|done].
  intros [= <-]. destruct i as [|i]; simpl.
  - intros [= <-]. by exists b.
  - by apply IH.
Qed.

Lemma for_each_ok {A B} (f : A → res B) (l : list A) :
  Forall (λ x, ∃ y, f x = Ok y) l → ∃ k, for_each f l = Ok k.
Proof.
  induction 1 as [|x l [y Hy] _ [k Hk]]; simpl; [by eexists|].
  rewrite Hy, Hk. by eexists.
Qed.

(** *** The columns of the table *)

Lemma column_cells_ok (rows : list (list string)) n j :
  Forall (λ r, length r = n) rows → (j < n)%nat →
  ∃ cells, column_cells rows j = Ok cells.
Proof.
  intros Hrows Hj. apply for_each_ok.
  eapply Forall_impl; [exact Hrows|]. intros r Hr. simpl in *.
  unfold list_get.
  destruct (lookup_lt_is_Some_2 r j) as [x Hx]; [lia|].
  rewrite Hx. by eexists.
Qed.

Lemma column_cells_lookup (rows : list (list string)) j cells i row :
  column_cells rows j = Ok cells → rows !! i = Some row →
  ∃ cell, cells !! i = Some cell ∧ row !! j = Some cell.
Proof.
  intros Hcells Hrow.
  destruct (for_each_lookup _ _ _ _ _ Hcells Hrow) as (cell & Hi & Hget).
  exists cell. split; [done|]. unfold list_get in Hget.
  by destruct (row !! j); simplify_eq.
Qed.

Lemma column_cells_length (rows : list (list string)) j cells :
  column_cells rows j = Ok cells → length cells = length rows.
Proof. apply for_each_length. Qed.

(** *** Reading the rows *)

Lemma read_all_rows (rows : list (list string)) :
  read_all (CsvRow <$> rows) = Ok rows.
Proof. induction rows as [|r rows IH]; [done|]. csimpl. by rewrite IH. Qed.

Lemma skip_rows_rows (n : nat) (rows : list (list string)) :
  (n ≤ length rows)%nat →
  skip_rows n (CsvRow <$> rows) = Ok (CsvRow <$> drop n rows).
Proof.
  revert rows. induction n as [|n IH]; intros rows Hn; [done|].
  destruct rows as [|r rows]; csimpl in *; [lia|]. apply IH. lia.
Qed.

(** How many rows the loop of the range reads when it starts with the
    counter at [i]: it stops after the row read with the counter at
    [max - 1], and reads to the end of the file when the counter starts
    above it. *)
Lemma read_range_rows n max (rows acc : list (list string)) (i : Z) :
  Forall (λ r, length r = n) rows →
  read_range n max (CsvRow <$> rows) i acc =
    Ok (acc ++ (if bool_decide (i ≤ max - 1)
                then take (Z.to_nat (max - i)) rows else rows)).
Proof.
  intros Hrows. revert i acc.
  induction Hrows as [|r rows Hr _ IH]; intros i acc; csimpl.
  - case_bool_decide; by rewrite ?take_nil, app_nil_r.
  - rewrite bool_decide_eq_false_2 by (intros H; by apply H).
    case_bool_decide as Hi.
    + subst i. rewrite bool_decide_eq_true_2 by lia.
      by replace (Z.to_nat (max - (max - 1))) with 1%nat by lia.
    + rewrite IH, <- (assoc_L (++)). csimpl.
      case_bool_decide as Hle.
      * rewrite bool_decide_eq_true_2 by lia.
        by replace (Z.to_nat (max - i)) with (S (Z.to_nat (max - (i + 1))))
          by lia.
      * by rewrite bool_decide_eq_false_2 by lia.
Qed.

(** From the second row on, the range is read as requested. *)
Lemma load_rows_from_later_row s header (rows : list (list string)) :
  wants_rows s = true →
  2 ≤ row_range_min s ≤ row_range_max s →
  row_range_max s ≤ Z.of_nat (length rows) →
  Forall (λ r, length r = length header) rows →
  load_rows s header (CsvRow <$> rows) =
    Ok (take (Z.to_nat (row_range_max s - row_range_min s + 1))
             (drop (Z.to_nat (row_range_min s - 1)) rows)).
Proof.
  intros Hw Hmin Hmax Hrows. unfold load_rows. rewrite Hw.
  rewrite skip_rows_rows by lia. simpl.
  rewrite read_range_rows by by apply Forall_drop.
  replace (0 <? row_range_min s - 1) with true by lia.
  rewrite bool_decide_eq_true_2 by lia. simpl. do 2 f_equal. lia.
Qed.

(** From the first row on, the row numbered [max] is left out. *)
Lemma load_rows_from_first_row s header (rows : list (list string)) :
  wants_rows s = true →
  row_range_min s = 1 →
  2 ≤ row_range_max s →
  Forall (λ r, length r = length header) rows →
  load_rows s header (CsvRow <$> rows) =
    Ok (take (Z.to_nat (row_range_max s - 1)) rows).
Proof.
  intros Hw Hmin Hmax Hrows. unfold load_rows. rewrite Hw, Hmin. simpl.
  rewrite read_range_rows by done.
  by rewrite bool_decide_eq_true_2 by lia.
Qed.

(** With the range (1, 1) every row is read. *)
Lemma load_rows_first_row_only s header (rows : list (list string)) :
  wants_rows s = true →
  row_range_min s = 1 →
  row_range_max s = 1 →
  Forall (λ r, length r = length header) rows →
  load_rows s header (CsvRow <$> rows) = Ok rows.
Proof.
  intros Hw Hmin Hmax Hrows. unfold load_rows. rewrite Hw, Hmin, Hmax. simpl.
  rewrite read_range_rows by done.
  by rewrite bool_decide_eq_false_2 by lia.
Qed.


(** *** The check of the number of columns *)

Lemma check_rows_ok s n i (rows : list (list string)) :
  Forall (λ r, length r = n) rows → check_rows s n i rows = Ok ().
Proof.
  intros Hrows. revert i.
  induction Hrows as [|r rows Hr _ IH]; intros i; simpl; [done|].
  rewrite bool_decide_eq_false_2 by (intros H; by apply H). apply IH.
Qed.

Lemma check_rows_first_bad s n i0 (rows : list (list string)) i row :
  rows !! i = Some row →
  length row ≠ n →
  (∀ j r, (j < i)%nat → rows !! j = Some r → length r = n) →
  check_rows s n i0 rows = Raise (ValueError (line_message s (i0 + i) row n)).
Proof.
  revert i0 i. induction rows as [|r rows IH]; intros i0 i Hi Hbad Hgood.
  { done. }
  destruct i as [|i]; simpl in *.
  - injection Hi as ->. rewrite bool_decide_eq_true_2 by done.
    by rewrite Nat.add_0_r.
  - rewrite bool_decide_eq_false_2.
    + rewrite (IH (S i0) i); [|done|done|].
      * by rewrite Nat.add_succ_r.
      * intros j r' Hj. apply (Hgood (S j)). lia.
    + intros Hne. apply Hne, (Hgood 0%nat); [lia|done].
Qed.

Lemma first_offending_row n (rows : list (list string)) :
  Exists (λ row, length row ≠ n) rows →
  ∃ i row, rows !! i = Some row ∧ length row ≠ n ∧
           ∀ j r, (j < i)%nat → rows !! j = Some r → length r = n.
Proof.
  induction rows as [|r rows IH]; intros Hex.
  { by apply Exists_nil in Hex. }
  destruct (decide (length r = n)) as [Hr|Hr].
  - apply Exists_cons in Hex as [?|Hex]; [done|].
    destruct (IH Hex) as (i & row & Hi & Hbad & Hgood).
    exists (S i), row. split_and!; [done|done|].
    intros [|j] r' Hj; simpl; [by intros [= <-] | apply Hgood; lia].
  - exists 0%nat, r. split_and!; [done|done|]. intros j r' Hj. lia.
Qed.

(** C3 (amended): when no range of rows is requested, the load of a file
    that has a data row whose number of fields differs from the header's
    fails with an error that gives the line of the first such row (the
    header being line 1), the fields of that row joined by commas, and
    the numbers of fields found and expected. *)
Theorem wrong_field_count_is_fatal s fs isl first (rows : list (list string)) :
  wants_rows s = false →
  open_csv fs (csv_path s) = Ok (CsvRow first :: (CsvRow <$> rows)) →
  Exists (λ row, length row ≠ length first) rows →
  ∃ i row,
    rows !! i = Some row ∧ length row ≠ length first ∧
    (∀ j r, (j < i)%nat → rows !! j = Some r → length r = length first) ∧
    line_message s i row (length first) =
      "Error on line " +:+ pretty (i + 2)%nat +:+ " of " +:+
      csv_file_name s +:+ "." +:+ newline +:+ newline +:+ quote +:+
      Str.join "," row +:+ quote +:+ newline +:+ pretty (length row) +:+
      " rows found, expected " +:+ pretty (length first) ∧
    prepare_run py_int py_float s false fs isl =
      Raise (ValueError (line_message s i row (length first))).
Proof.
  intros Hw Hopen Hex.
  destruct (first_offending_row _ _ Hex) as (i & row & Hi & Hbad & Hgood).
  exists i, row. split_and!; [done|done|done|done|].
  unfold prepare_run. rewrite Hopen. simpl.
  unfold load_rows. rewrite Hw, read_all_rows. simpl.
  rewrite length_fmap.
  by rewrite (check_rows_first_bad s _ 0 rows i row).
Qed.

(** *** Arranging the columns *)

Lemma arrange_column_cases s header rows k (t t' : tables F) :
  arrange_column py_int py_float s header rows k t = Ok t' →
  ∃ cells h,
    column_cells rows k = Ok cells ∧ header !! k = Some h ∧
    ((Str.startswith h "Metadata_" = true ∧
      t' = {| dictionary := <[h := best_cast py_int py_float cells]>
                              (dictionary t);
              metadata := <[Str.drop (Str.len "Metadata_") h :=
                              best_cast py_int py_float cells]> (metadata t);
              images := images t |}) ∨
     (Str.startswith h "Metadata_" = false ∧ wants_images s = true ∧
      ∃ image, h = make_file_name_feature image ∧
        t' = {| dictionary := <[h := StrColumn cells]> (dictionary t);
                metadata := metadata t;
                images := add_image image FILE_NAME cells (images t) |}) ∨
     (Str.startswith h "Metadata_" = false ∧ wants_images s = true ∧
      ∃ image, h = make_path_name_feature image ∧
        t' = {| dictionary := <[h := StrColumn cells]> (dictionary t);
                metadata := metadata t;
                images := add_image image PATH_NAME cells (images t) |}) ∨
     (Str.startswith h "Metadata_" = false ∧
      (wants_images s = false ∨
       is_file_name_feature h = false ∧ is_path_name_feature h = false) ∧
      t' = {| dictionary := <[h := best_cast py_int py_float cells]>
                              (dictionary t);
              metadata := metadata t;
              images := images t |})).
Proof.
  unfold arrange_column, list_get.
  destruct (column_cells rows k) as [cells|]; simpl; [|done].
  destruct (header !! k) as [h|]; simpl; [|done].
  intros Ht'. exists cells, h. split_and!; [done|done|].
  destruct (Str.startswith h "Metadata_") eqn:Hmd.
  { left. by simplify_eq. }
  right. destruct (wants_images s) eqn:Hw; simpl in Ht'.
  - destruct (is_file_name_feature h) eqn:Hf.
    { left. destruct (file_feature_inv h Hf) as [image ->].
      rewrite get_image_name_file in Ht'. simpl in Ht'.
      split_and!; [done|done|]. exists image. by simplify_eq. }
    right. destruct (is_path_name_feature h) eqn:Hp.
    { left. destruct (path_feature_inv h Hp) as [image ->].
      rewrite get_image_name_path in Ht'. simpl in Ht'.
      split_and!; [done|done|]. exists image. by simplify_eq. }
    right. split_and!; [done|by right|by simplify_eq].
  - right; right. split_and!; [done|by left|by simplify_eq].
Qed.

Lemma arrange_column_ok s header rows k (t : tables F) :
  Forall (λ r, length r = length header) rows →
  (k < length header)%nat →
  ∃ t', arrange_column py_int py_float s header rows k t = Ok t'.
Proof.
  intros Hrows Hk. unfold arrange_column, list_get.
  destruct (column_cells_ok rows _ k Hrows Hk) as [cells ->]. simpl.
  destruct (lookup_lt_is_Some_2 header k Hk) as [h ->]. simpl.
  destruct (Str.startswith h "Metadata_"); [by eexists|].
  destruct (wants_images s); simpl; [|by eexists].
  destruct (is_file_name_feature h) eqn:Hf.
  { destruct (file_feature_inv h Hf) as [image ->].
    rewrite get_image_name_file. by eexists. }
  destruct (is_path_name_feature h) eqn:Hp; [|by eexists].
  destruct (path_feature_inv h Hp) as [image ->].
  rewrite get_image_name_path. by eexists.
Qed.

Lemma arrange_ok s header rows :
  Forall (λ r, length r = length header) rows →
  ∃ t : tables F, arrange py_int py_float s header rows = Ok t.
Proof.
  intros Hrows. apply for_fold_range_ok.
  intros k t Hk. by apply arrange_column_ok.
Qed.

Lemma lookup_add_image image part cells
    (imgs : gmap string (gmap string (list string))) image' :
  add_image image part cells imgs !! image' =
    if decide (image = image')
    then Some (<[part := cells]> (default ∅ (imgs !! image)))
    else imgs !! image'.
Proof.
  unfold add_image. case_bool_decide as Hin.
  - rewrite lookup_alter. case_decide; [|done].
    destruct Hin as [parts ->]. done.
  - rewrite lookup_alter. case_decide as Heq.
    + rewrite lookup_insert_eq. simpl.
      destruct (imgs !! image) eqn:E; [|done].
      exfalso. apply Hin. by eexists.
    + by rewrite lookup_insert_ne.
Qed.

Lemma feature_heads image :
  Str.startswith (make_file_name_feature image) "Metadata_" = false ∧
  Str.startswith (make_path_name_feature image) "Metadata_" = false.
Proof. split; by apply not_startswith_other_head. Qed.

Lemma file_feature_not_path image image' :
  make_file_name_feature image ≠ make_path_name_feature image'.
Proof. done. Qed.

(** After the loop over the header, an image name has an entry when the
    header has its file name or its path name column, and the entry has a
    file name when the header has its file name column. *)
Lemma arrange_images s header rows (t : tables F) :
  wants_images s = true →
  arrange py_int py_float s header rows = Ok t →
  ∀ image,
    (is_Some (images t !! image ≫= (.!! FILE_NAME)) ↔
     make_file_name_feature image ∈ header) ∧
    (is_Some (images t !! image) ↔
     make_file_name_feature image ∈ header ∨
     make_path_name_feature image ∈ header).
Proof.
  clear py_eq PATH_NAME_LENGTH image_md5. intros Hw Harr.
  cut (∀ image,
    (is_Some (images t !! image ≫= (.!! FILE_NAME)) ↔
     make_file_name_feature image ∈ take (length header) header) ∧
    (is_Some (images t !! image) ↔
     make_file_name_feature image ∈ take (length header) header ∨
     make_path_name_feature image ∈ take (length header) header)).
  { by rewrite firstn_all. }
  revert Harr. unfold arrange.
  apply (for_fold_range_inv (λ k (t : tables F), ∀ image,
    (is_Some (images t !! image ≫= (.!! FILE_NAME)) ↔
     make_file_name_feature image ∈ take k header) ∧
    (is_Some (images t !! image) ↔
     make_file_name_feature image ∈ take k header ∨
     make_path_name_feature image ∈ take k header))).
  { intros image. simpl. rewrite lookup_empty. simpl.
    rewrite !elem_of_nil. split; (split; [by intros [? ?] | tauto]). }
  clear t. intros k t t' Hk IH Hstep image.
  destruct (IH image) as [IHf IHe].
  destruct (arrange_column_cases _ _ _ _ _ _ Hstep)
    as (cells & h & _ & Hh & Hcases).
  rewrite (take_S_r _ _ _ Hh), !elem_of_app, !list_elem_of_singleton.
  destruct (feature_heads image) as [Hmf Hmp].
  destruct (is_feature_make image) as (Hpp & Hff & Hpf & Hfp).
  destruct Hcases as [[Hmd ->]|[(Hmd & _ & image0 & -> & ->)|
    [(Hmd & _ & image0 & -> & ->)|(Hmd & Hother & ->)]]]; simpl.
  - assert (make_file_name_feature image ≠ h) by (intros <-; congruence).
    assert (make_path_name_feature image ≠ h) by (intros <-; congruence).
    tauto.
  - rewrite lookup_add_image. case_decide as Heq.
    + subst image0. simpl. rewrite lookup_insert_eq.
      split; (split; [by auto | by intros _; eexists]).
    + assert (make_file_name_feature image ≠ make_file_name_feature image0)
        by (by intros ?%make_file_name_feature_inj).
      assert (make_path_name_feature image ≠ make_file_name_feature image0)
        by done.
      tauto.
  - rewrite lookup_add_image. case_decide as Heq.
    + subst image0. simpl. rewrite lookup_insert_ne by done.
      assert (make_file_name_feature image ≠ make_path_name_feature image)
        by done.
      split; [|split; [by auto | by intros _; eexists]].
      rewrite <- IHf. destruct (images t !! image); simpl; [tauto|].
      rewrite lookup_empty. tauto.
    + assert (make_path_name_feature image ≠ make_path_name_feature image0)
        by (by intros ?%make_path_name_feature_inj).
      assert (make_file_name_feature image ≠ make_path_name_feature image0)
        by done.
      tauto.
  - assert (make_file_name_feature image ≠ h)
      by (intros <-; destruct Hother; [congruence|]; intuition congruence).
    assert (make_path_name_feature image ≠ h)
      by (intros <-; destruct Hother; [congruence|]; intuition congruence).
    tauto.
Qed.

(** *** The check of the image columns *)

Lemma check_images_list_ok (l : list (string * gmap string (list string))) :
  Forall (λ p, is_Some (p.2 !! FILE_NAME)) l →
  for_fold (λ '(image, parts) _,
              if bool_decide (is_Some (parts !! FILE_NAME)) then Ok ()
              else Raise (ValueError (image_message image))) l () = Ok ().
Proof.
  induction 1 as [|[image parts] l Hp _ IH]; simpl; [done|].
  by rewrite bool_decide_eq_true_2.
Qed.

Lemma check_images_list_raise
    (l : list (string * gmap string (list string))) :
  Exists (λ p, p.2 !! FILE_NAME = None) l →
  ∃ image parts,
    (image, parts) ∈ l ∧ parts !! FILE_NAME = None ∧
    for_fold (λ '(image, parts) _,
                if bool_decide (is_Some (parts !! FILE_NAME)) then Ok ()
                else Raise (ValueError (image_message image))) l () =
      Raise (ValueError (image_message image)).
Proof.
  induction l as [|[image parts] l IH]; intros Hex.
  { by apply Exists_nil in Hex. }
  simpl. case_bool_decide as Hfile.
  - apply Exists_cons in Hex as [Hhd|Htl].
    { simpl in Hhd. rewrite Hhd in Hfile. by destruct Hfile. }
    destruct (IH Htl) as (image' & parts' & Hin & Hnone & Hraise).
    exists image', parts'. split_and!; [by right|done|done].
  - exists image, parts. split_and!; [by left| |done].
    by apply eq_None_not_Some.
Qed.

Lemma check_images_ok (imgs : gmap string (gmap string (list string))) :
  (∀ image parts, imgs !! image = Some parts → is_Some (parts !! FILE_NAME)) →
  check_images imgs = Ok ().
Proof.
  intros Hall. apply check_images_list_ok, Forall_forall.
  intros [image parts] Hin%elem_of_map_to_list. by eapply Hall.
Qed.

Lemma check_images_raise (imgs : gmap string (gmap string (list string)))
    image parts :
  imgs !! image = Some parts → parts !! FILE_NAME = None →
  ∃ image' parts',
    imgs !! image' = Some parts' ∧ parts' !! FILE_NAME = None ∧
    check_images imgs = Raise (ValueError (image_message image')).
Proof.
  intros Himage Hnone.
  destruct (check_images_list_raise (map_to_list imgs))
    as (image' & parts' & Hin & Hnone' & Hraise).
  { apply Exists_exists. exists (image, parts).
    split; [by apply elem_of_map_to_list | done]. }
  exists image', parts'. split_and!; [|done|done].
  by apply elem_of_map_to_list in Hin.
Qed.

(** C4 (amended): when images are loaded from the data and the rows of
    the file are read and have the header's number of fields, a header
    with a path name column for an image name and no file name column for
    it makes the load fail with an error that names such an image. *)
Theorem path_name_without_file_name s fs isl first reader rows image :
  wants_images s = true →
  open_csv fs (csv_path s) = Ok (CsvRow first :: reader) →
  load_rows s (header_to_column <$> first) reader = Ok rows →
  Forall (λ r, length r = length first) rows →
  make_path_name_feature image ∈ (header_to_column <$> first) →
  make_file_name_feature image ∉ (header_to_column <$> first) →
  ∃ image',
    make_path_name_feature image' ∈ (header_to_column <$> first) ∧
    (make_file_name_feature image' ∉ (header_to_column <$> first)) ∧
    prepare_run py_int py_float s false fs isl =
      Raise (ValueError (image_message image')).
Proof.
  intros Hw Hopen Hload Hrows Hpath Hfile.
  set (header := header_to_column <$> first) in *.
  assert (Hrows' : Forall (λ r, length r = length header) rows).
  { unfold header. by rewrite length_fmap. }
  destruct (arrange_ok s header rows Hrows') as [t Ht].
  pose proof (arrange_images s header rows t Hw Ht) as Himages.
  destruct (Himages image) as [Hf He].
  destruct (images t !! image) as [parts|] eqn:Hparts; last first.
  { exfalso. apply (is_Some_None (A:=gmap string (list string))).
    apply He. by right. }
  assert (parts !! FILE_NAME = None) as Hnone.
  { apply eq_None_not_Some. intros Hsome. by apply Hfile, Hf. }
  destruct (check_images_raise _ _ _ Hparts Hnone)
    as (image' & parts' & Hparts' & Hnone' & Hraise).
  destruct (Himages image') as [Hf' He'].
  rewrite Hparts' in Hf', He'. simpl in Hf'.
  assert (make_file_name_feature image' ∉ header) as Hfile'.
  { intros Hin. apply Hf' in Hin. rewrite Hnone' in Hin. by destruct Hin. }
  exists image'. split_and!; [|done|].
  - destruct He' as [[?|?] _]; [by eexists|done|done].
  - unfold prepare_run. rewrite Hopen. simpl. fold header.
    rewrite Hload. simpl. rewrite (check_rows_ok s _ 0 rows Hrows'). simpl.
    rewrite Ht. simpl. by rewrite Hraise.
Qed.

(** *** The metadata columns *)

(** After the loop over the header, the metadata of a name is the best
    cast of the cells under the last header field "Metadata_<name>". *)
Lemma arrange_metadata s header rows (t : tables F) :
  arrange py_int py_float s header rows = Ok t →
  ∀ name c,
    metadata t !! name = Some c ↔
    ∃ j cells,
      header !! j = Some ("Metadata_" +:+ name) ∧
      (∀ j', (j < j')%nat → header !! j' ≠ Some ("Metadata_" +:+ name)) ∧
      column_cells rows j = Ok cells ∧
      c = best_cast py_int py_float cells.
Proof.
  intros Harr.
  cut (∀ name c,
    metadata t !! name = Some c ↔
    ∃ j cells,
      (j < length header)%nat ∧
      header !! j = Some ("Metadata_" +:+ name) ∧
      (∀ j', (j < j' < length header)%nat →
             header !! j' ≠ Some ("Metadata_" +:+ name)) ∧
      column_cells rows j = Ok cells ∧
      c = best_cast py_int py_float cells).
  { intros Hcut name c. rewrite Hcut. split.
    - intros (j & cells & Hj & Hh & Hlast & Hcells & ->).
      exists j, cells. split_and!; [done| |done|done].
      intros j' Hj' Hh'. apply (Hlast j'); [|done].
      apply lookup_lt_Some in Hh'. lia.
    - intros (j & cells & Hh & Hlast & Hcells & ->).
      exists j, cells. split_and!; [|done| |done|done].
      + by apply lookup_lt_Some in Hh.
      + intros j' Hj'. apply Hlast. lia. }
  revert Harr. unfold arrange.
  apply (for_fold_range_inv (λ k (t : tables F), ∀ name c,
    metadata t !! name = Some c ↔
    ∃ j cells,
      (j < k)%nat ∧
      header !! j = Some ("Metadata_" +:+ name) ∧
      (∀ j', (j < j' < k)%nat → header !! j' ≠ Some ("Metadata_" +:+ name)) ∧
      column_cells rows j = Ok cells ∧
      c = best_cast py_int py_float cells)).
  { intros name c. simpl. rewrite lookup_empty.
    split; [done|]. intros (j & _ & Hj & _). lia. }
  clear t. intros k t t' Hk IH Hstep name c.
  destruct (arrange_column_cases _ _ _ _ _ _ Hstep)
    as (cells & h & Hcells & Hh & Hcases).
  assert (Hkeep : header !! k ≠ Some ("Metadata_" +:+ name) →
    metadata t !! name = Some c ↔
    ∃ j cells0,
      (j < S k)%nat ∧
      header !! j = Some ("Metadata_" +:+ name) ∧
      (∀ j', (j < j' < S k)%nat →
             header !! j' ≠ Some ("Metadata_" +:+ name)) ∧
      column_cells rows j = Ok cells0 ∧
      c = best_cast py_int py_float cells0).
  { intros Hne. rewrite IH. split.
    - intros (j & cells0 & Hj & Hhj & Hlast & Hc & ->).
      exists j, cells0. split_and!; [lia|done| |done|done].
      intros j' Hj'. destruct (decide (j' = k)) as [->|]; [done|].
      apply Hlast. lia.
    - intros (j & cells0 & Hj & Hhj & Hlast & Hc & ->).
      exists j, cells0. split_and!; [|done| |done|done].
      + destruct (decide (j = k)) as [->|]; [done|lia].
      + intros j' Hj'. apply Hlast. lia. }
  assert (Hother : Str.startswith h "Metadata_" = false →
                   header !! k ≠ Some ("Metadata_" +:+ name)).
  { intros Hmd. rewrite Hh. intros [= ->].
    by rewrite Str_startswith_app in Hmd. }
  destruct Hcases as [[Hmd ->]|[(Hmd & _ & image0 & _ & ->)|
    [(Hmd & _ & image0 & _ & ->)|(Hmd & _ & ->)]]]; simpl; auto.
  apply metadata_name_inv in Hmd.
  set (name0 := Str.drop (Str.len "Metadata_") h) in *.
  destruct (decide (name0 = name)) as [<-|Hname].
  - rewrite lookup_insert_eq. split.
    + intros [= <-]. exists k, cells.
      split_and!; [lia|congruence| |done|done]. intros j' Hj'. lia.
    + intros (j & cells0 & Hj & Hhj & Hlast & Hc & ->).
      destruct (decide (j = k)) as [->|Hjk]; [congruence|].
      exfalso. apply (Hlast k); [lia|congruence].
  - rewrite lookup_insert_ne by done. apply Hkeep.
    rewrite Hh, Hmd. intros [= H]. apply Hname. exact H.
Qed.

Lemma best_cast_length cells :
  column_len (best_cast py_int py_float cells) = length cells.
Proof.
  unfold best_cast, column_len.
  destruct (mapM py_int cells) as [ints|] eqn:Hi; simpl.
  { rewrite length_fmap. symmetry. by eapply length_mapM. }
  destruct (mapM py_float cells) as [floats|] eqn:Hf; simpl.
  { rewrite length_fmap. symmetry. by eapply length_mapM. }
  by rewrite length_fmap.
Qed.

Lemma check_rows_inv s n i (rows : list (list string)) :
  check_rows s n i rows = Ok () → Forall (λ r, length r = n) rows.
Proof.
  revert i. induction rows as [|r rows IH]; intros i; simpl; [done|].
  case_bool_decide as Hr; [done|]. intros Hrest. constructor.
  - by destruct (decide (length r = n)).
  - by eapply IH.
Qed.

Lemma last_occurrence {A} `{EqDecision A} (l : list A) (x : A) :
  x ∈ l → ∃ j, l !! j = Some x ∧ ∀ j', (j < j')%nat → l !! j' ≠ Some x.
Proof.
  induction l as [|y l IH]; intros Hin.
  { by apply elem_of_nil in Hin. }
  destruct (decide (x ∈ l)) as [Hl|Hl].
  - destruct (IH Hl) as (j & Hj & Hlast). exists (S j). split; [done|].
    intros [|j'] Hj'; [lia|]. simpl. apply Hlast. lia.
  - apply elem_of_cons in Hin as [->|?]; [|done].
    exists 0%nat. split; [done|]. intros [|j'] Hj'; [lia|]. simpl.
    intros Hx. apply Hl. by eapply list_elem_of_lookup_2.
Qed.

(** *** The image sets requested *)

Lemma populate_units (isl : image_set_list F) md (rows : list (list string))
    units :
  populate isl md rows = Ok units →
  length units = length rows ∧
  ∀ i, (i < length rows)%nat →
    if negb (size md =? 0)%nat && use_key isl
    then units !! i = Some (ByKey (omap (λ c, column_values c !! i) md)) ∧
         map_Forall (λ _ c, i < column_len c)%nat md
    else units !! i = Some (ByNumber i).
Proof.
  intros Hunits. split.
  { apply for_each_length in Hunits. by rewrite length_seq in Hunits. }
  intros i Hi.
  destruct (for_each_lookup _ _ _ i i Hunits) as (u & Hu & Hbody).
  { by apply lookup_seq_lt. }
  destruct (negb (size md =? 0)%nat && use_key isl); [|by simplify_eq].
  unfold key_at in Hbody. case_bool_decide as Hlen; [|done].
  simpl in Hbody. by simplify_eq.
Qed.

Lemma metadata_empty_iff s header rows (t : tables F) :
  Forall (λ r, length r = length header) rows →
  arrange py_int py_float s header rows = Ok t →
  size (metadata t) = 0%nat ↔
  Forall (λ h, Str.startswith h "Metadata_" = false) header.
Proof.
  intros Hrows Harr. pose proof (arrange_metadata _ _ _ _ Harr) as Hmd.
  rewrite map_size_empty_iff. split.
  - intros Hempty. apply Forall_forall. intros h Hh.
    destruct (Str.startswith h "Metadata_") eqn:Hstart; [|done].
    apply metadata_name_inv in Hstart.
    set (name := Str.drop (Str.len "Metadata_") h) in *.
    rewrite Hstart in Hh.
    destruct (last_occurrence _ _ Hh) as (j & Hj & Hlast).
    destruct (column_cells_ok rows _ j Hrows) as [cells Hcells].
    { by eapply lookup_lt_Some. }
    assert (metadata t !! name = Some (best_cast py_int py_float cells))
      as Hsome.
    { apply Hmd. by exists j, cells. }
    by rewrite Hempty, lookup_empty in Hsome.
  - intros Hnone. apply map_empty. intros name.
    apply eq_None_not_Some. intros [c Hc].
    apply Hmd in Hc as (j & cells & Hj & _).
    apply list_elem_of_lookup_2 in Hj.
    rewrite Forall_forall in Hnone. apply Hnone in Hj.
    by rewrite Str_startswith_app in Hj.
Qed.

(** *** A load that succeeds *)

Lemma prepare_run_inv s fs (isl : image_set_list F) b isl' :
  prepare_run py_int py_float s false fs isl = Ok (b, isl') →
  ∃ first reader rows t units,
    open_csv fs (csv_path s) = Ok (CsvRow first :: reader) ∧
    load_rows s (header_to_column <$> first) reader = Ok rows ∧
    Forall (λ r, length r = length (header_to_column <$> first)) rows ∧
    arrange py_int py_float s (header_to_column <$> first) rows = Ok t ∧
    check_images (images t) = Ok () ∧
    populate isl (metadata t) rows = Ok units ∧
    b = true ∧
    isl' = {| associating_by_key := associating_by_key isl;
              requested := requested isl ++ units;
              legacy_fields := <[legacy_field_key s := dictionary t]>
                                 (legacy_fields isl) |}.
Proof.
  unfold prepare_run.
  destruct (open_csv fs (csv_path s)) as [fd|]; simpl; [|done].
  destruct fd as [|[first|] reader]; simpl; [done| |done].
  destruct (load_rows s _ reader) as [rows|] eqn:Hload; simpl; [|done].
  destruct (check_rows s _ 0 rows) as [[]|] eqn:Hcheck; simpl; [|done].
  destruct (arrange _ _ s _ rows) as [t|] eqn:Harr; simpl; [|done].
  destruct (check_images (images t)) as [[]|] eqn:Himg; simpl; [|done].
  destruct (populate isl (metadata t) rows) as [units|] eqn:Hpop; simpl;
    [|done].
  intros [= <- <-]. exists first, reader, rows, t, units.
  split_and!; try done. by eapply check_rows_inv.
Qed.

(** C5: a load that succeeds requests one image set per loaded row, in
    the order of the rows.  When the image set list associates by key
    and the header has a "Metadata_" column, the image set of row [i] is
    requested by the key that maps each name of a metadata column to the
    best cast of that column at row [i]; otherwise it is requested by the
    number [i], counted from 0. *)
Theorem prepare_run_registers_rows s fs (isl : image_set_list F) b isl' :
  prepare_run py_int py_float s false fs isl = Ok (b, isl') →
  ∃ first reader rows units,
    let header := header_to_column <$> first in
    open_csv fs (csv_path s) = Ok (CsvRow first :: reader) ∧
    load_rows s header reader = Ok rows ∧
    requested isl' = requested isl ++ units ∧
    length units = length rows ∧
    ∀ i, (i < length rows)%nat →
      (use_key isl = true →
       Exists (λ h, Str.startswith h "Metadata_" = true) header →
       ∃ key,
         units !! i = Some (ByKey key) ∧
         ∀ name,
           (∀ j cells,
              header !! j = Some ("Metadata_" +:+ name) →
              (∀ j', (j < j')%nat →
                     header !! j' ≠ Some ("Metadata_" +:+ name)) →
              column_cells rows j = Ok cells →
              is_Some (key !! name) ∧
              key !! name =
                column_values (best_cast py_int py_float cells) !! i) ∧
           ("Metadata_" +:+ name ∉ header → key !! name = None)) ∧
      (use_key isl = false ∨
       Forall (λ h, Str.startswith h "Metadata_" = false) header →
       units !! i = Some (ByNumber i)).
Proof.
  intros Hrun.
  destruct (prepare_run_inv _ _ _ _ _ Hrun)
    as (first & reader & rows & t & units & Hopen & Hload & Hrows & Harr &
        _ & Hunits & -> & ->).
  exists first, reader, rows, units. simpl.
  destruct (populate_units _ _ _ _ Hunits) as [Hlen Hreq].
  split_and!; [done|done|done|done|].
  intros i Hi. specialize (Hreq i Hi).
  pose proof (arrange_metadata _ _ _ _ Harr) as Hmd.
  pose proof (metadata_empty_iff _ _ _ _ Hrows Harr) as Hempty.
  split.
  - intros Hkey Hex. rewrite Hkey in Hreq.
    destruct (size (metadata t) =? 0)%nat eqn:Hsize.
    { apply Nat.eqb_eq, Hempty in Hsize.
      apply Exists_exists in Hex as (h & Hin & Hh).
      rewrite Forall_forall in Hsize. apply Hsize in Hin. congruence. }
    simpl in Hreq. destruct Hreq as [Hunit Hlong].
    eexists. split; [exact Hunit|]. intros name. split.
    + intros j cells Hj Hlast Hcells.
      assert (metadata t !! name = Some (best_cast py_int py_float cells))
        as Hname by (apply Hmd; by exists j, cells).
      rewrite lookup_omap, Hname. simpl. split; [|done].
      apply lookup_lt_is_Some_2.
      apply (map_Forall_lookup_1 _ _ _ _ Hlong Hname).
    + intros Hnot. rewrite lookup_omap.
      destruct (metadata t !! name) as [c|] eqn:Hname; [|done].
      apply Hmd in Hname as (j & cells & Hj & _).
      exfalso. apply Hnot. by eapply list_elem_of_lookup_2.
  - intros [Hkey|Hnone].
    + rewrite Hkey in Hreq. by rewrite andb_false_r in Hreq.
    + apply Hempty, Nat.eqb_eq in Hnone. by rewrite Hnone in Hreq.
Qed.

(** *** Introspection and column declarations *)

Lemma get_categories_raise s fs hc hc' e object_name :
  get_header s fs hc = (Raise e, hc') →
  (get_categories s fs hc object_name).1 = [].
Proof.
  intros Hh. unfold get_categories.
  destruct (negb (String.eqb object_name IMAGE)); [done|]. by rewrite Hh.
Qed.

Lemma get_measurements_raise s fs hc hc' e object_name category :
  get_header s fs hc = (Raise e, hc') →
  (get_measurements s fs hc object_name category).1 = [].
Proof.
  intros Hh. unfold get_measurements.
  destruct (negb (String.eqb object_name IMAGE)); [done|]. by rewrite Hh.
Qed.

(** [get_header] raises when the file is missing, and when no header is
    cached and the file cannot be opened, is empty or starts with a record
    that the reader rejects. *)
Lemma get_header_raises s fs hc :
  (os_stat fs (csv_path s) = Raise OSError →
   (get_header s fs hc).1 = Raise OSError) ∧
  (∀ entry hc' e,
     get_cache_info s fs hc = (Ok entry, hc') →
     e_header entry = None →
     (let* fd := open_csv fs (csv_path s) in reader_next fd) = Raise e →
     get_header s fs hc = (Raise e, hc')).
Proof.
  split.
  - intros Hstat. unfold get_header, get_cache_info. by rewrite Hstat.
  - intros entry hc' e Hinfo Hnone Hopen. unfold get_header.
    by rewrite Hinfo, Hnone, Hopen.
Qed.

(** C7 (amended): the introspection operations return an empty list
    whenever reading the header raises.  The column declaration returns
    an empty list when the file cannot be examined, and when no
    declaration is cached and the file cannot be opened or its header
    cannot be read; an error raised while the data rows are scanned is
    not caught and reaches the caller. *)
Theorem introspection_is_best_effort s fs hc :
  (∀ e hc' object_name category,
     get_header s fs hc = (Raise e, hc') →
     (get_categories s fs hc object_name).1 = [] ∧
     (get_measurements s fs hc object_name category).1 = []) ∧
  (∀ e hc',
     get_cache_info s fs hc = (Raise e, hc') →
     get_measurement_columns py_int py_float PATH_NAME_LENGTH s fs hc =
       (Ok [], hc')) ∧
  (∀ entry hc' e,
     get_cache_info s fs hc = (Ok entry, hc') →
     e_measurement_columns entry = None →
     (let* fd := open_csv fs (csv_path s) in reader_next fd) = Raise e →
     get_measurement_columns py_int py_float PATH_NAME_LENGTH s fs hc =
       (Ok [], alter (set_measurement_columns []) (csv_path s) hc')) ∧
  (∀ entry hc' first reader e,
     get_cache_info s fs hc = (Ok entry, hc') →
     e_measurement_columns entry = None →
     (let* fd := open_csv fs (csv_path s) in reader_next fd) =
       Ok (first, reader) →
     scan_reader py_int py_float PATH_NAME_LENGTH s reader
       (replicate (length first) COLTYPE_INTEGER,
        replicate (length first) 0%nat) = Raise e →
     get_measurement_columns py_int py_float PATH_NAME_LENGTH s fs hc =
       (Raise e, hc')).
Proof.
  split_and!.
  - intros e hc' object_name category Hh.
    split; [by eapply get_categories_raise|by eapply get_measurements_raise].
  - intros e hc' Hinfo. unfold get_measurement_columns. by rewrite Hinfo.
  - intros entry hc' e Hinfo Hnone Hopen. unfold get_measurement_columns.
    by rewrite Hinfo, Hnone, Hopen.
  - intros entry hc' first reader e Hinfo Hnone Hopen Hscan.
    unfold get_measurement_columns.
    by rewrite Hinfo, Hnone, Hopen, length_fmap, Hscan.
Qed.

(** *** The row of an image set *)

Lemma py_index_nat {A} (l : list A) (i : nat) x :
  l !! i = Some x → py_index l (Z.of_nat i) = Ok x.
Proof.
  intros Hx. unfold py_index, list_get.
  assert ((Z.of_nat i <? 0) = false) as -> by (apply Z.ltb_ge; lia).
  rewrite (proj2 (Z.ltb_ge _ _)) by lia.
  by rewrite Nat2Z.id, Hx.
Qed.

Lemma for_each_Forall2 {A B} (f : A → res B) (l : list A) (k : list B) :
  for_each f l = Ok k → Forall2 (λ x y, f x = Ok y) l k.
Proof.
  revert k. induction l as [|a l IH]; intros k; simpl.
  { intros [= <-]. constructor. }
  destruct (f a) as [b|] eqn:Ea; simpl; [|done].
  destruct (for_each f l) as [k'|]; simpl; [|done].
  intros [= <-]. constructor; [done|by apply IH].
Qed.

Lemma match_failure_mismatch (d : gmap string (column F)) (i : nat)
    (keys : list (string * pyval F)) :
  (∀ key wanted, (key, wanted) ∈ keys →
     ∃ column, d !! ("Metadata_" +:+ key) = Some column ∧
               (i < column_len column)%nat) →
  (∃ key wanted column value,
     (key, wanted) ∈ keys ∧
     d !! ("Metadata_" +:+ key) = Some column ∧
     column_values column !! i = Some value ∧
     py_eq value wanted = false) →
  match_failure py_eq d (Z.of_nat i) keys = Ok true.
Proof.
  induction keys as [|[key wanted] keys IH]; intros Hcols Hmis.
  { destruct Hmis as (? & ? & ? & ? & Hin & _). by apply elem_of_nil in Hin. }
  simpl. destruct (Hcols key wanted) as (column & Hcolumn & Hlen);
    [by left|].
  rewrite Hcolumn.
  destruct (lookup_lt_is_Some_2 (column_values column) i Hlen)
    as [value Hvalue].
  rewrite (py_index_nat _ _ _ Hvalue). simpl.
  destruct (py_eq value wanted) eqn:Heq; [|done]. simpl.
  apply IH.
  - intros key' wanted' Hin. apply (Hcols key' wanted'). by right.
  - destruct Hmis as (key' & wanted' & column' & value' & Hin & Hc & Hv & Hne).
    apply elem_of_cons in Hin as [[= -> ->]|Hin].
    + congruence.
    + by exists key', wanted', column', value'.
Qed.

Lemma match_rows_no_match (d : gmap string (column F))
    (keys : list (string * pyval F)) (indices : list nat) index :
  Forall (λ i, match_failure py_eq d (Z.of_nat i) keys = Ok true) indices →
  match_rows py_eq d keys indices index =
    Ok (match last indices with
        | Some i => Some (Z.of_nat i)
        | None => index
        end).
Proof.
  intros Hall. revert index.
  induction Hall as [|i indices Hi _ IH]; intros index; simpl; [done|].
  rewrite Hi. simpl. rewrite IH.
  destruct indices as [|j indices]; [done|]. rewrite last_cons_cons.
  destruct (last (j :: indices)) eqn:Hlast; [done|].
  by apply last_None in Hlast.
Qed.

Lemma has_metadata_keys_nonempty (image_set_keys : gmap string (pyval F)) b :
  has_metadata_keys image_set_keys = Ok b → image_set_keys ≠ ∅.
Proof.
  intros Hb ->. unfold has_metadata_keys in Hb.
  by rewrite map_to_list_empty in Hb.
Qed.

Lemma find_index_no_match (d : gmap string (column F))
    (image_set_keys : gmap string (pyval F)) (image_set_number : Z) n :
  has_metadata_keys image_set_keys = Ok true →
  (∀ key wanted, image_set_keys !! key = Some wanted →
     is_Some (d !! ("Metadata_" +:+ key))) →
  (∀ name column, d !! name = Some column → column_len column = S n) →
  (∀ i, (i ≤ n)%nat →
     ∃ key wanted column value,
       image_set_keys !! key = Some wanted ∧
       d !! ("Metadata_" +:+ key) = Some column ∧
       column_values column !! i = Some value ∧
       py_eq value wanted = false) →
  find_index py_eq d image_set_keys image_set_number =
    Ok (Some (Z.of_nat n)).
Proof.
  intros Hkeys Hcols Hlen Hnone. unfold find_index. rewrite Hkeys. simpl.
  destruct (map_choose _ (has_metadata_keys_nonempty _ _ Hkeys))
    as (key & wanted & Hkey).
  destruct (Hcols _ _ Hkey) as [column Hcolumn].
  destruct (map_to_list d) as [|[name first] l] eqn:Hl.
  { apply map_to_list_empty_iff in Hl. by rewrite Hl in Hcolumn. }
  assert (d !! name = Some first) as Hfirst.
  { apply elem_of_map_to_list. rewrite Hl. by left. }
  unfold list_get. simpl. rewrite (Hlen _ _ Hfirst).
  rewrite match_rows_no_match.
  - by rewrite seq_S, last_snoc.
  - apply Forall_forall. intros i Hi%elem_of_seq.
    apply match_failure_mismatch.
    + intros key' wanted' Hin%elem_of_map_to_list.
      destruct (Hcols _ _ Hin) as [column' Hcolumn'].
      exists column'. split; [done|]. rewrite (Hlen _ _ Hcolumn'). lia.
    + destruct (Hnone i) as (key' & wanted' & column' & value' & Hin & ?);
        [lia|].
      exists key', wanted', column', value'.
      split; [by apply elem_of_map_to_list|done].
Qed.

Lemma publish_columns_row (d : gmap string (column F)) (i n : nat) :
  (∀ name column, d !! name = Some column → column_len column = n) →
  (i < n)%nat →
  ∃ statistics,
    publish_columns d (Some (Z.of_nat i)) = Ok statistics ∧
    Forall2 (λ '(name, column) '(feature_name, value),
               feature_name = name ∧ column_values column !! i = Some value)
            (map_to_list d) statistics.
Proof.
  intros Hlen Hi. unfold publish_columns.
  destruct (for_each_ok
    (λ '(feature_name, column),
       let* index := Ok (Z.of_nat i) in
       let* value := py_index (column_values column) index in
       Ok (feature_name, value)) (map_to_list d)) as [statistics Hstat].
  { apply Forall_forall. intros [name column] Hin%elem_of_map_to_list.
    destruct (lookup_lt_is_Some_2 (column_values column) i) as [value Hv].
    { fold (column_len column). rewrite (Hlen _ _ Hin). lia. }
    exists (name, value). simpl. by rewrite (py_index_nat _ _ _ Hv). }
  exists statistics. split; [done|].
  apply for_each_Forall2 in Hstat.
  eapply Forall2_impl; [exact Hstat|].
  intros [name column] [feature_name value]. simpl. unfold py_index, list_get.
  assert ((Z.of_nat i <? 0) = false) as -> by (apply Z.ltb_ge; lia).
  rewrite (proj2 (Z.ltb_ge _ _)) by lia. rewrite Nat2Z.id.
  destruct (column_values column !! i); simpl; [|done]. by intros [= -> ->].
Qed.

(** C10 (amended): when the image set carries keys, every key has its
    "Metadata_" column in the table, the table has at least one row and
    no row has values equal to all the values of the keys, the scan
    raises no error: it leaves the index at the last row, and the values
    of the last row are published as the measurements of the image
    set. *)
Theorem run_without_matching_row s fs hc (isl : image_set_list F)
    (d : gmap string (column F)) (image_set_keys : gmap string (pyval F))
    (image_set_number : Z) (n : nat) :
  legacy_fields isl !! legacy_field_key s = Some d →
  has_metadata_keys image_set_keys = Ok true →
  (∀ key wanted, image_set_keys !! key = Some wanted →
     is_Some (d !! ("Metadata_" +:+ key))) →
  (∀ name column, d !! name = Some column → column_len column = S n) →
  (∀ i, (i ≤ n)%nat →
     ∃ key wanted column value,
       image_set_keys !! key = Some wanted ∧
       d !! ("Metadata_" +:+ key) = Some column ∧
       column_values column !! i = Some value ∧
       py_eq value wanted = false) →
  find_index py_eq d image_set_keys image_set_number =
    Ok (Some (Z.of_nat n)) ∧
  ∃ statistics,
    Forall2 (λ '(name, column) '(feature_name, value),
               feature_name = name ∧ column_values column !! n = Some value)
            (map_to_list d) statistics ∧
    run py_eq image_md5 s fs hc isl image_set_keys image_set_number =
      (let* digests :=
         publish_digests image_md5 (other_providers s fs hc "imagegroup").1 in
       Ok (statistics ++ digests),
       (other_providers s fs hc "imagegroup").2).
Proof.
  intros Hd Hkeys Hcols Hlen Hnone.
  pose proof (find_index_no_match d image_set_keys image_set_number n
                Hkeys Hcols Hlen Hnone) as Hindex.
  split; [done|].
  destruct (publish_columns_row d n (S n) Hlen) as (statistics & Hpub & Hrow);
    [lia|].
  exists statistics. split; [done|].
  unfold run. rewrite Hd. simpl. rewrite Hindex. simpl. rewrite Hpub.
  by destruct (other_providers s fs hc "imagegroup").
Qed.

(** *** The declared types *)

Lemma scan_field_ok s field index (coltypes : list coltype)
    (collen : list nat) n j :
  length coltypes = n → length collen = n → (index < n)%nat →
  ∃ coltypes' collen',
    scan_field py_int py_float PATH_NAME_LENGTH s field index
               (coltypes, collen) = Ok (coltypes', collen') ∧
    length coltypes' = n ∧ length collen' = n ∧
    (coltypes !! j = Some COLTYPE_INTEGER →
     (index = j → is_Some (py_int field)) →
     coltypes' !! j = Some COLTYPE_INTEGER).
Proof.
  intros Htypes Hlen Hindex. unfold scan_field, list_get.
  destruct (lookup_lt_is_Some_2 coltypes index) as [c Hc]; [lia|].
  destruct (lookup_lt_is_Some_2 collen index) as [k Hk]; [lia|].
  assert (Hkeep : ∀ c', coltypes !! j = Some COLTYPE_INTEGER → index ≠ j →
                        <[index := c']> coltypes !! j = Some COLTYPE_INTEGER).
  { intros c' Hj Hne. by rewrite list_lookup_insert_ne. }
  rewrite Hc. simpl.
  destruct c as [| |w]; simpl.
  - destruct (py_int field) as [z|] eqn:Hint.
    { exists coltypes, collen. by split_and!. }
    rewrite list_lookup_insert_eq by lia. simpl.
    destruct (py_float field) as [f|].
    { eexists _, _. split; [done|]. rewrite length_insert.
      split_and!; [done|done|]. intros Hj Hparse. apply Hkeep; [done|].
      intros ->. by destruct Hparse. }
    rewrite Hk. simpl. destruct (k <? Str.len field)%nat;
      (eexists _, _; split; [done|]; rewrite ?length_insert;
       split_and!; [done|done|]; intros Hj Hparse;
       assert (index ≠ j) by (intros ->; by destruct Hparse);
       by rewrite ?list_lookup_insert_ne).
  - rewrite ?Hc. simpl. destruct (py_float field) as [f|].
    { exists coltypes, collen. by split_and!. }
    rewrite Hk. simpl. destruct (k <? Str.len field)%nat;
      (eexists _, _; split; [done|]; rewrite ?length_insert;
       split_and!; [done|done|]; intros Hj Hparse;
       assert (index ≠ j) by (intros ->; congruence);
       by rewrite ?list_lookup_insert_ne).
  - rewrite ?Hc. simpl. rewrite Hk. simpl. destruct (k <? Str.len field)%nat;
      (eexists _, _; split; [done|]; rewrite ?length_insert;
       split_and!; [done|done|]; intros Hj Hparse;
       assert (index ≠ j) by (intros ->; congruence);
       by rewrite ?list_lookup_insert_ne).
Qed.

Lemma scan_fields_ok s (l : list (string * nat)) (coltypes : list coltype)
    (collen : list nat) n j :
  length coltypes = n → length collen = n →
  Forall (λ p, (p.2 < n)%nat) l →
  ∃ coltypes' collen',
    for_fold (λ '(field, index) st,
                scan_field py_int py_float PATH_NAME_LENGTH s field index st)
             l (coltypes, collen) = Ok (coltypes', collen') ∧
    length coltypes' = n ∧ length collen' = n ∧
    (coltypes !! j = Some COLTYPE_INTEGER →
     Forall (λ p, p.2 = j → is_Some (py_int p.1)) l →
     coltypes' !! j = Some COLTYPE_INTEGER).
Proof.
  intros Htypes Hlen Hl. revert coltypes collen Htypes Hlen.
  induction Hl as [|[field index] l Hindex _ IH]; intros coltypes collen
    Htypes Hlen; cbn [for_fold].
  { exists coltypes, collen. by split_and!. }
  destruct (scan_field_ok s field index coltypes collen n j Htypes Hlen Hindex)
    as (coltypes1 & collen1 & -> & Htypes1 & Hlen1 & Hint1). cbn [bind].
  destruct (IH coltypes1 collen1 Htypes1 Hlen1)
    as (coltypes2 & collen2 & Hfold & Htypes2 & Hlen2 & Hint2).
  exists coltypes2, collen2. split_and!; [done|done|done|].
  intros Hj Hcells. apply Forall_cons in Hcells as [Hcell Hcells].
  apply Hint2; [|done]. by apply Hint1.
Qed.

Lemma elem_of_zip_seq {A} (row : list A) field index :
  (field, index) ∈ zip row (seq 0 (length row)) → row !! index = Some field.
Proof.
  intros (k & Hk)%list_elem_of_lookup_1.
  apply lookup_zip_with_Some in Hk as (x & y & [= <- <-] & Hx & Hy).
  apply lookup_seq in Hy as [-> _]. done.
Qed.

Lemma scan_row_ok s (row : list string) (coltypes : list coltype)
    (collen : list nat) n j :
  length coltypes = n → length collen = n → (length row ≤ n)%nat →
  ∃ coltypes' collen',
    scan_row py_int py_float PATH_NAME_LENGTH s row (coltypes, collen) =
      Ok (coltypes', collen') ∧
    length coltypes' = n ∧ length collen' = n ∧
    (coltypes !! j = Some COLTYPE_INTEGER →
     (∀ cell, row !! j = Some cell → is_Some (py_int cell)) →
     coltypes' !! j = Some COLTYPE_INTEGER).
Proof.
  intros Htypes Hlen Hrow. unfold scan_row.
  destruct (scan_fields_ok s (zip row (seq 0 (length row))) coltypes collen
              n j Htypes Hlen)
    as (coltypes' & collen' & Hfold & Htypes' & Hlen' & Hint).
  { apply Forall_forall. intros [field index] Hin%elem_of_zip_seq.
    apply lookup_lt_Some in Hin. simpl. lia. }
  exists coltypes', collen'. split_and!; [done|done|done|].
  intros Hj Hcells. apply Hint; [done|].
  apply Forall_forall. intros [field index] Hin%elem_of_zip_seq.
  simpl. intros ->. by apply Hcells.
Qed.

Lemma scan_reader_ok s (rows : list (list string)) (coltypes : list coltype)
    (collen : list nat) n j :
  length coltypes = n → length collen = n →
  Forall (λ row, (length row ≤ n)%nat) rows →
  ∃ coltypes' collen',
    scan_reader py_int py_float PATH_NAME_LENGTH s (CsvRow <$> rows)
                (coltypes, collen) = Ok (coltypes', collen') ∧
    length coltypes' = n ∧ length collen' = n ∧
    (coltypes !! j = Some COLTYPE_INTEGER →
     Forall (λ row : list string,
               ∀ cell, row !! j = Some cell → is_Some (py_int cell)) rows →
     coltypes' !! j = Some COLTYPE_INTEGER).
Proof.
  intros Htypes Hlen Hrows. revert coltypes collen Htypes Hlen.
  induction Hrows as [|row rows Hrow _ IH]; intros coltypes collen
    Htypes Hlen; rewrite ?fmap_cons; cbn [scan_reader fmap list_fmap].
  { exists coltypes, collen. by split_and!. }
  destruct (scan_row_ok s row coltypes collen n j Htypes Hlen Hrow)
    as (coltypes1 & collen1 & -> & Htypes1 & Hlen1 & Hint1). cbn [bind].
  destruct (IH coltypes1 collen1 Htypes1 Hlen1)
    as (coltypes2 & collen2 & Hscan & Htypes2 & Hlen2 & Hint2).
  exists coltypes2, collen2. split_and!; [done|done|done|].
  intros Hj Hcells. apply Forall_cons in Hcells as [Hcell Hcells].
  apply Hint2; [|done]. by apply Hint1.
Qed.

(** A column whose every cell parses as an integer is declared as an
    integer column, whatever the lengths of its cells. *)
Lemma integer_column_declared s fs hc entry hc' first
    (rows : list (list string)) j name :
  get_cache_info s fs hc = (Ok entry, hc') →
  e_measurement_columns entry = None →
  open_csv fs (csv_path s) = Ok (CsvRow first :: (CsvRow <$> rows)) →
  Forall (λ row, (length row ≤ length first)%nat) rows →
  first !! j = Some name →
  Forall (λ row : list string,
            ∀ cell, row !! j = Some cell → is_Some (py_int cell)) rows →
  ∃ result,
    (get_measurement_columns py_int py_float PATH_NAME_LENGTH s fs hc).1 =
      Ok result ∧
    result !! j = Some (IMAGE, header_to_column name, COLTYPE_INTEGER).
Proof.
  intros Hinfo Hnone Hopen Hrows Hname Hcells.
  unfold get_measurement_columns. rewrite Hinfo, Hnone, Hopen. simpl.
  rewrite length_fmap.
  destruct (scan_reader_ok s rows
              (replicate (length first) COLTYPE_INTEGER)
              (replicate (length first) 0%nat) (length first) j)
    as (coltypes & collen & -> & Htypes & _ & Hint);
    [by rewrite length_replicate|by rewrite length_replicate|done|].
  destruct (other_providers s fs hc' "imagegroup") as [image_names hc''].
  eexists. split; [done|].
  assert (j < length first)%nat as Hj by by eapply lookup_lt_Some.
  rewrite lookup_app_l; last first.
  { rewrite length_fmap, length_zip_with, length_fmap. lia. }
  rewrite list_lookup_fmap, lookup_zip_with, list_lookup_fmap, Hname. simpl.
  rewrite Hint; [done| |done].
  by apply lookup_replicate_2.
Qed.

(** *** Image names of features *)

(** X1: [get_image_name] returns an image name exactly for the path name
    feature and the file name feature of that name, and raises
    [ValueError] for every other feature. *)
Theorem get_image_name_inverse (feature : string) :
  (∀ image,
     get_image_name feature = Ok image ↔
     feature = make_path_name_feature image ∨
     feature = make_file_name_feature image) ∧
  ((∀ image, feature ≠ make_path_name_feature image ∧
             feature ≠ make_file_name_feature image) →
   ∃ msg, get_image_name feature = Raise (ValueError msg)).
Proof.
  split.
  - intros image. split.
    + unfold get_image_name.
      destruct (is_path_name_feature feature) eqn:Hp.
      { destruct (path_feature_inv _ Hp) as [image' ->].
        intros [= <-]. by left. }
      destruct (is_file_name_feature feature) eqn:Hf; [|done].
      destruct (file_feature_inv _ Hf) as [image' ->].
      intros [= <-]. by right.
    + intros [->| ->];
        [apply get_image_name_path | apply get_image_name_file].
  - intros Hnot. unfold get_image_name.
    destruct (is_path_name_feature feature) eqn:Hp.
    { destruct (path_feature_inv _ Hp) as [image ->].
      by destruct (Hnot image) as [? _]. }
    destruct (is_file_name_feature feature) eqn:Hf; [|by eexists].
    destruct (file_feature_inv _ Hf) as [image ->].
    by destruct (Hnot image) as [_ ?].
Qed.

(** *** The header cache *)

Lemma get_header_stored s fs hc hc' header f :
  get_header s fs hc = (Ok header, hc') →
  fs !! csv_path s = Some f →
  0 < st_ctime f ∨ is_Some (hc !! csv_path s) →
  ∃ e, hc' !! csv_path s = Some e ∧ st_ctime f ≤ e_ctime e ∧
       e_header e = Some header.
Proof.
  intros Hget Hf Hstored. unfold get_header, get_cache_info, os_stat in Hget.
  rewrite Hf in Hget.
  destruct (Z.ltb_spec
    (e_ctime (default {| e_ctime := 0; e_header := None;
                         e_measurement_columns := None |}
                      (hc !! csv_path s))) (st_ctime f)) as [Hlt|Hge].
  - simpl in Hget.
    destruct (bind (open_csv fs (csv_path s)) (λ fd, reader_next fd))
      as [[first reader]|]; [|done].
    injection Hget as <- <-. eexists. split.
    + rewrite lookup_alter, decide_True by done.
      by rewrite lookup_insert_eq.
    + simpl. split; [lia|done].
  - assert (∃ e, hc !! csv_path s = Some e) as [e He].
    { destruct Hstored as [Hpos|[e He]]; [|by eexists].
      destruct (hc !! csv_path s) as [e|]; [by eexists|]. simpl in Hge. lia. }
    rewrite He in Hget, Hge. simpl in Hget, Hge.
    destruct (e_header e) as [h|] eqn:Hh.
    { injection Hget as <- <-. by exists e. }
    destruct (bind (open_csv fs (csv_path s)) (λ fd, reader_next fd))
      as [[first reader]|]; [|done].
    injection Hget as <- <-. eexists. split.
    + rewrite lookup_alter, decide_True by done. by rewrite He.
    + done.
Qed.

(** X2: once [get_header] has returned a header and stored it, it
    returns the same header, and leaves the cache as it is, for as long
    as the change time of the file does not advance, without opening the
    file. *)
Theorem get_header_cached s fs fs' hc hc' header f f' :
  get_header s fs hc = (Ok header, hc') →
  fs !! csv_path s = Some f →
  0 < st_ctime f ∨ is_Some (hc !! csv_path s) →
  fs' !! csv_path s = Some f' →
  st_ctime f' ≤ st_ctime f →
  get_header s fs' hc' = (Ok header, hc').
Proof.
  intros Hget Hf Hstored Hf' Hle.
  destruct (get_header_stored _ _ _ _ _ _ Hget Hf Hstored)
    as (e & He & Hctime & Hheader).
  unfold get_header, get_cache_info, os_stat. rewrite Hf', He. simpl.
  rewrite (proj2 (Z.ltb_ge _ _)) by lia. by rewrite Hheader.
Qed.

(** X3: when the change time of the file is later than the one cached
    (or the file is not in the cache), [get_header] reads the header
    again and replaces the whole entry: what was cached of the
    measurement columns is dropped too. *)
Theorem get_header_reread s fs hc f first reader :
  fs !! csv_path s = Some f →
  content f = Some (CsvRow first :: reader) →
  match hc !! csv_path s with
  | Some e => e_ctime e < st_ctime f
  | None => 0 < st_ctime f
  end →
  get_header s fs hc =
    (Ok (header_to_column <$> first),
     <[csv_path s := {| e_ctime := st_ctime f;
                        e_header := Some (header_to_column <$> first);
                        e_measurement_columns := None |}]> hc).
Proof.
  intros Hf Hcontent Hlater.
  unfold get_header, get_cache_info, os_stat, open_csv.
  rewrite Hf, Hcontent.
  assert ((e_ctime (default {| e_ctime := 0; e_header := None;
                               e_measurement_columns := None |}
                            (hc !! csv_path s)) <? st_ctime f) = true)
    as -> by (apply Z.ltb_lt; by destruct (hc !! csv_path s)).
  simpl. f_equal. apply map_eq. intros k.
  rewrite lookup_alter. case_decide as Hk.
  - subst k. by rewrite !lookup_insert_eq.
  - by rewrite !lookup_insert_ne.
Qed.

(** *** Image providers *)

Lemma get_image_names_of_features (l : list string) :
  Forall (λ f, is_file_name_feature f = true) l →
  ∃ names, for_each get_image_name l = Ok names ∧
           make_file_name_feature <$> names = l.
Proof.
  induction 1 as [|f l Hf _ (names & Hnames & Hl)]; [by exists []|].
  destruct (file_feature_inv _ Hf) as [image ->].
  exists (image :: names). cbn [for_each].
  rewrite get_image_name_file, Hnames. simpl. by rewrite <- Hl.
Qed.

(** X4: when images are loaded from the data, the image names that
    [other_providers] gives for the group 'imagegroup' are the names whose
    file name feature is in the header, in the order of the header; it
    gives no name when the header cannot be read, when images are not
    loaded from the data, and for any other group. *)
Theorem other_providers_names s fs hc group :
  (∀ header hc',
     wants_images s = true →
     get_header s fs hc = (Ok header, hc') →
     ∃ names,
       other_providers s fs hc "imagegroup" = (names, hc') ∧
       make_file_name_feature <$> names =
         filter (λ f, is_file_name_feature f = true) header) ∧
  (∀ e hc',
     get_header s fs hc = (Raise e, hc') →
     (other_providers s fs hc group).1 = []) ∧
  (wants_images s = false ∨ group ≠ "imagegroup" →
   other_providers s fs hc group = ([], hc)).
Proof.
  split_and!.
  - intros header hc' Hw Hget. unfold other_providers.
    rewrite Hw, Hget. simpl.
    assert (filter is_file_name_feature header =
            filter (λ f, is_file_name_feature f = true) header) as Hfilter.
    { apply list_filter_iff. intros f. by rewrite Is_true_true. }
    rewrite Hfilter.
    destruct (get_image_names_of_features
                (filter (λ f, is_file_name_feature f = true) header))
      as (names & -> & Hnames).
    { apply Forall_forall. by intros f [? _]%list_elem_of_filter. }
    by exists names.
  - intros e hc' Hget. unfold other_providers.
    destruct (String.eqb group "imagegroup" && wants_images s); [|done].
    by rewrite Hget.
  - intros Hoff. unfold other_providers.
    destruct Hoff as [->|Hgroup]; [by rewrite andb_false_r|].
    by apply String.eqb_neq in Hgroup as ->.
Qed.

(** *** The table that a load stores *)

Lemma arrange_column_dictionary s header rows k (t t' : tables F) :
  arrange_column py_int py_float s header rows k t = Ok t' →
  ∃ cells h,
    column_cells rows k = Ok cells ∧ header !! k = Some h ∧
    dictionary t' =
      <[h := if Str.startswith h "Metadata_"
             then best_cast py_int py_float cells
             else if wants_images s &&
                     (is_file_name_feature h || is_path_name_feature h)
             then StrColumn cells
             else best_cast py_int py_float cells]> (dictionary t).
Proof.
  intros Hstep.
  destruct (arrange_column_cases _ _ _ _ _ _ Hstep)
    as (cells & h & Hcells & Hh & Hcases).
  exists cells, h. split_and!; [done|done|].
  destruct Hcases as [[Hmd ->]|[(Hmd & Hw & image & -> & ->)|
    [(Hmd & Hw & image & -> & ->)|(Hmd & Hother & ->)]]]; cbn [dictionary].
  - by rewrite Hmd.
  - destruct (is_feature_make image) as (_ & Hf & _ & _).
    by rewrite Hmd, Hw, Hf.
  - destruct (is_feature_make image) as (Hp & _ & _ & _).
    by rewrite Hmd, Hw, Hp, orb_true_r.
  - rewrite Hmd.
    destruct Hother as [->|[-> ->]]; [done|by rewrite andb_false_r].
Qed.

(** After the loop over the header, the column stored under a name is
    made from the cells under the last header field of that name: kept
    as strings for a file name or path name column when images are
    loaded from the data, the best cast otherwise. *)
Lemma arrange_dictionary s header rows (t : tables F) :
  arrange py_int py_float s header rows = Ok t →
  ∀ h c,
    dictionary t !! h = Some c ↔
    ∃ j cells,
      header !! j = Some h ∧
      (∀ j', (j < j')%nat → header !! j' ≠ Some h) ∧
      column_cells rows j = Ok cells ∧
      c = if Str.startswith h "Metadata_"
          then best_cast py_int py_float cells
          else if wants_images s &&
                  (is_file_name_feature h || is_path_name_feature h)
          then StrColumn cells
          else best_cast py_int py_float cells.
Proof.
  intros Harr.
  cut (∀ h c,
    dictionary t !! h = Some c ↔
    ∃ j cells,
      (j < length header)%nat ∧
      header !! j = Some h ∧
      (∀ j', (j < j' < length header)%nat → header !! j' ≠ Some h) ∧
      column_cells rows j = Ok cells ∧
      c = if Str.startswith h "Metadata_"
          then best_cast py_int py_float cells
          else if wants_images s &&
                  (is_file_name_feature h || is_path_name_feature h)
          then StrColumn cells
          else best_cast py_int py_float cells).
  { intros Hcut h c. rewrite Hcut. split.
    - intros (j & cells & Hj & Hh & Hlast & Hcells & ->).
      exists j, cells. split_and!; [done| |done|done].
      intros j' Hj' Hh'. apply (Hlast j'); [|done].
      apply lookup_lt_Some in Hh'. lia.
    - intros (j & cells & Hh & Hlast & Hcells & ->).
      exists j, cells. split_and!; [|done| |done|done].
      + by apply lookup_lt_Some in Hh.
      + intros j' Hj'. apply Hlast. lia. }
  revert Harr. unfold arrange.
  apply (for_fold_range_inv (λ k (t : tables F), ∀ h c,
    dictionary t !! h = Some c ↔
    ∃ j cells,
      (j < k)%nat ∧
      header !! j = Some h ∧
      (∀ j', (j < j' < k)%nat → header !! j' ≠ Some h) ∧
      column_cells rows j = Ok cells ∧
      c = if Str.startswith h "Metadata_"
          then best_cast py_int py_float cells
          else if wants_images s &&
                  (is_file_name_feature h || is_path_name_feature h)
          then StrColumn cells
          else best_cast py_int py_float cells)).
  { intros h c. simpl. rewrite lookup_empty.
    split; [done|]. intros (j & _ & Hj & _). lia. }
  clear t. intros k t t' Hk IH Hstep h c.
  destruct (arrange_column_dictionary _ _ _ _ _ _ Hstep)
    as (cells & h0 & Hcells & Hh0 & ->).
  destruct (decide (h0 = h)) as [->|Hne].
  - rewrite lookup_insert_eq. split.
    + intros [= <-]. exists k, cells.
      split_and!; [lia|done| |done|done]. intros j' Hj'. lia.
    + intros (j & cells0 & Hj & Hhj & Hlast & Hc & ->).
      destruct (decide (j = k)) as [->|Hjk].
      { rewrite Hcells in Hc. by injection Hc as ->. }
      exfalso. apply (Hlast k); [lia|done].
  - rewrite lookup_insert_ne by done. rewrite IH. split.
    + intros (j & cells0 & Hj & Hhj & Hlast & Hc & ->).
      exists j, cells0. split_and!; [lia|done| |done|done].
      intros j' Hj'. destruct (decide (j' = k)) as [->|]; [congruence|].
      apply Hlast. lia.
    + intros (j & cells0 & Hj & Hhj & Hlast & Hc & ->).
      exists j, cells0. split_and!; [|done| |done|done].
      * destruct (decide (j = k)) as [->|]; [congruence|lia].
      * intros j' Hj'. apply Hlast. lia.
Qed.

Lemma stored_column_length s h cells :
  column_len (if Str.startswith h "Metadata_"
              then best_cast py_int py_float cells
              else if wants_images s &&
                      (is_file_name_feature h || is_path_name_feature h)
              then StrColumn cells
              else best_cast py_int py_float cells) = length cells.
Proof.
  destruct (Str.startswith h "Metadata_"); [apply best_cast_length|].
  destruct (wants_images s &&
            (is_file_name_feature h || is_path_name_feature h));
    [|apply best_cast_length].
  unfold column_len. simpl. by rewrite length_fmap.
Qed.

Lemma prepare_run_table s fs (isl : image_set_list F) b isl' :
  prepare_run py_int py_float s false fs isl = Ok (b, isl') →
  ∃ first reader rows d,
    open_csv fs (csv_path s) = Ok (CsvRow first :: reader) ∧
    load_rows s (header_to_column <$> first) reader = Ok rows ∧
    legacy_fields isl' !! legacy_field_key s = Some d ∧
    (∀ h, is_Some (d !! h) ↔ h ∈ (header_to_column <$> first)) ∧
    (∀ h c, d !! h = Some c → column_len c = length rows).
Proof.
  intros Hrun.
  destruct (prepare_run_inv _ _ _ _ _ Hrun)
    as (first & reader & rows & t & units & Hopen & Hload & Hrows & Harr &
        _ & _ & -> & ->).
  exists first, reader, rows, (dictionary t). simpl.
  pose proof (arrange_dictionary _ _ _ _ Harr) as Hd.
  split_and!; [done|done|by rewrite lookup_insert_eq| |].
  - intros h. split.
    + intros [c (j & cells & Hj & _)%Hd]. by eapply list_elem_of_lookup_2.
    + intros Hin. destruct (last_occurrence _ _ Hin) as (j & Hj & Hlast).
      destruct (column_cells_ok rows _ j Hrows) as [cells Hcells].
      { by eapply lookup_lt_Some. }
      eexists. apply Hd. by exists j, cells.
  - intros h c (j & cells & _ & _ & Hcells & ->)%Hd.
    rewrite stored_column_length. by eapply column_cells_length.
Qed.

(** X5: the table that a load stores in the image set list has one
    column for every name of the header and no other, and every column
    has one value for every row that was loaded. *)
Theorem prepare_run_table_is_rectangular s fs (isl : image_set_list F)
    b isl' :
  prepare_run py_int py_float s false fs isl = Ok (b, isl') →
  ∃ first reader rows d,
    open_csv fs (csv_path s) = Ok (CsvRow first :: reader) ∧
    load_rows s (header_to_column <$> first) reader = Ok rows ∧
    legacy_fields isl' !! legacy_field_key s = Some d ∧
    (∀ h, is_Some (d !! h) ↔ h ∈ (header_to_column <$> first)) ∧
    (∀ h c, d !! h = Some c → column_len c = length rows).
Proof. apply prepare_run_table. Qed.

(** X6: when images are loaded from the data, the file name and path
    name columns are stored as the strings of the file, cell by cell,
    whatever they look like: they are never cast to numbers. *)
Theorem prepare_run_keeps_image_columns s fs (isl : image_set_list F)
    b isl' image h :
  prepare_run py_int py_float s false fs isl = Ok (b, isl') →
  wants_images s = true →
  h = make_file_name_feature image ∨ h = make_path_name_feature image →
  ∃ first reader rows d,
    open_csv fs (csv_path s) = Ok (CsvRow first :: reader) ∧
    load_rows s (header_to_column <$> first) reader = Ok rows ∧
    legacy_fields isl' !! legacy_field_key s = Some d ∧
    ∀ c, d !! h = Some c →
      ∃ j cells,
        (header_to_column <$> first) !! j = Some h ∧
        c = StrColumn cells ∧
        length cells = length rows ∧
        ∀ i row, rows !! i = Some row → cells !! i = row !! j.
Proof.
  intros Hrun Hw Hh.
  destruct (prepare_run_inv _ _ _ _ _ Hrun)
    as (first & reader & rows & t & units & Hopen & Hload & Hrows & Harr &
        _ & _ & -> & ->).
  exists first, reader, rows, (dictionary t). simpl.
  pose proof (arrange_dictionary _ _ _ _ Harr) as Hd.
  split_and!; [done|done|by rewrite lookup_insert_eq|].
  intros c (j & cells & Hj & _ & Hcells & ->)%Hd.
  exists j, cells. split_and!; [done| |by eapply column_cells_length|].
  - destruct (is_feature_make image) as (Hp & Hf & _ & _).
    destruct (feature_heads image) as [Hmf Hmp].
    destruct Hh as [-> | ->].
    + by rewrite Hmf, Hw, Hf.
    + by rewrite Hmp, Hw, Hp, orb_true_r.
  - intros i row Hrow.
    destruct (column_cells_lookup _ _ _ _ _ Hcells Hrow) as (cell & -> & ->).
    done.
Qed.

Lemma arrange_no_images s header rows (t : tables F) :
  wants_images s = false →
  arrange py_int py_float s header rows = Ok t → images t = ∅.
Proof.
  intros Hw. unfold arrange.
  apply (for_fold_range_inv (λ _ (t : tables F), images t = ∅)); [done|].
  intros k t0 t' _ IH Hstep.
  destruct (arrange_column_cases _ _ _ _ _ _ Hstep)
    as (cells & h & _ & _ & Hcases).
  destruct Hcases as [[_ ->]|[(_ & Hw' & _)|[(_ & Hw' & _)|(_ & _ & ->)]]];
    simpl; congruence.
Qed.

Lemma populate_ok (isl : image_set_list F) s header rows (t : tables F) :
  arrange py_int py_float s header rows = Ok t →
  ∃ units, populate isl (metadata t) rows = Ok units.
Proof.
  intros Harr. apply for_each_ok, Forall_forall.
  intros i Hi%elem_of_seq.
  destruct (negb (size (metadata t) =? 0)%nat && use_key isl);
    [|by eexists].
  unfold key_at. rewrite bool_decide_eq_true_2; [by eexists|].
  intros name c (j & cells & _ & _ & Hcells & ->)%(arrange_metadata _ _ _ _ Harr).
  rewrite best_cast_length, (column_cells_length _ _ _ Hcells). lia.
Qed.

(** X7: a file whose rows are read and all have the header's number of
    fields is loaded without error, unless images are loaded from the
    data and some path name column has no file name column. *)
Theorem prepare_run_succeeds s fs (isl : image_set_list F) first reader
    rows :
  open_csv fs (csv_path s) = Ok (CsvRow first :: reader) →
  load_rows s (header_to_column <$> first) reader = Ok rows →
  Forall (λ r, length r = length first) rows →
  (wants_images s = true →
   ∀ image,
     make_path_name_feature image ∈ (header_to_column <$> first) →
     make_file_name_feature image ∈ (header_to_column <$> first)) →
  ∃ isl', prepare_run py_int py_float s false fs isl = Ok (true, isl').
Proof.
  intros Hopen Hload Hrows Hpaired.
  set (header := header_to_column <$> first) in *.
  assert (Hrows' : Forall (λ r, length r = length header) rows).
  { unfold header. by rewrite length_fmap. }
  destruct (arrange_ok s header rows Hrows') as [t Ht].
  destruct (populate_ok isl _ _ _ _ Ht) as [units Hunits].
  assert (check_images (images t) = Ok ()) as Hcheck.
  { destruct (wants_images s) eqn:Hw.
    - apply check_images_ok. intros image parts Hparts.
      destruct (arrange_images s header rows t Hw Ht image) as [Hf He].
      rewrite Hparts in Hf, He. simpl in Hf. apply Hf.
      destruct He as [[?|?] _]; [by eexists|done|by apply Hpaired].
    - rewrite (arrange_no_images _ _ _ _ Hw Ht). done. }
  eexists. unfold prepare_run. rewrite Hopen. simpl. fold header.
  rewrite Hload. simpl. rewrite (check_rows_ok s _ 0 rows Hrows'). simpl.
  rewrite Ht. simpl. rewrite Hcheck. simpl. by rewrite Hunits.
Qed.

(** *** Publishing a row *)

Lemma has_metadata_keys_number (number : pyval F) :
  has_metadata_keys {[ "number" := number ]} = Ok false.
Proof. unfold has_metadata_keys. by rewrite map_to_list_singleton. Qed.

Lemma py_index_in_range {A} (l : list A) (i : Z) x :
  l !! Z.to_nat (if i <? 0 then i + Z.of_nat (length l) else i) = Some x →
  0 ≤ (if i <? 0 then i + Z.of_nat (length l) else i) →
  py_index l i = Ok x.
Proof.
  intros Hx Hpos. unfold py_index, list_get.
  rewrite (proj2 (Z.ltb_ge _ 0)) by done. by rewrite Hx.
Qed.

Lemma py_index_out_of_range {A} (l : list A) (i : Z) :
  Z.of_nat (length l) ≤ i ∨ i < - Z.of_nat (length l) →
  py_index l i = Raise IndexError.
Proof.
  intros Hout. unfold py_index, list_get.
  destruct (Z.ltb_spec i 0) as [Hneg|Hpos].
  - rewrite (proj2 (Z.ltb_lt _ 0)) by lia. done.
  - rewrite (proj2 (Z.ltb_ge _ 0)) by lia.
    rewrite lookup_ge_None_2; [done|lia].
Qed.

Lemma publish_columns_at (d : gmap string (column F)) (index : Z) (n : nat) :
  (∀ name column, d !! name = Some column → column_len column = n) →
  - Z.of_nat n ≤ index < Z.of_nat n →
  ∃ statistics,
    publish_columns d (Some index) = Ok statistics ∧
    Forall2 (λ '(name, column) '(feature_name, value),
               feature_name = name ∧
               column_values column !!
                 Z.to_nat (if index <? 0 then index + Z.of_nat n else index) =
                 Some value)
            (map_to_list d) statistics.
Proof.
  intros Hlen Hindex. unfold publish_columns.
  assert (Hrow : ∀ name column, d !! name = Some column →
    ∃ value,
      column_values column !!
        Z.to_nat (if index <? 0 then index + Z.of_nat n else index) =
        Some value ∧
      py_index (column_values column) index = Ok value).
  { intros name column Hcolumn. specialize (Hlen _ _ Hcolumn).
    unfold column_len in Hlen.
    destruct (lookup_lt_is_Some_2 (column_values column)
      (Z.to_nat (if index <? 0 then index + Z.of_nat n else index)))
      as [value Hvalue].
    { rewrite Hlen. destruct (Z.ltb_spec index 0); lia. }
    exists value. split; [done|]. apply py_index_in_range.
    - by rewrite Hlen.
    - rewrite Hlen. destruct (Z.ltb_spec index 0); lia. }
  destruct (for_each_ok
    (λ '(feature_name, column),
       let* index := Ok index in
       let* value := py_index (column_values column) index in
       Ok (feature_name, value)) (map_to_list d)) as [statistics Hstat].
  { apply Forall_forall. intros [name column] Hin%elem_of_map_to_list.
    destruct (Hrow _ _ Hin) as (value & _ & Hvalue).
    exists (name, value). simpl. by rewrite Hvalue. }
  exists statistics. split; [done|].
  apply for_each_Forall2 in Hstat.
  apply Forall2_same_length_lookup_2; [by eapply Forall2_length|].
  intros i [name column] [feature_name value] Hi Hi'.
  pose proof (Forall2_lookup_lr _ _ _ _ _ _ Hstat Hi Hi') as Hbody.
  simpl in Hbody.
  destruct (Hrow name column) as (value' & Hvalue' & Hindex').
  { apply elem_of_map_to_list. by eapply list_elem_of_lookup_2. }
  rewrite Hindex' in Hbody. simpl in Hbody. by simplify_eq.
Qed.

Lemma publish_columns_out_of_range (d : gmap string (column F)) (index : Z)
    (n : nat) :
  (∀ name column, d !! name = Some column → column_len column = n) →
  d ≠ ∅ →
  Z.of_nat n ≤ index ∨ index < - Z.of_nat n →
  publish_columns d (Some index) = Raise IndexError.
Proof.
  intros Hlen Hne Hout. unfold publish_columns.
  destruct (map_to_list d) as [|[name column] l] eqn:Hl.
  { by apply map_to_list_empty_iff in Hl. }
  assert (d !! name = Some column) as Hcolumn.
  { apply elem_of_map_to_list. rewrite Hl. by left. }
  simpl. rewrite py_index_out_of_range; [done|].
  fold (column_len column). by rewrite (Hlen _ _ Hcolumn).
Qed.

(** X8: after a load, [run] on an image set that carries only its number
    publishes, for every column of the table, the value of the row of
    that number (rows counted from 1); for a number from 0 down it
    counts the rows from the end of the table, as Python indexing
    does. *)
Theorem run_after_prepare_run s fs hc (isl : image_set_list F) b isl'
    (number : pyval F) (image_set_number : Z) :
  prepare_run py_int py_float s false fs isl = Ok (b, isl') →
  ∃ first reader rows d,
    open_csv fs (csv_path s) = Ok (CsvRow first :: reader) ∧
    load_rows s (header_to_column <$> first) reader = Ok rows ∧
    legacy_fields isl' !! legacy_field_key s = Some d ∧
    (- Z.of_nat (length rows) < image_set_number ≤ Z.of_nat (length rows) →
     ∃ statistics,
       Forall2 (λ '(name, column) '(feature_name, value),
                  feature_name = name ∧
                  column_values column !!
                    Z.to_nat (if 1 <=? image_set_number
                              then image_set_number - 1
                              else Z.of_nat (length rows) +
                                   image_set_number - 1) = Some value)
               (map_to_list d) statistics ∧
       run py_eq image_md5 s fs hc isl' {[ "number" := number ]}
           image_set_number =
         (let* digests :=
            publish_digests image_md5
              (other_providers s fs hc "imagegroup").1 in
          Ok (statistics ++ digests),
          (other_providers s fs hc "imagegroup").2)).
Proof.
  intros Hrun.
  destruct (prepare_run_table _ _ _ _ _ Hrun)
    as (first & reader & rows & d & Hopen & Hload & Hd & _ & Hlen).
  exists first, reader, rows, d. split_and!; [done|done|done|].
  intros Hnumber.
  destruct (publish_columns_at d (image_set_number - 1) (length rows) Hlen)
    as (statistics & Hpub & Hrow); [lia|].
  exists statistics. split.
  - eapply Forall2_impl; [exact Hrow|].
    intros [name column] [feature_name value] [-> Hvalue].
    split; [done|]. rewrite <- Hvalue. f_equal. f_equal.
    destruct (Z.ltb_spec (image_set_number - 1) 0);
      destruct (Z.leb_spec 1 image_set_number); lia.
  - unfold run, find_index. rewrite Hd, has_metadata_keys_number. simpl.
    rewrite Hpub. by destruct (other_providers s fs hc "imagegroup").
Qed.

(** X9: [run] on an image set that carries only its number raises
    [IndexError], and publishes nothing, when the number is beyond the
    rows of the table. *)
Theorem run_number_out_of_range s fs hc (isl : image_set_list F)
    (d : gmap string (column F)) (number : pyval F)
    (image_set_number : Z) (n : nat) :
  legacy_fields isl !! legacy_field_key s = Some d →
  (∀ name column, d !! name = Some column → column_len column = n) →
  d ≠ ∅ →
  Z.of_nat n < image_set_number ∨ image_set_number ≤ - Z.of_nat n →
  run py_eq image_md5 s fs hc isl {[ "number" := number ]}
      image_set_number = (Raise IndexError, hc).
Proof.
  intros Hd Hlen Hne Hout.
  unfold run, find_index. rewrite Hd, has_metadata_keys_number. simpl.
  rewrite (publish_columns_out_of_range d _ n Hlen Hne); [done|lia].
Qed.

Lemma match_failure_all_match (d : gmap string (column F)) (i : nat)
    (keys : list (string * pyval F)) :
  (∀ key wanted, (key, wanted) ∈ keys →
     ∃ column value,
       d !! ("Metadata_" +:+ key) = Some column ∧
       column_values column !! i = Some value ∧
       py_eq value wanted = true) →
  match_failure py_eq d (Z.of_nat i) keys = Ok false.
Proof.
  induction keys as [|[key wanted] keys IH]; intros Hall; [done|].
  cbn [match_failure].
  destruct (Hall key wanted) as (column & value & -> & Hvalue & Heq);
    [by left|].
  rewrite (py_index_nat _ _ _ Hvalue). simpl. rewrite Heq. simpl.
  apply IH. intros key' wanted' Hin. apply (Hall key' wanted'). by right.
Qed.

Lemma match_rows_first_match (d : gmap string (column F))
    (keys : list (string * pyval F)) (before after : list nat) (i : nat)
    index :
  Forall (λ j, match_failure py_eq d (Z.of_nat j) keys = Ok true) before →
  match_failure py_eq d (Z.of_nat i) keys = Ok false →
  match_rows py_eq d keys (before ++ i :: after) index =
    Ok (Some (Z.of_nat i)).
Proof.
  intros Hbefore Hi. revert index.
  induction Hbefore as [|j before Hj _ IH]; intros index; simpl.
  - by rewrite Hi.
  - rewrite Hj. simpl. apply IH.
Qed.

(** X10: when the image set carries keys, every key has its "Metadata_"
    column, and some row has values equal to all the values of the keys,
    [run] publishes the values of the first such row. *)
Theorem run_first_matching_row s fs hc (isl : image_set_list F)
    (d : gmap string (column F)) (image_set_keys : gmap string (pyval F))
    (image_set_number : Z) (n i : nat) :
  legacy_fields isl !! legacy_field_key s = Some d →
  has_metadata_keys image_set_keys = Ok true →
  (∀ name column, d !! name = Some column → column_len column = n) →
  (∀ key wanted, image_set_keys !! key = Some wanted →
     is_Some (d !! ("Metadata_" +:+ key))) →
  (i < n)%nat →
  (∀ key wanted column,
     image_set_keys !! key = Some wanted →
     d !! ("Metadata_" +:+ key) = Some column →
     ∃ value, column_values column !! i = Some value ∧
              py_eq value wanted = true) →
  (∀ j, (j < i)%nat →
     ∃ key wanted column value,
       image_set_keys !! key = Some wanted ∧
       d !! ("Metadata_" +:+ key) = Some column ∧
       column_values column !! j = Some value ∧
       py_eq value wanted = false) →
  find_index py_eq d image_set_keys image_set_number =
    Ok (Some (Z.of_nat i)) ∧
  ∃ statistics,
    Forall2 (λ '(name, column) '(feature_name, value),
               feature_name = name ∧ column_values column !! i = Some value)
            (map_to_list d) statistics ∧
    run py_eq image_md5 s fs hc isl image_set_keys image_set_number =
      (let* digests :=
         publish_digests image_md5 (other_providers s fs hc "imagegroup").1 in
       Ok (statistics ++ digests),
       (other_providers s fs hc "imagegroup").2).
Proof.
  intros Hd Hkeys Hlen Hcols Hi Hmatch Hbefore.
  assert (find_index py_eq d image_set_keys image_set_number =
          Ok (Some (Z.of_nat i))) as Hindex.
  { unfold find_index. rewrite Hkeys. simpl.
    destruct (map_choose _ (has_metadata_keys_nonempty _ _ Hkeys))
      as (key & wanted & Hkey).
    destruct (Hcols _ _ Hkey) as [column Hcolumn].
    destruct (map_to_list d) as [|[name first] l] eqn:Hl.
    { apply map_to_list_empty_iff in Hl. by rewrite Hl in Hcolumn. }
    assert (d !! name = Some first) as Hfirst.
    { apply elem_of_map_to_list. rewrite Hl. by left. }
    unfold list_get. simpl. rewrite (Hlen _ _ Hfirst).
    replace n with (i + S (n - S i))%nat by lia.
    rewrite seq_app. cbn [seq]. apply match_rows_first_match.
    - apply Forall_forall. intros j Hj%elem_of_seq.
      apply match_failure_mismatch.
      + intros key' wanted' Hin%elem_of_map_to_list.
        destruct (Hcols _ _ Hin) as [column' Hcolumn'].
        exists column'. split; [done|]. rewrite (Hlen _ _ Hcolumn'). lia.
      + destruct (Hbefore j) as (key' & wanted' & column' & value' & Hin & ?);
          [lia|].
        exists key', wanted', column', value'.
        split; [by apply elem_of_map_to_list|done].
    - apply match_failure_all_match.
      intros key' wanted' Hin%elem_of_map_to_list.
      destruct (Hcols _ _ Hin) as [column' Hcolumn'].
      destruct (Hmatch _ _ _ Hin Hcolumn') as (value & Hvalue & Heq).
      by exists column', value. }
  split; [done|].
  destruct (publish_columns_row d i n Hlen Hi) as (statistics & Hpub & Hrow).
  exists statistics. split; [done|].
  unfold run. rewrite Hd. simpl. rewrite Hindex. simpl. rewrite Hpub.
  by destruct (other_providers s fs hc "imagegroup").
Qed.

(** *** Ranges of rows *)

(** X11: a range that starts at row 2 or later is read as requested: the
    rows numbered [min] to [max], counted from 1 without the header, or
    to the end of the file when it has fewer than [max] rows. *)
Theorem load_rows_range s header (rows : list (list string)) :
  wants_rows s = true →
  2 ≤ row_range_min s ≤ row_range_max s →
  row_range_min s - 1 ≤ Z.of_nat (length rows) →
  Forall (λ r, length r = length header) rows →
  load_rows s header (CsvRow <$> rows) =
    Ok (take (Z.to_nat (row_range_max s - row_range_min s + 1))
             (drop (Z.to_nat (row_range_min s - 1)) rows)).
Proof.
  intros Hw Hmin Hskip Hrows. unfold load_rows. rewrite Hw.
  rewrite skip_rows_rows by lia. simpl.
  rewrite read_range_rows by by apply Forall_drop.
  replace (0 <? row_range_min s - 1) with true by lia.
  rewrite bool_decide_eq_true_2 by lia. simpl. do 2 f_equal. lia.
Qed.

Lemma skip_rows_past_end (n : nat) (rows : list (list string)) :
  (length rows < n)%nat →
  skip_rows n (CsvRow <$> rows) = Raise StopIteration.
Proof.
  revert rows. induction n as [|n IH]; intros rows Hn; [lia|].
  destruct rows as [|r rows]; csimpl in *; [done|]. apply IH. lia.
Qed.

(** X12: a range that starts beyond the row after the last one makes the
    load raise [StopIteration], the error of the reader at the end of
    the file, and no [ValueError]. *)
Theorem prepare_run_range_past_end s fs (isl : image_set_list F) first
    (rows : list (list string)) :
  wants_rows s = true →
  open_csv fs (csv_path s) = Ok (CsvRow first :: (CsvRow <$> rows)) →
  Z.of_nat (length rows) < row_range_min s - 1 →
  prepare_run py_int py_float s false fs isl = Raise StopIteration.
Proof.
  intros Hw Hopen Hmin. unfold prepare_run. rewrite Hopen. simpl.
  unfold load_rows. rewrite Hw.
  rewrite skip_rows_past_end by lia. done.
Qed.

Lemma read_range_first_bad n max (rows acc : list (list string)) (i : Z)
    k row :
  rows !! k = Some row →
  length row ≠ n →
  (∀ j r, (j < k)%nat → rows !! j = Some r → length r = n) →
  (∀ j, (j < k)%nat → i + Z.of_nat j ≠ max - 1) →
  read_range n max (CsvRow <$> rows) i acc =
    Raise (ValueError (skip_message (i + Z.of_nat k) (length row) n)).
Proof.
  revert i acc k. induction rows as [|r rows IH]; intros i acc k Hk Hbad
    Hgood Hrange; [done|].
  destruct k as [|k]; csimpl in *.
  - injection Hk as ->. rewrite bool_decide_eq_true_2 by done.
    by rewrite Z.add_0_r.
  - rewrite bool_decide_eq_false_2; last first.
    { intros Hne. apply Hne, (Hgood 0%nat); [lia|done]. }
    rewrite bool_decide_eq_false_2; last first.
    { specialize (Hrange 0%nat). lia. }
    rewrite (IH (i + 1) _ k); [|done|done| |].
    + do 3 f_equal. lia.
    + intros j r' Hj. apply (Hgood (S j)). lia.
    + intros j Hj. specialize (Hrange (S j)). lia.
Qed.

(** X13: with a range that starts at row 2 or later, a row of the range
    whose number of fields differs from the header's makes the load fail
    with an error that gives the numbers of fields found and expected,
    and for the row its number counted from 0: one less than the number
    by which the range names it. *)
Theorem prepare_run_range_wrong_field_count s fs (isl : image_set_list F)
    first (rows : list (list string)) k row :
  wants_rows s = true →
  open_csv fs (csv_path s) = Ok (CsvRow first :: (CsvRow <$> rows)) →
  2 ≤ row_range_min s →
  row_range_min s - 1 ≤ Z.of_nat k ≤ row_range_max s - 1 →
  rows !! k = Some row →
  length row ≠ length first →
  (∀ j r, (Z.to_nat (row_range_min s - 1) ≤ j < k)%nat →
          rows !! j = Some r → length r = length first) →
  prepare_run py_int py_float s false fs isl =
    Raise (ValueError
             ("Row # " +:+ pretty (Z.of_nat k) +:+
              " has the wrong number of elements: " +:+
              pretty (length row) +:+ ". Expected " +:+
              pretty (length first))).
Proof.
  intros Hw Hopen Hmin Hk Hrow Hbad Hgood.
  unfold prepare_run. rewrite Hopen. simpl.
  unfold load_rows. rewrite Hw, length_fmap.
  rewrite skip_rows_rows by (apply lookup_lt_Some in Hrow; lia). simpl.
  replace (0 <? row_range_min s - 1) with true by lia.
  rewrite (read_range_first_bad _ _ _ _ _
             (k - Z.to_nat (row_range_min s - 1)) row).
  - simpl. unfold skip_message.
    by replace (row_range_min s - 1 - 1 + 1 +
                Z.of_nat (k - Z.to_nat (row_range_min s - 1)))
      with (Z.of_nat k) by lia.
  - rewrite lookup_drop, <- Hrow. f_equal. lia.
  - done.
  - intros j r Hj. rewrite lookup_drop. apply Hgood. lia.
  - intros j Hj. lia.
Qed.

(** *** The declared columns *)

(** X14: the column declaration accepts every file whose data rows have
    at most as many fields as the header, shorter rows included, and
    declares one column for every header field, in the order of the
    header, followed by one "MD5Digest_" column of width 32 for every
    image name. *)
Theorem get_measurement_columns_names s fs hc entry hc' first
    (rows : list (list string)) :
  get_cache_info s fs hc = (Ok entry, hc') →
  e_measurement_columns entry = None →
  open_csv fs (csv_path s) = Ok (CsvRow first :: (CsvRow <$> rows)) →
  Forall (λ row, (length row ≤ length first)%nat) rows →
  ∃ coltypes,
    length coltypes = length first ∧
    (get_measurement_columns py_int py_float PATH_NAME_LENGTH s fs hc).1 =
      Ok (((λ '(colname, coltype), (IMAGE, colname, coltype)) <$>
             zip (header_to_column <$> first) coltypes) ++
          ((λ image_name,
              (IMAGE, "MD5Digest_" +:+ image_name, COLTYPE_VARCHAR 32)) <$>
             (other_providers s fs hc' "imagegroup").1)).
Proof.
  intros Hinfo Hnone Hopen Hrows.
  unfold get_measurement_columns. rewrite Hinfo, Hnone, Hopen. simpl.
  rewrite length_fmap.
  destruct (scan_reader_ok s rows
              (replicate (length first) COLTYPE_INTEGER)
              (replicate (length first) 0%nat) (length first) 0)
    as (coltypes & collen & -> & Htypes & _ & _);
    [by rewrite length_replicate|by rewrite length_replicate|done|].
  destruct (other_providers s fs hc' "imagegroup") as [image_names hc''].
  by exists coltypes.
Qed.

Lemma scan_field_numeric s field index (coltypes : list coltype)
    (collen : list nat) n j :
  length coltypes = n → length collen = n → (index < n)%nat →
  coltypes !! j = Some COLTYPE_INTEGER ∨ coltypes !! j = Some COLTYPE_FLOAT →
  (index = j → is_Some (py_float field)) →
  ∃ coltypes' collen',
    scan_field py_int py_float PATH_NAME_LENGTH s field index
               (coltypes, collen) = Ok (coltypes', collen') ∧
    length coltypes' = n ∧ length collen' = n ∧
    (coltypes' !! j = Some COLTYPE_INTEGER ∨
     coltypes' !! j = Some COLTYPE_FLOAT) ∧
    (coltypes !! j = Some COLTYPE_FLOAT →
     coltypes' !! j = Some COLTYPE_FLOAT) ∧
    (index = j → py_int field = None → coltypes' !! j = Some COLTYPE_FLOAT).
Proof.
  intros Htypes Hlen Hindex Hnum Hfloat. unfold scan_field, list_get.
  destruct (lookup_lt_is_Some_2 coltypes index) as [c Hc]; [lia|].
  destruct (lookup_lt_is_Some_2 collen index) as [k Hk]; [lia|].
  rewrite Hc. simpl.
  destruct (decide (index = j)) as [->|Hne].
  - destruct (Hfloat eq_refl) as [f Hf].
    destruct Hnum as [Hj|Hj]; rewrite Hj in Hc; injection Hc as <-; simpl.
    + destruct (py_int field) as [z|] eqn:Hint.
      { exists coltypes, collen. split_and!; auto. congruence. }
      rewrite list_lookup_insert_eq by lia. simpl. rewrite Hf.
      eexists _, _. split; [done|]. rewrite length_insert.
      rewrite list_lookup_insert_eq by lia. split_and!; auto.
    + rewrite Hj. simpl. rewrite Hf.
      exists coltypes, collen. split_and!; auto.
  - assert (∀ c' (l : list coltype), <[index := c']> l !! j = l !! j)
      as Hkeep by (intros; by apply list_lookup_insert_ne).
    destruct c as [| |w]; simpl.
    + destruct (py_int field) as [z|].
      { exists coltypes, collen. split_and!; auto. done. }
      rewrite list_lookup_insert_eq by lia. simpl.
      destruct (py_float field) as [f|].
      { eexists _, _. split; [done|]. rewrite length_insert, Hkeep.
        split_and!; auto. done. }
      rewrite Hk. simpl. destruct (k <? Str.len field)%nat;
        (eexists _, _; split; [done|]; rewrite ?length_insert, ?Hkeep;
         split_and!; auto; done).
    + rewrite ?Hc. simpl. destruct (py_float field) as [f|].
      { exists coltypes, collen. split_and!; auto. done. }
      rewrite Hk. simpl. destruct (k <? Str.len field)%nat;
        (eexists _, _; split; [done|]; rewrite ?length_insert, ?Hkeep;
         split_and!; auto; done).
    + rewrite ?Hc. simpl. rewrite Hk. simpl.
      destruct (k <? Str.len field)%nat;
        (eexists _, _; split; [done|]; rewrite ?length_insert, ?Hkeep;
         split_and!; auto; done).
Qed.

Lemma scan_fields_numeric s (l : list (string * nat))
    (coltypes : list coltype) (collen : list nat) n j :
  length coltypes = n → length collen = n →
  Forall (λ p, (p.2 < n)%nat) l →
  coltypes !! j = Some COLTYPE_INTEGER ∨ coltypes !! j = Some COLTYPE_FLOAT →
  Forall (λ p, p.2 = j → is_Some (py_float p.1)) l →
  ∃ coltypes' collen',
    for_fold (λ '(field, index) st,
                scan_field py_int py_float PATH_NAME_LENGTH s field index st)
             l (coltypes, collen) = Ok (coltypes', collen') ∧
    length coltypes' = n ∧ length collen' = n ∧
    (coltypes' !! j = Some COLTYPE_INTEGER ∨
     coltypes' !! j = Some COLTYPE_FLOAT) ∧
    (coltypes !! j = Some COLTYPE_FLOAT →
     coltypes' !! j = Some COLTYPE_FLOAT) ∧
    (Exists (λ p, p.2 = j ∧ py_int p.1 = None) l →
     coltypes' !! j = Some COLTYPE_FLOAT).
Proof.
  intros Htypes Hlen Hl. revert coltypes collen Htypes Hlen.
  induction Hl as [|[field index] l Hindex _ IH]; intros coltypes collen
    Htypes Hlen Hnum Hfloat; cbn [for_fold].
  { exists coltypes, collen. split_and!; auto.
    by intros ?%Exists_nil. }
  apply Forall_cons in Hfloat as [Hfield Hfloat].
  destruct (scan_field_numeric s field index coltypes collen n j
              Htypes Hlen Hindex Hnum Hfield)
    as (coltypes1 & collen1 & -> & Htypes1 & Hlen1 & Hnum1 & Hkeep1 & Hnew1).
  cbn [bind].
  destruct (IH coltypes1 collen1 Htypes1 Hlen1 Hnum1 Hfloat)
    as (coltypes2 & collen2 & Hfold & Htypes2 & Hlen2 & Hnum2 & Hkeep2 &
        Hnew2).
  exists coltypes2, collen2. split_and!; auto.
  intros [[Hj Hint]|Hex]%Exists_cons; auto.
Qed.

Lemma scan_row_numeric s (row : list string) (coltypes : list coltype)
    (collen : list nat) n j :
  length coltypes = n → length collen = n → (length row ≤ n)%nat →
  coltypes !! j = Some COLTYPE_INTEGER ∨ coltypes !! j = Some COLTYPE_FLOAT →
  (∀ cell, row !! j = Some cell → is_Some (py_float cell)) →
  ∃ coltypes' collen',
    scan_row py_int py_float PATH_NAME_LENGTH s row (coltypes, collen) =
      Ok (coltypes', collen') ∧
    length coltypes' = n ∧ length collen' = n ∧
    (coltypes' !! j = Some COLTYPE_INTEGER ∨
     coltypes' !! j = Some COLTYPE_FLOAT) ∧
    (coltypes !! j = Some COLTYPE_FLOAT →
     coltypes' !! j = Some COLTYPE_FLOAT) ∧
    ((∃ cell, row !! j = Some cell ∧ py_int cell = None) →
     coltypes' !! j = Some COLTYPE_FLOAT).
Proof.
  intros Htypes Hlen Hrow Hnum Hfloat. unfold scan_row.
  destruct (scan_fields_numeric s (zip row (seq 0 (length row))) coltypes
              collen n j Htypes Hlen)
    as (coltypes' & collen' & Hfold & Htypes' & Hlen' & Hnum' & Hkeep & Hnew);
    [| done | |].
  { apply Forall_forall. intros [field index] Hin%elem_of_zip_seq.
    apply lookup_lt_Some in Hin. simpl. lia. }
  { apply Forall_forall. intros [field index] Hin%elem_of_zip_seq.
    simpl. intros ->. by apply Hfloat. }
  exists coltypes', collen'. split_and!; auto.
  intros (cell & Hcell & Hint). apply Hnew, Exists_exists.
  exists (cell, j). split; [|done].
  apply list_elem_of_lookup_2 with j.
  apply lookup_zip_with_Some. exists cell, j. split_and!; [done|done|].
  apply lookup_seq. split; [done|]. by eapply lookup_lt_Some.
Qed.

Lemma scan_reader_numeric s (rows : list (list string))
    (coltypes : list coltype) (collen : list nat) n j :
  length coltypes = n → length collen = n →
  Forall (λ row, (length row ≤ n)%nat) rows →
  coltypes !! j = Some COLTYPE_INTEGER ∨ coltypes !! j = Some COLTYPE_FLOAT →
  Forall (λ row : list string,
            ∀ cell, row !! j = Some cell → is_Some (py_float cell)) rows →
  ∃ coltypes' collen',
    scan_reader py_int py_float PATH_NAME_LENGTH s (CsvRow <$> rows)
                (coltypes, collen) = Ok (coltypes', collen') ∧
    length coltypes' = n ∧
    (coltypes !! j = Some COLTYPE_FLOAT →
     coltypes' !! j = Some COLTYPE_FLOAT) ∧
    (Exists (λ row : list string,
               ∃ cell, row !! j = Some cell ∧ py_int cell = None) rows →
     coltypes' !! j = Some COLTYPE_FLOAT).
Proof.
  intros Htypes Hlen Hrows. revert coltypes collen Htypes Hlen.
  induction Hrows as [|row rows Hrow _ IH]; intros coltypes collen
    Htypes Hlen Hnum Hfloat; rewrite ?fmap_cons;
    cbn [scan_reader fmap list_fmap].
  { exists coltypes, collen. split_and!; auto. by intros ?%Exists_nil. }
  apply Forall_cons in Hfloat as [Hcell Hfloat].
  destruct (scan_row_numeric s row coltypes collen n j Htypes Hlen Hrow
              Hnum Hcell)
    as (coltypes1 & collen1 & -> & Htypes1 & Hlen1 & Hnum1 & Hkeep1 & Hnew1).
  cbn [bind].
  destruct (IH coltypes1 collen1 Htypes1 Hlen1 Hnum1 Hfloat)
    as (coltypes2 & collen2 & Hscan & Htypes2 & Hkeep2 & Hnew2).
  exists coltypes2, collen2. split_and!; auto.
  intros [Hhere|Hlater]%Exists_cons; auto.
Qed.

(** X15: a column whose every cell parses as a float, and one cell of
    which does not parse as an integer, is declared as a float column,
    as [best_cast] makes it a column of floats. *)
Theorem float_column_declared s fs hc entry hc' first
    (rows : list (list string)) j name cells :
  get_cache_info s fs hc = (Ok entry, hc') →
  e_measurement_columns entry = None →
  open_csv fs (csv_path s) = Ok (CsvRow first :: (CsvRow <$> rows)) →
  Forall (λ row, length row = length first) rows →
  first !! j = Some name →
  column_cells rows j = Ok cells →
  Forall (λ cell, is_Some (py_float cell)) cells →
  Exists (λ cell, py_int cell = None) cells →
  (∃ result,
     (get_measurement_columns py_int py_float PATH_NAME_LENGTH s fs hc).1 =
       Ok result ∧
     result !! j = Some (IMAGE, header_to_column name, COLTYPE_FLOAT)) ∧
  ∃ floats, best_cast py_int py_float cells = FloatColumn floats.
Proof.
  intros Hinfo Hnone Hopen Hrows Hname Hcells Hfloat Hint.
  split.
  - unfold get_measurement_columns. rewrite Hinfo, Hnone, Hopen. simpl.
    rewrite length_fmap.
    assert (j < length first)%nat as Hj by by eapply lookup_lt_Some.
    destruct (scan_reader_numeric s rows
                (replicate (length first) COLTYPE_INTEGER)
                (replicate (length first) 0%nat) (length first) j)
      as (coltypes & collen & -> & Htypes & _ & Hnew).
    + by rewrite length_replicate.
    + by rewrite length_replicate.
    + eapply Forall_impl; [exact Hrows|]. simpl. lia.
    + left. by apply lookup_replicate_2.
    + apply Forall_forall. intros row Hrow cell Hcell.
      apply list_elem_of_lookup_1 in Hrow as [i Hi].
      destruct (column_cells_lookup _ _ _ _ _ Hcells Hi) as (c & Hc & Hc').
      rewrite Hc' in Hcell. injection Hcell as ->.
      rewrite Forall_forall in Hfloat. apply Hfloat.
      by eapply list_elem_of_lookup_2.
    + destruct (other_providers s fs hc' "imagegroup") as [image_names hc''].
      eexists. split; [done|].
      rewrite lookup_app_l; last first.
      { rewrite length_fmap, length_zip_with, length_fmap. lia. }
      rewrite list_lookup_fmap, lookup_zip_with, list_lookup_fmap, Hname.
      simpl. rewrite Hnew; [done|].
      apply Exists_exists in Hint as (cell & Hin & Hcell).
      apply list_elem_of_lookup_1 in Hin as [i Hi].
      assert (i < length rows)%nat as Hlt.
      { rewrite <- (column_cells_length _ _ _ Hcells).
        by eapply lookup_lt_Some. }
      destruct (lookup_lt_is_Some_2 rows i Hlt) as [row Hrow].
      destruct (column_cells_lookup _ _ _ _ _ Hcells Hrow) as (c & Hc & Hc').
      apply Exists_exists. exists row.
      split; [by eapply list_elem_of_lookup_2|].
      exists cell. split; [congruence|done].
  - apply (mapM_is_Some py_float) in Hfloat as [floats Hfloats].
    exists floats. apply best_cast_float; [|done].
    by apply mapM_None.
Qed.

Lemma get_cache_info_stored s fs hc f :
  fs !! csv_path s = Some f →
  0 < st_ctime f ∨ is_Some (hc !! csv_path s) →
  ∃ entry hc',
    get_cache_info s fs hc = (Ok entry, hc') ∧
    hc' !! csv_path s = Some entry ∧ st_ctime f ≤ e_ctime entry.
Proof.
  intros Hf Hstored. unfold get_cache_info, os_stat. rewrite Hf.
  destruct (Z.ltb_spec
    (e_ctime (default {| e_ctime := 0; e_header := None;
                         e_measurement_columns := None |}
                      (hc !! csv_path s))) (st_ctime f)) as [Hlt|Hge].
  - eexists _, _. split; [done|]. rewrite lookup_insert_eq. simpl.
    split; [done|lia].
  - assert (∃ e, hc !! csv_path s = Some e) as [e He].
    { destruct Hstored as [Hpos|[e He]]; [|by eexists].
      destruct (hc !! csv_path s) as [e|]; [by eexists|]. simpl in Hge. lia. }
    rewrite He in Hge |- *. simpl in *. by exists e, hc.
Qed.

Lemma get_header_keeps_entry s fs hc f e r hc' :
  fs !! csv_path s = Some f →
  hc !! csv_path s = Some e →
  st_ctime f ≤ e_ctime e →
  get_header s fs hc = (r, hc') →
  ∃ e', hc' !! csv_path s = Some e' ∧ e_ctime e' = e_ctime e ∧
        e_measurement_columns e' = e_measurement_columns e.
Proof.
  intros Hf He Hle. unfold get_header, get_cache_info, os_stat.
  rewrite Hf, He. simpl. rewrite (proj2 (Z.ltb_ge _ _)) by lia.
  destruct (e_header e) as [h|].
  { intros [= <- <-]. by exists e. }
  destruct (bind (open_csv fs (csv_path s)) (λ fd, reader_next fd))
    as [[first reader]|].
  - intros [= <- <-]. eexists. split.
    + rewrite lookup_alter, decide_True by done. by rewrite He.
    + done.
  - intros [= <- <-]. by exists e.
Qed.

Lemma other_providers_keeps_entry s fs hc f e group :
  fs !! csv_path s = Some f →
  hc !! csv_path s = Some e →
  st_ctime f ≤ e_ctime e →
  ∃ e', (other_providers s fs hc group).2 !! csv_path s = Some e' ∧
        e_ctime e' = e_ctime e ∧
        e_measurement_columns e' = e_measurement_columns e.
Proof.
  intros Hf He Hle. unfold other_providers.
  destruct (String.eqb group "imagegroup" && wants_images s);
    [|by exists e].
  destruct (get_header s fs hc) as [r hc'] eqn:Hget.
  destruct (get_header_keeps_entry _ _ _ _ _ _ _ Hf He Hle Hget)
    as (e' & He' & Hctime & Hmc).
  exists e'. split; [|done].
  destruct r as [header|]; [|done].
  by destruct (for_each get_image_name (filter is_file_name_feature header)).
Qed.

Lemma get_measurement_columns_stored s fs hc f result hc' :
  get_measurement_columns py_int py_float PATH_NAME_LENGTH s fs hc =
    (Ok result, hc') →
  fs !! csv_path s = Some f →
  0 < st_ctime f ∨ is_Some (hc !! csv_path s) →
  ∃ e, hc' !! csv_path s = Some e ∧ st_ctime f ≤ e_ctime e ∧
       e_measurement_columns e = Some result.
Proof.
  intros Hget Hf Hstored.
  destruct (get_cache_info_stored s fs hc f Hf Hstored)
    as (entry & hc1 & Hinfo & Hentry & Hle).
  unfold get_measurement_columns in Hget. rewrite Hinfo in Hget.
  destruct (e_measurement_columns entry) as [columns|] eqn:Hmc.
  { injection Hget as <- <-. by exists entry. }
  destruct (bind (open_csv fs (csv_path s)) (λ fd, reader_next fd))
    as [[first reader]|].
  - destruct (scan_reader _ _ _ s reader _) as [[coltypes collen]|];
      [|done].
    destruct (other_providers_keeps_entry s fs hc1 f entry "imagegroup"
                Hf Hentry Hle) as (e' & He' & Hctime & _).
    destruct (other_providers s fs hc1 "imagegroup") as [image_names hc2].
    simpl in He'. injection Hget as <- <-. eexists. split.
    + rewrite lookup_alter, decide_True by done. by rewrite He'.
    + simpl. split; [lia|done].
  - injection Hget as <- <-. eexists. split.
    + rewrite lookup_alter, decide_True by done. by rewrite Hentry.
    + simpl. split; [lia|done].
Qed.

(** X16: once the column declaration has returned a list for a file, it
    returns the same list, and leaves the cache as it is, for as long as
    the change time of the file does not advance.  The empty list that a
    failed read of the header gives is kept in the same way. *)
Theorem get_measurement_columns_cached s fs fs' hc hc' result f f' :
  get_measurement_columns py_int py_float PATH_NAME_LENGTH s fs hc =
    (Ok result, hc') →
  fs !! csv_path s = Some f →
  0 < st_ctime f ∨ is_Some (hc !! csv_path s) →
  fs' !! csv_path s = Some f' →
  st_ctime f' ≤ st_ctime f →
  get_measurement_columns py_int py_float PATH_NAME_LENGTH s fs' hc' =
    (Ok result, hc').
Proof.
  intros Hget Hf Hstored Hf' Hle.
  destruct (get_measurement_columns_stored _ _ _ _ _ _ Hget Hf Hstored)
    as (e & He & Hctime & Hmc).
  unfold get_measurement_columns, get_cache_info, os_stat.
  rewrite Hf', He. simpl.
  rewrite (proj2 (Z.ltb_ge _ _)) by lia. by rewrite Hmc.
Qed.

(** *** Categories and measurements *)

Lemma Str_split_nonempty c s : Str.split c s ≠ [].
Proof.
  destruct s as [|a s]; simpl; [done|].
  destruct (Ascii.eqb a c); [done|]. by destruct (Str.split c s).
Qed.

Lemma Str_join_split c s : Str.join (String c "") (Str.split c s) = s.
Proof.
  unfold Str.join. induction s as [|a s IH]; [done|]. simpl.
  pose proof (Str_split_nonempty c s) as Hne.
  destruct (Ascii.eqb_spec a c) as [->|Hac].
  - destruct (Str.split c s) as [|w ws]; [done|].
    change (String.concat (String c "") ("" :: w :: ws))
      with (String c (String.concat (String c "") (w :: ws))).
    by rewrite IH.
  - destruct (Str.split c s) as [|w ws]; [done|].
    destruct ws as [|w' ws].
    + simpl in *. by rewrite IH.
    + change (String.concat (String c "") (String a w :: w' :: ws))
        with (String a (String.concat (String c "") (w :: w' :: ws))).
      by rewrite IH.
Qed.

(** X17: every field of the header is listed by the introspection: its
    part before the first underscore is among the categories, and the
    rest of it is among the measurements of that category; the two
    joined by an underscore give the field back.  A field without an
    underscore is its own category, with the empty measurement. *)
Theorem header_fields_are_listed s fs hc header hc' field :
  get_header s fs hc = (Ok header, hc') →
  field ∈ header →
  ∃ category measurement,
    category ∈ (get_categories s fs hc IMAGE).1 ∧
    measurement ∈ (get_measurements s fs hc IMAGE category).1 ∧
    (field = category +:+ "_" +:+ measurement ∨
     field = category ∧ measurement = "" ∧ Str.split "_" field = [field]).
Proof.
  intros Hget Hin.
  unfold get_categories, get_measurements. rewrite Hget. simpl.
  pose proof (Str_join_split "_" field) as Hjoin.
  destruct (Str.split "_" field) as [|category rest] eqn:Hsplit.
  { by apply Str_split_nonempty in Hsplit. }
  exists category, (Str.join "_" rest). split_and!.
  - apply list_elem_of_fmap. exists field. by rewrite Hsplit.
  - apply list_elem_of_fmap. exists field. rewrite Hsplit. split; [done|].
    apply list_elem_of_filter. by rewrite Hsplit.
  - destruct rest as [|w ws]; [right|left].
    + simpl in Hjoin. by subst.
    + by rewrite <- Hjoin.
Qed.

End Properties.

(** ** Settings of earlier revisions *)

Section UpgradeProperties.

Variable NO : string.

Lemma upgrade_settings_current (setting_values : list string) :
  upgrade_settings NO setting_values 3 false = Ok (setting_values, 3, false).
Proof. done. Qed.

Lemma upgrade_settings_result setting_values number from_matlab
    setting_values' number' from_matlab' :
  upgrade_settings NO setting_values number from_matlab =
    Ok (setting_values', number', from_matlab') →
  number' = 3 ∧ from_matlab' = false ∨
  setting_values' = setting_values ∧ number' = number ∧
  from_matlab' = from_matlab.
Proof.
  unfold upgrade_settings.
  destruct from_matlab; simpl.
  - destruct (number =? 2) eqn:H2; simpl.
    + destruct (list_get setting_values 0); simpl; [|done].
      destruct (list_get setting_values 1); simpl; [|done].
      destruct (list_get setting_values 2) as [path_name|]; simpl; [|done].
      destruct (String.eqb path_name "."), (String.eqb path_name "&");
        cbv; intros [= <- <- <-]; by left.
    + rewrite andb_false_r. intros [= <- <- <-]. by right.
  - destruct (number =? 1) eqn:H1; simpl.
    + destruct (list_get _ 0); simpl; [|done].
      destruct (list_get _ 4); simpl; [|done].
      intros [= <- <- <-]. by left.
    + destruct (number =? 2) eqn:H2; simpl.
      * destruct (list_get _ 0); simpl; [|done].
        destruct (list_get _ 4); simpl; [|done].
        intros [= <- <- <-]. by left.
      * intros [= <- <- <-]. by right.
Qed.

(** X18: upgrading settings that were upgraded changes nothing: the
    result of [upgrade_settings] is a fixed point of it. *)
Theorem upgrade_settings_idempotent setting_values number from_matlab
    setting_values' number' from_matlab' :
  upgrade_settings NO setting_values number from_matlab =
    Ok (setting_values', number', from_matlab') →
  upgrade_settings NO setting_values' number' from_matlab' =
    Ok (setting_values', number', from_matlab').
Proof.
  intros Hup.
  destruct (upgrade_settings_result _ _ _ _ _ _ Hup)
    as [[-> ->]|(-> & -> & ->)]; [apply upgrade_settings_current|done].
Qed.

(** X19: the three settings of the module as the earlier program saved
    them (file name, field name, folder) are upgraded to the ten
    settings of revision 3: the folder "." becomes the default input
    folder, "&" the default output folder, anything else a folder given
    by name; images are not loaded and no range of rows is set.  With
    fewer than three settings the upgrade raises [IndexError]. *)
Theorem upgrade_settings_from_matlab text_file_name field_name path_name
    (rest setting_values : list string) :
  upgrade_settings NO (text_file_name :: field_name :: path_name :: rest)
                   2 true =
    Ok ([(if String.eqb path_name "." then DIR_DEFAULT_IMAGE
          else if String.eqb path_name "&" then DIR_DEFAULT_OUTPUT
          else DIR_OTHER);
         path_name; text_file_name; NO; DIR_DEFAULT_IMAGE; "."; NO;
         "1,100000"; NO; ""], 3, false) ∧
  ((length setting_values < 3)%nat →
   upgrade_settings NO setting_values 2 true = Raise IndexError).
Proof.
  split.
  - unfold upgrade_settings. simpl.
    by destruct (String.eqb path_name "."), (String.eqb path_name "&").
  - intros Hshort. unfold upgrade_settings.
    destruct setting_values as [|a [|b [|c l]]]; simpl in *; (done || lia).
Qed.

(** X20: upgrading the settings of revision 2 renames the two folder
    choices, settings 0 and 4, when they start with "Default Image" or
    "Default Output", and changes no other setting nor their number;
    with fewer than five settings it raises [IndexError].  Upgrading
    revision 1 is adding the two settings of the grouping and then
    upgrading revision 2. *)
Theorem upgrade_settings_from_2 (setting_values : list string) :
  (∀ first fifth,
     setting_values !! 0%nat = Some first →
     setting_values !! 4%nat = Some fifth →
     upgrade_settings NO setting_values 2 false =
       Ok (<[4%nat :=
               if Str.startswith fifth "Default Image"
               then DIR_DEFAULT_IMAGE
               else if Str.startswith fifth "Default Output"
               then DIR_DEFAULT_OUTPUT else fifth]>
             (<[0%nat :=
                  if Str.startswith first "Default Image"
                  then DIR_DEFAULT_IMAGE
                  else if Str.startswith first "Default Output"
                  then DIR_DEFAULT_OUTPUT else first]> setting_values),
           3, false)) ∧
  ((length setting_values < 5)%nat →
   upgrade_settings NO setting_values 2 false = Raise IndexError) ∧
  upgrade_settings NO setting_values 1 false =
    upgrade_settings NO (setting_values ++ [NO; ""]) 2 false.
Proof.
  split_and!.
  - intros first fifth Hfirst Hfifth.
    destruct setting_values as [|a [|b [|c [|d [|e l]]]]]; try done.
    simpl in Hfirst, Hfifth. injection Hfirst as ->. injection Hfifth as ->.
    unfold upgrade_settings. simpl.
    destruct (Str.startswith first "Default Image"),
      (Str.startswith first "Default Output"); simpl;
      by destruct (Str.startswith fifth "Default Image"),
        (Str.startswith fifth "Default Output").
  - intros Hshort. unfold upgrade_settings.
    destruct setting_values as [|a [|b [|c [|d [|e l]]]]]; simpl in *;
      try lia; try done;
      by destruct (Str.startswith a "Default Image"),
        (Str.startswith a "Default Output").
  - done.
Qed.

End UpgradeProperties.

(** ** Batch files *)

Section BatchProperties.

Context {F : Type}.
Variable default_image_directory : string.
Variable default_output_directory : string.
Variable get_absolute_path : string → string.
Variable fn_alter_path : pyval F → res string.

Lemma alter_columns_spec (l : list string) (d d' : gmap string (column F)) :
  for_fold (alter_column fn_alter_path) l d = Ok d' →
  NoDup l →
  ∀ name,
    (name ∉ l → d' !! name = d !! name) ∧
    (name ∈ l →
     ∃ column paths,
       d !! name = Some column ∧
       for_each fn_alter_path (column_values column) = Ok paths ∧
       d' !! name = Some (StrColumn paths)).
Proof.
  revert d. induction l as [|key l IH]; intros d Hfold Hnodup name.
  { injection Hfold as <-. split; [done|]. by intros ?%elem_of_nil. }
  apply NoDup_cons in Hnodup as [Hkey Hnodup].
  cbn [for_fold] in Hfold. unfold alter_column at 1 in Hfold.
  destruct (d !! key) as [column|] eqn:Hcolumn; simpl in Hfold; [|done].
  destruct (for_each fn_alter_path (column_values column)) as [paths|]
    eqn:Hpaths; simpl in Hfold; [|done].
  destruct (IH _ Hfold Hnodup name) as [Hout Hin].
  destruct (decide (name = key)) as [->|Hne].
  - split.
    + intros Hnot. exfalso. apply Hnot. by left.
    + intros _. exists column, paths. split_and!; [done|done|].
      by rewrite (Hout Hkey), lookup_insert_eq.
  - split.
    + intros Hnot. rewrite Hout, lookup_insert_ne; [done|done|].
      intros Hl. apply Hnot. by right.
    + intros [?|Hl]%elem_of_cons; [done|].
      destruct (Hin Hl) as (column' & paths' & Hc & Hp & Hd').
      rewrite lookup_insert_ne in Hc by done. by exists column', paths'.
Qed.

Lemma prepare_to_create_batch_inv s loc (isl : image_set_list F) b loc'
    isl' :
  prepare_to_create_batch default_image_directory default_output_directory
    get_absolute_path fn_alter_path s loc isl = Ok (b, loc', isl') →
  ∃ d d' custom image_custom,
    legacy_fields isl !! legacy_field_key s = Some d ∧
    for_fold (alter_column fn_alter_path)
      (filter (λ key, is_path_name_feature key = true) (map_to_list d).*1)
      d = Ok d' ∧
    fn_alter_path
      (VStr (if String.eqb (csv_directory_choice loc) DIR_DEFAULT_IMAGE
             then default_image_directory
             else if String.eqb (csv_directory_choice loc) DIR_DEFAULT_OUTPUT
             then default_output_directory
             else get_absolute_path (csv_custom_directory loc))) =
      Ok custom ∧
    fn_alter_path (VStr (image_custom_directory loc)) = Ok image_custom ∧
    b = true ∧
    loc' = {| csv_directory_choice :=
                if String.eqb (csv_directory_choice loc) DIR_DEFAULT_IMAGE
                then DIR_OTHER
                else if String.eqb (csv_directory_choice loc)
                                   DIR_DEFAULT_OUTPUT
                then DIR_OTHER else csv_directory_choice loc;
              csv_custom_directory := custom;
              image_directory_choice := image_directory_choice loc;
              image_custom_directory := image_custom |} ∧
    isl' = {| associating_by_key := associating_by_key isl;
              requested := requested isl;
              legacy_fields :=
                <[legacy_field_key s := d']> (legacy_fields isl) |}.
Proof.
  unfold prepare_to_create_batch.
  destruct (legacy_fields isl !! legacy_field_key s) as [d|]; simpl; [|done].
  destruct (for_fold _ _ d) as [d'|] eqn:Hfold; simpl; [|done].
  destruct (String.eqb (csv_directory_choice loc) DIR_DEFAULT_IMAGE).
  - destruct (fn_alter_path (VStr default_image_directory)) as [custom|]
      eqn:Hcustom; simpl; [|done].
    destruct (fn_alter_path (VStr (image_custom_directory loc)))
      as [image_custom|] eqn:Himage; simpl; [|done].
    intros [= <- <- <-]. by exists d, d', custom, image_custom.
  - destruct (String.eqb (csv_directory_choice loc) DIR_DEFAULT_OUTPUT).
    + destruct (fn_alter_path (VStr default_output_directory)) as [custom|]
        eqn:Hcustom; simpl; [|done].
      destruct (fn_alter_path (VStr (image_custom_directory loc)))
        as [image_custom|] eqn:Himage; simpl; [|done].
      intros [= <- <- <-]. by exists d, d', custom, image_custom.
    + destruct (fn_alter_path
                  (VStr (get_absolute_path (csv_custom_directory loc))))
        as [custom|] eqn:Hcustom; simpl; [|done].
      destruct (fn_alter_path (VStr (image_custom_directory loc)))
        as [image_custom|] eqn:Himage; simpl; [|done].
      intros [= <- <- <-]. by exists d, d', custom, image_custom.
Qed.

(** X21: preparing a batch file rewrites the path name columns of the
    stored table, value by value, through the function it is given, and
    nothing else of the table: the other columns are the same, no column
    is added or removed, and the image sets requested are as they
    were. *)
Theorem prepare_to_create_batch_rewrites_paths s loc
    (isl : image_set_list F) b loc' isl' :
  prepare_to_create_batch default_image_directory default_output_directory
    get_absolute_path fn_alter_path s loc isl = Ok (b, loc', isl') →
  ∃ d d',
    legacy_fields isl !! legacy_field_key s = Some d ∧
    legacy_fields isl' !! legacy_field_key s = Some d' ∧
    requested isl' = requested isl ∧
    (∀ key, key ≠ legacy_field_key s →
            legacy_fields isl' !! key = legacy_fields isl !! key) ∧
    ∀ name,
      (is_path_name_feature name = false → d' !! name = d !! name) ∧
      (is_path_name_feature name = true →
       ∀ column, d !! name = Some column →
         ∃ paths,
           d' !! name = Some (StrColumn paths) ∧
           Forall2 (λ value path, fn_alter_path value = Ok path)
                   (column_values column) paths) ∧
      (is_Some (d' !! name) ↔ is_Some (d !! name)).
Proof.
  intros Hbatch.
  destruct (prepare_to_create_batch_inv _ _ _ _ _ _ Hbatch)
    as (d & d' & custom & image_custom & Hd & Hfold & _ & _ & _ & _ & ->).
  exists d, d'. simpl.
  split_and!; [done|by rewrite lookup_insert_eq|done| |].
  { intros key Hkey. by rewrite lookup_insert_ne. }
  intros name.
  assert (NoDup (filter (λ key, is_path_name_feature key = true)
                        (map_to_list d).*1)) as Hnodup.
  { apply NoDup_filter, NoDup_fst_map_to_list. }
  destruct (alter_columns_spec _ _ _ Hfold Hnodup name) as [Hout Hin].
  assert (name ∈ filter (λ key, is_path_name_feature key = true)
                        (map_to_list d).*1 ↔
          is_path_name_feature name = true ∧ is_Some (d !! name)) as Hmem.
  { rewrite list_elem_of_filter, list_elem_of_fmap. split.
    - intros [Hp ([k c] & -> & Hkc%elem_of_map_to_list)]. by eauto.
    - intros [Hp [c Hc]]. split; [done|].
      exists (name, c). split; [done|]. by apply elem_of_map_to_list. }
  split_and!.
  - intros Hp. apply Hout. rewrite Hmem. intros [? _]. congruence.
  - intros Hp column Hcolumn.
    destruct Hin as (column' & paths & Hc & Hpaths & Hd').
    { apply Hmem. by eauto. }
    exists paths. split; [done|]. apply for_each_Forall2. congruence.
  - destruct (decide (name ∈ filter (λ key, is_path_name_feature key = true)
                                    (map_to_list d).*1)) as [Hl|Hl].
    + destruct (Hin Hl) as (column' & paths & Hc & _ & Hd').
      rewrite Hc, Hd'. by split; eauto.
    + by rewrite (Hout Hl).
Qed.

(** X22: after a batch file is prepared, the folder of the CSV file is
    never one of the two default folders: a default choice is replaced
    by the folder it stood for, given by name, and the folder goes
    through the function that alters paths; the choice of the image
    folder is left as it was. *)
Theorem prepare_to_create_batch_fixes_folder s loc (isl : image_set_list F)
    b loc' isl' :
  prepare_to_create_batch default_image_directory default_output_directory
    get_absolute_path fn_alter_path s loc isl = Ok (b, loc', isl') →
  csv_directory_choice loc' ≠ DIR_DEFAULT_IMAGE ∧
  csv_directory_choice loc' ≠ DIR_DEFAULT_OUTPUT ∧
  (csv_directory_choice loc = DIR_DEFAULT_IMAGE →
   csv_directory_choice loc' = DIR_OTHER ∧
   fn_alter_path (VStr default_image_directory) =
     Ok (csv_custom_directory loc')) ∧
  (csv_directory_choice loc = DIR_DEFAULT_OUTPUT →
   csv_directory_choice loc' = DIR_OTHER ∧
   fn_alter_path (VStr default_output_directory) =
     Ok (csv_custom_directory loc')) ∧
  image_directory_choice loc' = image_directory_choice loc ∧
  fn_alter_path (VStr (image_custom_directory loc)) =
    Ok (image_custom_directory loc').
Proof.
  intros Hbatch.
  destruct (prepare_to_create_batch_inv _ _ _ _ _ _ Hbatch)
    as (d & d' & custom & image_custom & _ & _ & Hcustom & Himage & _ & -> &
        _).
  simpl.
  destruct (String.eqb_spec (csv_directory_choice loc) DIR_DEFAULT_IMAGE)
    as [Hi|Hi].
  { rewrite Hi. by split_and!. }
  destruct (String.eqb_spec (csv_directory_choice loc) DIR_DEFAULT_OUTPUT)
    as [Ho|Ho].
  { rewrite Ho. by split_and!. }
  by split_and!.
Qed.

End BatchProperties.

(** ** The metadata fields offered *)

Section ChoiceProperties.

Context {F : Type}.
Variable py_int : string → option Z.
Variable py_float : string → option F.

Lemma metadata_choice_iff (header : list string) name :
  name ∈ Str.drop (Str.len "Metadata_") <$>
           filter (λ field, Str.startswith field "Metadata_" = true) header ↔
  "Metadata_" +:+ name ∈ header.
Proof.
  rewrite list_elem_of_fmap. split.
  - intros (h & -> & [Hmd Hin]%list_elem_of_filter).
    by rewrite <- (metadata_name_inv h Hmd).
  - intros Hin. exists ("Metadata_" +:+ name). split; [done|].
    apply list_elem_of_filter. split; [|done].
    apply Str_startswith_app.
Qed.

(** X23: the metadata fields that the settings offer for grouping are
    the names of the keys by which a load of the same file requests its
    image sets: a name is offered exactly when every key has a value for
    it. *)
Theorem metadata_choices_are_key_names s fs hc hc' (isl : image_set_list F)
    b isl' first reader :
  prepare_run py_int py_float s false fs isl = Ok (b, isl') →
  open_csv fs (csv_path s) = Ok (CsvRow first :: reader) →
  get_header s fs hc = (Ok (header_to_column <$> first), hc') →
  ∃ choices units,
    metadata_field_choices s fs hc = (Ok choices, hc') ∧
    requested isl' = requested isl ++ units ∧
    ∀ key name, ByKey key ∈ units →
      (name ∈ choices ↔ is_Some (key !! name)).
Proof.
  intros Hrun Hopen Hget.
  destruct (prepare_run_inv _ _ _ _ _ _ _ Hrun)
    as (first' & reader' & rows & t & units & Hopen' & Hload & Hrows & Harr &
        _ & Hunits & -> & ->).
  rewrite Hopen in Hopen'. injection Hopen' as <- <-.
  eexists _, units. split_and!.
  - unfold metadata_field_choices. rewrite Hget.
    rewrite bool_decide_eq_true_2; [done|].
    unfold open_csv in Hopen. by destruct (fs !! csv_path s).
  - done.
  - intros key name (i & Hi)%list_elem_of_lookup_1.
    destruct (populate_units _ _ _ _ Hunits) as [Hlen Hreq].
    assert (i < length rows)%nat as Hlt.
    { rewrite <- Hlen. by eapply lookup_lt_Some. }
    specialize (Hreq i Hlt).
    destruct (negb (size (metadata t) =? 0)%nat && use_key isl);
      [|congruence].
    destruct Hreq as [Hunit Hlong]. rewrite Hi in Hunit.
    injection Hunit as ->.
    rewrite metadata_choice_iff, lookup_omap.
    pose proof (arrange_metadata _ _ _ _ _ _ Harr) as Hmd.
    split.
    + intros Hin. destruct (last_occurrence _ _ Hin) as (j & Hj & Hlast).
      destruct (column_cells_ok rows _ j Hrows) as [cells Hcells].
      { by eapply lookup_lt_Some. }
      assert (metadata t !! name = Some (best_cast py_int py_float cells))
        as Hname by (apply Hmd; by exists j, cells).
      rewrite Hname. simpl. apply lookup_lt_is_Some_2.
      apply (map_Forall_lookup_1 _ _ _ _ Hlong Hname).
    + destruct (metadata t !! name) as [c|] eqn:Hname; simpl;
        [|by intros [? ?]].
      intros _. apply Hmd in Hname as (j & cells & Hj & _).
      by eapply list_elem_of_lookup_2.
Qed.

End ChoiceProperties.

Lemma best_cast_priority_witness :
  (∃ ints, Forall2 (λ x z, Ref.int_of_string x = Some z) ["1"; "2"; "3"] ints ∧
           Sample.best_cast ["1"; "2"; "3"] = IntColumn ints) ∧
  (∃ floats,
      Forall2 (λ x f, Ref.float_of_string x = Some f) ["1"; "2.5"; "3"] floats ∧
      Sample.best_cast ["1"; "2.5"; "3"] = FloatColumn floats) ∧
  Sample.best_cast ["1"; "a"; "3"] = StrColumn ["1"; "a"; "3"].
Proof.
  split_and!.
  - apply (best_cast_priority Ref.int_of_string Ref.float_of_string).
    repeat constructor; by eexists.
  - apply (best_cast_priority Ref.int_of_string Ref.float_of_string).
    + intros H. apply Forall_cons in H as [_ H].
      apply Forall_cons in H as [[z Hz] _]. discriminate Hz.
    + repeat constructor; by eexists.
  - apply (best_cast_priority Ref.int_of_string Ref.float_of_string).
    + intros H. apply Forall_cons in H as [_ H].
      apply Forall_cons in H as [[z Hz] _]. discriminate Hz.
    + intros H. apply Forall_cons in H as [_ H].
      apply Forall_cons in H as [[z Hz] _]. discriminate Hz.
Defined.

(** ** The module on concrete files *)

Import Sample.

(** C2: with the range (1, 2) on a file of three rows the load keeps the
    first row only, where rows 1 and 2 were requested; with the range
    (1, 1) it keeps all three. *)
Theorem row_range_from_first_row :
  load_rows (settings_with false true 1 2) ["Well"] (tail wells) =
    Ok [["A01"]] ∧
  load_rows (settings_with false true 1 1) ["Well"] (tail wells) =
    Ok [["A01"]; ["A02"]; ["A03"]] ∧
  load_rows (settings_with false true 2 3) ["Well"] (tail wells) =
    Ok [["A02"]; ["A03"]] ∧
  Sample.prepare_run (settings_with false true 1 2) false (disk wells)
                     (fresh (Some false)) =
    Ok (true,
        {| associating_by_key := Some false;
           requested := [ByNumber 0];
           legacy_fields :=
             {[ "LoadTextMetadata_1" := {[ "Well" := StrColumn ["A01"] ]} ]}
        |}).
Proof. split_and!; by vm_compute. Qed.

(** C3, as stated, fails: with the range (2, 2) the rows of one and of
    three fields under a header of two are never checked, and the load
    succeeds. *)
Lemma wrong_field_count_outside_range :
  Exists (λ row, length row ≠ 2%nat) [["A01"]; ["A02"; "2"]; ["A03"; "3"; "x"]] ∧
  Sample.prepare_run (settings_with false true 2 2) false (disk ragged)
                     (fresh (Some false)) =
    Ok (true,
        {| associating_by_key := Some false;
           requested := [ByNumber 0];
           legacy_fields :=
             {[ "LoadTextMetadata_1" :=
                  {[ "Well" := StrColumn ["A02"]; "Dose" := IntColumn [2] ]}
             ]} |}).
Proof. split; [by left | by vm_compute]. Qed.

Lemma wrong_field_count_is_fatal_witness :
  ∃ i row,
    short_row_rows !! i = Some row ∧
    length row ≠ length short_row_header ∧
    (∀ j r, (j < i)%nat → short_row_rows !! j = Some r →
            length r = length short_row_header) ∧
    line_message (settings_with true false 1 1) i row
                 (length short_row_header) =
      "Error on line " +:+ pretty (i + 2)%nat +:+ " of " +:+
      csv_file_name (settings_with true false 1 1) +:+ "." +:+ newline +:+
      newline +:+ quote +:+ Str.join "," row +:+ quote +:+ newline +:+
      pretty (length row) +:+ " rows found, expected " +:+
      pretty (length short_row_header) ∧
    Sample.prepare_run (settings_with true false 1 1) false
      (disk (CsvRow short_row_header :: (CsvRow <$> short_row_rows)))
      (fresh None) =
      Raise (ValueError (line_message (settings_with true false 1 1) i row
                                      (length short_row_header))).
Proof.
  apply (wrong_field_count_is_fatal Ref.int_of_string Ref.float_of_string).
  - reflexivity.
  - by vm_compute.
  - right. left. by vm_compute.
Defined.

(** C4, as stated, fails: when images are not loaded from the data, a
    path name column without its file name column is an ordinary
    column, and the load succeeds. *)
Lemma path_name_ignored_without_images :
  Sample.prepare_run (settings_with false false 1 1) false (disk path_only)
                     (fresh (Some false)) =
    Ok (true,
        {| associating_by_key := Some false;
           requested := [ByNumber 0];
           legacy_fields :=
             {[ "LoadTextMetadata_1" :=
                  {[ "PathName_DAPI" := StrColumn ["plate1"] ]} ]} |}).
Proof. by vm_compute. Qed.

Lemma path_name_without_file_name_witness :
  ∃ image',
    make_path_name_feature image' ∈
      (header_to_column <$> ["Image_PathName_DAPI"]) ∧
    (make_file_name_feature image' ∉
       (header_to_column <$> ["Image_PathName_DAPI"])) ∧
    Sample.prepare_run (settings_with true false 1 1) false (disk path_only)
                       (fresh None) =
      Raise (ValueError (image_message image')).
Proof.
  apply (path_name_without_file_name Ref.int_of_string Ref.float_of_string
           (settings_with true false 1 1) (disk path_only) (fresh None)
           ["Image_PathName_DAPI"] [CsvRow ["plate1"]] [["plate1"]] "DAPI").
  - reflexivity.
  - by vm_compute.
  - by vm_compute.
  - by repeat constructor.
  - by left.
  - vm_compute. by intros ?%list_elem_of_singleton.
Defined.

Lemma prepare_run_registers_rows_witness :
  ∃ first reader rows units,
    let header := header_to_column <$> first in
    open_csv (disk plates) (csv_path (settings_with false false 1 1)) =
      Ok (CsvRow first :: reader) ∧
    load_rows (settings_with false false 1 1) header reader = Ok rows ∧
    [ByKey {[ "Plate" := VStr "P1" ]}; ByKey {[ "Plate" := VStr "P2" ]}] =
      requested (fresh (Some true)) ++ units ∧
    length units = length rows ∧
    ∀ i, (i < length rows)%nat →
      (use_key (fresh (Some true)) = true →
       Exists (λ h, Str.startswith h "Metadata_" = true) header →
       ∃ key,
         units !! i = Some (ByKey key) ∧
         ∀ name,
           (∀ j cells,
              header !! j = Some ("Metadata_" +:+ name) →
              (∀ j', (j < j')%nat →
                     header !! j' ≠ Some ("Metadata_" +:+ name)) →
              column_cells rows j = Ok cells →
              is_Some (key !! name) ∧
              key !! name = column_values (Sample.best_cast cells) !! i) ∧
           ("Metadata_" +:+ name ∉ header → key !! name = None)) ∧
      (use_key (fresh (Some true)) = false ∨
       Forall (λ h, Str.startswith h "Metadata_" = false) header →
       units !! i = Some (ByNumber i)).
Proof.
  apply (prepare_run_registers_rows Ref.int_of_string Ref.float_of_string
           (settings_with false false 1 1) (disk plates) (fresh (Some true))
           true
           {| associating_by_key := Some true;
              requested := [ByKey {[ "Plate" := VStr "P1" ]};
                            ByKey {[ "Plate" := VStr "P2" ]}];
              legacy_fields := {[ "LoadTextMetadata_1" := plates_table ]} |}).
  by vm_compute.
Defined.

(** C6: the width declared for a path name column is the length of its
    longest value, without the padding, and the width declared for a
    column whose first cell is a number counts only the cells from the
    first one that is not a number: "12345" then "B" is declared with
    width 1. *)
Theorem column_width_misses :
  (Sample.get_measurement_columns (settings_with true false 1 1)
     (disk paths_and_wells) ∅).1 =
    Ok [("Image", "PathName_DNA", COLTYPE_VARCHAR 10);
        ("Image", "Well", COLTYPE_VARCHAR 1)] ∧
  Str.len "plate1/dna" = 10%nat ∧
  Str.len "12345" = 5%nat.
Proof. split_and!; by vm_compute. Qed.

(** C7, as stated, fails: a record that the reader rejects after the
    header, and a data row longer than the header, make the column
    declaration raise, where the claim has it return an empty list. *)
Lemma declaration_propagates_row_errors :
  Sample.prepare_run (settings_with true false 1 1) false (disk broken)
                     (fresh None) = Raise CsvError ∧
  (Sample.get_measurement_columns (settings_with true false 1 1)
     (disk broken) ∅).1 = Raise CsvError ∧
  (Sample.get_measurement_columns (settings_with true false 1 1)
     (disk long_row) ∅).1 = Raise IndexError.
Proof. split_and!; by vm_compute. Qed.

Lemma introspection_is_best_effort_witness :
  (get_categories (settings_with true false 1 1) ∅ ∅ "Image").1 = [] ∧
  (get_measurements (settings_with true false 1 1) ∅ ∅ "Image" "Metadata").1
    = [] ∧
  Sample.get_measurement_columns (settings_with true false 1 1) ∅ ∅ =
    (Ok [], ∅) ∧
  Sample.get_measurement_columns (settings_with true false 1 1) (disk []) ∅ =
    (Ok [],
     {[ "/data/plate.csv" :=
          {| e_ctime := 1278000000; e_header := None;
             e_measurement_columns := Some [] |} ]}) ∧
  Sample.get_measurement_columns (settings_with true false 1 1)
    (disk broken) ∅ =
    (Raise CsvError,
     {[ "/data/plate.csv" :=
          {| e_ctime := 1278000000; e_header := None;
             e_measurement_columns := None |} ]}).
Proof.
  pose proof (introspection_is_best_effort Ref.int_of_string
                Ref.float_of_string 256 (settings_with true false 1 1))
    as Hspec.
  destruct (Hspec ∅ ∅) as (Hheader & Hstat & _ & _).
  destruct (Hspec (disk []) ∅) as (_ & _ & Hopen & _).
  destruct (Hspec (disk broken) ∅) as (_ & _ & _ & Hscan).
  split_and!.
  - by apply (Hheader OSError ∅ "Image" "Metadata").
  - by apply (Hheader OSError ∅ "Image" "Metadata").
  - by apply (Hstat OSError ∅).
  - etrans; [eapply Hopen; by vm_compute | by vm_compute].
  - etrans; [eapply Hscan; by vm_compute | by vm_compute].
Defined.

(** C10, as stated, fails: a key without its "Metadata_" column makes
    the scan raise [KeyError], and a table without rows leaves the index
    unbound; in both no row has the values of the keys. *)
Lemma run_missing_key_column :
  (Sample.run (settings_with true false 1 1) (disk plates) ∅
     (loaded plates_table) {[ "Well" := VStr "A01" ]} 1).1 =
    Raise (KeyError "Metadata_Well") ∧
  (Sample.run (settings_with true false 1 1) (disk plates) ∅
     (loaded {[ "Metadata_Plate" := StrColumn [] ]})
     {[ "Plate" := VStr "P1" ]} 1).1 =
    Raise (UnboundLocalError "index").
Proof. split; by vm_compute. Qed.

Lemma run_without_matching_row_witness :
  find_index Ref.eq plates_table {[ "Plate" := VStr "P9" ]} 1 =
    Ok (Some (Z.of_nat 1)) ∧
  ∃ statistics,
    Forall2 (λ '(name, column) '(feature_name, value),
               feature_name = name ∧
               column_values column !! 1%nat = Some value)
            (map_to_list plates_table) statistics ∧
    Sample.run (settings_with true false 1 1) (disk plates) ∅
      (loaded plates_table) {[ "Plate" := VStr "P9" ]} 1 =
      (let* digests :=
         publish_digests (λ _, Ok "d41d8cd98f00b204e9800998ecf8427e")
           (other_providers (settings_with true false 1 1) (disk plates) ∅
                            "imagegroup").1 in
       Ok (statistics ++ digests),
       (other_providers (settings_with true false 1 1) (disk plates) ∅
                        "imagegroup").2).
Proof.
  apply (run_without_matching_row Ref.eq
           (λ _, Ok "d41d8cd98f00b204e9800998ecf8427e")
           (settings_with true false 1 1) (disk plates) ∅
           (loaded plates_table) plates_table {[ "Plate" := VStr "P9" ]} 1 1).
  - by vm_compute.
  - by vm_compute.
  - intros key wanted [<- <-]%lookup_singleton_Some.
    exists (StrColumn ["P1"; "P2"]). by vm_compute.
  - intros name column Hcol. unfold plates_table in Hcol.
    apply lookup_insert_Some in Hcol as [[<- <-]|[_ Hcol]]; [done|].
    by apply lookup_singleton_Some in Hcol as [<- <-].
  - intros i Hi.
    exists "Plate", (VStr "P9"), (StrColumn ["P1"; "P2"]).
    destruct i as [|[|i]]; [| |lia].
    + exists (VStr "P1"). split_and!; by vm_compute.
    + exists (VStr "P2"). split_and!; by vm_compute.
Defined.

(** ** The further properties on concrete files *)

Lemma get_image_name_inverse_witness :
  get_image_name "FileName_DNA" = Ok "DNA" ∧
  ∃ msg, get_image_name "Metadata_Plate" = Raise (ValueError msg).
Proof.
  split.
  - apply (get_image_name_inverse "FileName_DNA"). by right.
  - apply (get_image_name_inverse "Metadata_Plate"). by intros image.
Defined.

Lemma get_header_cached_witness :
  ∃ hc',
    get_header run_settings (disk plates) ∅ =
      (Ok ["Metadata_Plate"; "Titration"], hc') ∧
    get_header run_settings (disk broken) hc' =
      (Ok ["Metadata_Plate"; "Titration"], hc').
Proof.
  eexists. split; [vm_compute; reflexivity|].
  eapply (get_header_cached run_settings (disk plates) (disk broken) ∅).
  - vm_compute; reflexivity.
  - vm_compute; reflexivity.
  - left. vm_compute; reflexivity.
  - vm_compute; reflexivity.
  - simpl. lia.
Defined.

Lemma get_header_reread_witness :
  get_header run_settings (disk plates) stale =
    (Ok (header_to_column <$> ["Metadata_Plate"; "Titration"]),
     <[csv_path run_settings :=
         {| e_ctime := 1278000000;
            e_header :=
              Some (header_to_column <$> ["Metadata_Plate"; "Titration"]);
            e_measurement_columns := None |}]> stale).
Proof.
  eapply (get_header_reread run_settings (disk plates) stale
            {| st_ctime := 1278000000; content := Some plates |}).
  - vm_compute; reflexivity.
  - vm_compute; reflexivity.
  - vm_compute; reflexivity.
Defined.

Lemma other_providers_names_witness :
  ∃ names,
    other_providers run_settings (disk numbered_images) examined
                    "imagegroup" =
      (names,
       {[ "/data/plate.csv" :=
            {| e_ctime := 1278000000;
               e_header :=
                 Some ["FileName_DNA"; "PathName_DNA"; "Metadata_Plate"];
               e_measurement_columns := None |} ]}) ∧
    make_file_name_feature <$> names =
      filter (λ f, is_file_name_feature f = true)
             ["FileName_DNA"; "PathName_DNA"; "Metadata_Plate"].
Proof.
  apply (other_providers_names run_settings (disk numbered_images) examined
           "imagegroup"); vm_compute; reflexivity.
Defined.

Lemma prepare_run_table_is_rectangular_witness :
  ∃ b isl',
    Sample.prepare_run run_settings false (disk numbered_images)
                       (fresh (Some false)) = Ok (b, isl') ∧
    ∃ first reader rows d,
      open_csv (disk numbered_images) (csv_path run_settings) =
        Ok (CsvRow first :: reader) ∧
      load_rows run_settings (header_to_column <$> first) reader = Ok rows ∧
      legacy_fields isl' !! legacy_field_key run_settings = Some d ∧
      (∀ h, is_Some (d !! h) ↔ h ∈ (header_to_column <$> first)) ∧
      (∀ h c, d !! h = Some c → column_len c = length rows).
Proof.
  eexists _, _. split; [vm_compute; reflexivity|].
  eapply (prepare_run_table_is_rectangular Ref.int_of_string
           Ref.float_of_string run_settings (disk numbered_images)
           (fresh (Some false))).
  vm_compute; reflexivity.
Defined.

Lemma prepare_run_keeps_image_columns_witness :
  ∃ b isl',
    Sample.prepare_run run_settings false (disk numbered_images)
                       (fresh (Some false)) = Ok (b, isl') ∧
    ∃ first reader rows d,
      open_csv (disk numbered_images) (csv_path run_settings) =
        Ok (CsvRow first :: reader) ∧
      load_rows run_settings (header_to_column <$> first) reader = Ok rows ∧
      legacy_fields isl' !! legacy_field_key run_settings = Some d ∧
      ∀ c, d !! "PathName_DNA" = Some c →
        ∃ j cells,
          (header_to_column <$> first) !! j = Some "PathName_DNA" ∧
          c = StrColumn cells ∧
          length cells = length rows ∧
          ∀ i row, rows !! i = Some row → cells !! i = row !! j.
Proof.
  eexists _, _. split; [vm_compute; reflexivity|].
  eapply (prepare_run_keeps_image_columns Ref.int_of_string
           Ref.float_of_string run_settings (disk numbered_images)
           (fresh (Some false)) _ _ "DNA").
  - vm_compute; reflexivity.
  - done.
  - by right.
Defined.

Lemma prepare_run_succeeds_witness :
  ∃ isl',
    Sample.prepare_run (settings_with false false 1 1) false (disk path_only)
                       (fresh None) = Ok (true, isl').
Proof.
  apply (prepare_run_succeeds Ref.int_of_string Ref.float_of_string
           (settings_with false false 1 1) (disk path_only) (fresh None)
           ["Image_PathName_DAPI"] [CsvRow ["plate1"]] [["plate1"]]).
  - vm_compute; reflexivity.
  - vm_compute; reflexivity.
  - by repeat constructor.
  - intros Hw. discriminate Hw.
Defined.

Lemma run_after_prepare_run_witness :
  ∃ b isl' statistics,
    Sample.prepare_run run_settings false (disk plates)
                       (fresh (Some false)) = Ok (b, isl') ∧
    Sample.run run_settings (disk plates) ∅ isl' {[ "number" := VInt 2 ]} 2 =
      (let* digests :=
         publish_digests (λ _, Ok "d41d8cd98f00b204e9800998ecf8427e")
           (other_providers run_settings (disk plates) ∅ "imagegroup").1 in
       Ok (statistics ++ digests),
       (other_providers run_settings (disk plates) ∅ "imagegroup").2).
Proof.
  assert (∃ b isl',
            Sample.prepare_run run_settings false (disk plates)
                               (fresh (Some false)) = Ok (b, isl'))
    as (b & isl' & Hrun) by (eexists _, _; vm_compute; reflexivity).
  destruct (run_after_prepare_run Ref.int_of_string Ref.float_of_string
              Ref.eq (λ _, Ok "d41d8cd98f00b204e9800998ecf8427e")
              run_settings (disk plates) ∅ (fresh (Some false)) b isl'
              (VInt 2) 2 Hrun)
    as (first & reader & rows & d & Hopen & Hload & Hd & Hpub).
  assert (rows = [["P1"; "750"]; ["P2"; "2750"]]) as ->.
  { vm_compute in Hopen. injection Hopen as <- <-.
    vm_compute in Hload. by injection Hload as <-. }
  destruct Hpub as (statistics & _ & Hstat); [simpl; lia|].
  exists b, isl', statistics. split; [exact Hrun|exact Hstat].
Defined.

Lemma run_number_out_of_range_witness :
  Sample.run run_settings (disk plates) ∅ (loaded plates_table)
             {[ "number" := VInt 3 ]} 3 = (Raise IndexError, ∅).
Proof.
  apply (run_number_out_of_range Ref.eq
           (λ _, Ok "d41d8cd98f00b204e9800998ecf8427e") run_settings
           (disk plates) ∅ (loaded plates_table) plates_table (VInt 3) 3 2).
  - vm_compute; reflexivity.
  - intros name column Hcol. unfold plates_table in Hcol.
    apply lookup_insert_Some in Hcol as [[<- <-]|[_ Hcol]]; [done|].
    by apply lookup_singleton_Some in Hcol as [<- <-].
  - apply insert_non_empty.
  - left. simpl. lia.
Defined.

Lemma run_first_matching_row_witness :
  find_index Ref.eq plates_table {[ "Plate" := VStr "P2" ]} 1 =
    Ok (Some (Z.of_nat 1)) ∧
  ∃ statistics,
    Forall2 (λ '(name, column) '(feature_name, value),
               feature_name = name ∧
               column_values column !! 1%nat = Some value)
            (map_to_list plates_table) statistics ∧
    Sample.run run_settings (disk plates) ∅ (loaded plates_table)
               {[ "Plate" := VStr "P2" ]} 1 =
      (let* digests :=
         publish_digests (λ _, Ok "d41d8cd98f00b204e9800998ecf8427e")
           (other_providers run_settings (disk plates) ∅ "imagegroup").1 in
       Ok (statistics ++ digests),
       (other_providers run_settings (disk plates) ∅ "imagegroup").2).
Proof.
  apply (run_first_matching_row Ref.eq
           (λ _, Ok "d41d8cd98f00b204e9800998ecf8427e") run_settings
           (disk plates) ∅ (loaded plates_table) plates_table
           {[ "Plate" := VStr "P2" ]} 1 2 1).
  - vm_compute; reflexivity.
  - vm_compute; reflexivity.
  - intros name column Hcol. unfold plates_table in Hcol.
    apply lookup_insert_Some in Hcol as [[<- <-]|[_ Hcol]]; [done|].
    by apply lookup_singleton_Some in Hcol as [<- <-].
  - intros key wanted [<- <-]%lookup_singleton_Some.
    exists (StrColumn ["P1"; "P2"]). vm_compute; reflexivity.
  - lia.
  - intros key wanted column [<- <-]%lookup_singleton_Some Hcol.
    vm_compute in Hcol. injection Hcol as <-.
    exists (VStr "P2"). split; vm_compute; reflexivity.
  - intros j Hj. destruct j as [|j]; [|lia].
    exists "Plate", (VStr "P2"), (StrColumn ["P1"; "P2"]), (VStr "P1").
    split_and!; vm_compute; reflexivity.
Defined.

Lemma load_rows_range_witness :
  load_rows (settings_with false true 2 3) ["Well"]
            (CsvRow <$> [["A01"]; ["A02"]; ["A03"]]) =
    Ok (take (Z.to_nat (3 - 2 + 1))
             (drop (Z.to_nat (2 - 1)) [["A01"]; ["A02"]; ["A03"]])).
Proof.
  apply (load_rows_range (settings_with false true 2 3) ["Well"]
           [["A01"]; ["A02"]; ["A03"]]).
  - done.
  - simpl. lia.
  - simpl. lia.
  - by repeat constructor.
Defined.

Lemma prepare_run_range_past_end_witness :
  Sample.prepare_run (settings_with false true 5 6) false (disk wells)
                     (fresh None) = Raise StopIteration.
Proof.
  apply (prepare_run_range_past_end Ref.int_of_string Ref.float_of_string
           (settings_with false true 5 6) (disk wells) (fresh None)
           ["Well"] [["A01"]; ["A02"]; ["A03"]]).
  - done.
  - vm_compute; reflexivity.
  - simpl. lia.
Defined.

Lemma prepare_run_range_wrong_field_count_witness :
  Sample.prepare_run (settings_with false true 2 4) false (disk ragged)
                     (fresh None) =
    Raise (ValueError
             ("Row # " +:+ pretty (Z.of_nat 2) +:+
              " has the wrong number of elements: " +:+
              pretty (length ["A03"; "3"; "x"]) +:+ ". Expected " +:+
              pretty (length ["Well"; "Dose"]))).
Proof.
  apply (prepare_run_range_wrong_field_count Ref.int_of_string
           Ref.float_of_string (settings_with false true 2 4) (disk ragged)
           (fresh None) ["Well"; "Dose"]
           [["A01"]; ["A02"; "2"]; ["A03"; "3"; "x"]] 2
           ["A03"; "3"; "x"]).
  - done.
  - vm_compute; reflexivity.
  - simpl. lia.
  - simpl. lia.
  - done.
  - simpl. lia.
  - intros j r Hj Hr. simpl in Hj.
    destruct j as [|[|j]]; [lia| |lia]. by injection Hr as <-.
Defined.

Lemma get_measurement_columns_names_witness :
  ∃ coltypes,
    length coltypes = length ["Well"; "Dose"] ∧
    (Sample.get_measurement_columns run_settings (disk short_rows) ∅).1 =
      Ok (((λ '(colname, coltype), (IMAGE, colname, coltype)) <$>
             zip (header_to_column <$> ["Well"; "Dose"]) coltypes) ++
          ((λ image_name,
              (IMAGE, "MD5Digest_" +:+ image_name, COLTYPE_VARCHAR 32)) <$>
             (other_providers run_settings (disk short_rows) examined
                              "imagegroup").1)).
Proof.
  apply (get_measurement_columns_names Ref.int_of_string Ref.float_of_string
           256 run_settings (disk short_rows) ∅
           {| e_ctime := 1278000000; e_header := None;
              e_measurement_columns := None |} examined
           ["Well"; "Dose"] [["A01"]]).
  - vm_compute; reflexivity.
  - done.
  - vm_compute; reflexivity.
  - repeat constructor.
Defined.

Lemma float_column_declared_witness :
  (∃ result,
     (Sample.get_measurement_columns run_settings (disk doses) ∅).1 =
       Ok result ∧
     result !! 1%nat = Some (IMAGE, header_to_column "Dose", COLTYPE_FLOAT)) ∧
  ∃ floats, Sample.best_cast ["1"; "2.5"] = FloatColumn floats.
Proof.
  apply (float_column_declared Ref.int_of_string Ref.float_of_string 256
           run_settings (disk doses) ∅
           {| e_ctime := 1278000000; e_header := None;
              e_measurement_columns := None |} examined
           ["Well"; "Dose"] [["A01"; "1"]; ["A02"; "2.5"]] 1 "Dose"
           ["1"; "2.5"]).
  - vm_compute; reflexivity.
  - done.
  - vm_compute; reflexivity.
  - by repeat constructor.
  - done.
  - vm_compute; reflexivity.
  - repeat constructor; by eexists.
  - right. left. vm_compute; reflexivity.
Defined.

Lemma get_measurement_columns_cached_witness :
  ∃ result hc',
    Sample.get_measurement_columns run_settings (disk doses) ∅ =
      (Ok result, hc') ∧
    Sample.get_measurement_columns run_settings (disk broken) hc' =
      (Ok result, hc').
Proof.
  eexists _, _. split; [vm_compute; reflexivity|].
  eapply (get_measurement_columns_cached Ref.int_of_string
            Ref.float_of_string 256 run_settings (disk doses) (disk broken)
            ∅).
  - vm_compute; reflexivity.
  - vm_compute; reflexivity.
  - left. vm_compute; reflexivity.
  - vm_compute; reflexivity.
  - simpl. lia.
Defined.

Lemma header_fields_are_listed_witness :
  ∃ category measurement,
    category ∈ (get_categories run_settings (disk plates) ∅ IMAGE).1 ∧
    measurement ∈
      (get_measurements run_settings (disk plates) ∅ IMAGE category).1 ∧
    ("Metadata_Plate" = category +:+ "_" +:+ measurement ∨
     "Metadata_Plate" = category ∧ measurement = "" ∧
     Str.split "_" "Metadata_Plate" = ["Metadata_Plate"]).
Proof.
  eapply (header_fields_are_listed run_settings (disk plates) ∅
            ["Metadata_Plate"; "Titration"]).
  - vm_compute; reflexivity.
  - by left.
Defined.

Lemma upgrade_settings_idempotent_witness :
  upgrade_settings "No"
    ["Default Input Folder"; "."; "data.csv"; "No"; "Default Input Folder";
     "."; "No"; "1,100000"; "No"; ""] 3 false =
    Ok (["Default Input Folder"; "."; "data.csv"; "No";
         "Default Input Folder"; "."; "No"; "1,100000"; "No"; ""], 3, false).
Proof.
  apply (upgrade_settings_idempotent "No" ["data.csv"; "x"; "."] 2 true).
  vm_compute; reflexivity.
Defined.

Lemma upgrade_settings_from_matlab_witness :
  upgrade_settings "No" ["data.csv"; "x"; "."] 2 true =
    Ok ([DIR_DEFAULT_IMAGE; "."; "data.csv"; "No"; DIR_DEFAULT_IMAGE; ".";
         "No"; "1,100000"; "No"; ""], 3, false) ∧
  upgrade_settings "No" ["data.csv"; "x"] 2 true = Raise IndexError.
Proof.
  destruct (upgrade_settings_from_matlab "No" "data.csv" "x" "." []
              ["data.csv"; "x"]) as [Hok Herr].
  split; [exact Hok|]. apply Herr. simpl. lia.
Defined.

Lemma upgrade_settings_from_2_witness :
  upgrade_settings "No" ["Default Image Directory"; "."; "data.csv"; "No";
                         "Default Output Directory"; "."; "No"; "1,100000"]
                   2 false =
    Ok (<[4%nat := DIR_DEFAULT_OUTPUT]>
          (<[0%nat := DIR_DEFAULT_IMAGE]>
             ["Default Image Directory"; "."; "data.csv"; "No";
              "Default Output Directory"; "."; "No"; "1,100000"]),
        3, false).
Proof.
  exact (proj1 (upgrade_settings_from_2 "No"
                  ["Default Image Directory"; "."; "data.csv"; "No";
                   "Default Output Directory"; "."; "No"; "1,100000"])
           "Default Image Directory" "Default Output Directory"
           eq_refl eq_refl).
Defined.

Lemma prepare_to_create_batch_rewrites_paths_witness :
  ∃ b loc' isl' d',
    Sample.prepare_to_create_batch run_settings folders (loaded paths_table) =
      Ok (b, loc', isl') ∧
    legacy_fields isl' !! legacy_field_key run_settings = Some d' ∧
    d' !! "FileName_DNA" = paths_table !! "FileName_DNA" ∧
    ∃ paths,
      d' !! "PathName_DNA" = Some (StrColumn paths) ∧
      Forall2 (λ value path, to_remote value = Ok path)
              [VStr "plate1"; VStr "plate2"] paths.
Proof.
  assert (∃ b loc' isl',
            Sample.prepare_to_create_batch run_settings folders
              (loaded paths_table) = Ok (b, loc', isl'))
    as (b & loc' & isl' & Hbatch) by (eexists _, _, _; vm_compute; reflexivity).
  destruct (prepare_to_create_batch_rewrites_paths "/input" "/output"
              (λ p, p) to_remote run_settings folders (loaded paths_table)
              b loc' isl' Hbatch)
    as (d & d' & Hd & Hd' & _ & _ & Hnames).
  assert (d = paths_table) as ->.
  { vm_compute in Hd. injection Hd as <-. vm_compute; reflexivity. }
  exists b, loc', isl', d'. split_and!; [exact Hbatch|exact Hd'| |].
  - apply (Hnames "FileName_DNA"). reflexivity.
  - destruct (Hnames "PathName_DNA") as (_ & Hpaths & _).
    apply (Hpaths eq_refl (StrColumn ["plate1"; "plate2"])).
    vm_compute; reflexivity.
Defined.

Lemma prepare_to_create_batch_fixes_folder_witness :
  ∃ b loc' isl',
    Sample.prepare_to_create_batch run_settings folders (loaded paths_table) =
      Ok (b, loc', isl') ∧
    csv_directory_choice loc' ≠ DIR_DEFAULT_IMAGE ∧
    csv_directory_choice loc' ≠ DIR_DEFAULT_OUTPUT ∧
    (csv_directory_choice folders = DIR_DEFAULT_IMAGE →
     csv_directory_choice loc' = DIR_OTHER ∧
     to_remote (VStr "/input") = Ok (csv_custom_directory loc')) ∧
    (csv_directory_choice folders = DIR_DEFAULT_OUTPUT →
     csv_directory_choice loc' = DIR_OTHER ∧
     to_remote (VStr "/output") = Ok (csv_custom_directory loc')) ∧
    image_directory_choice loc' = image_directory_choice folders ∧
    to_remote (VStr (image_custom_directory folders)) =
      Ok (image_custom_directory loc').
Proof.
  eexists _, _, _. split; [vm_compute; reflexivity|].
  eapply (prepare_to_create_batch_fixes_folder "/input" "/output" (λ p, p)
           to_remote run_settings folders (loaded paths_table)).
  vm_compute; reflexivity.
Defined.

Lemma metadata_choices_are_key_names_witness :
  ∃ b isl' hc' choices units,
    Sample.prepare_run run_settings false (disk plates) (fresh (Some true)) =
      Ok (b, isl') ∧
    metadata_field_choices run_settings (disk plates) ∅ = (Ok choices, hc') ∧
    requested isl' = requested (fresh (Some true)) ++ units ∧
    ∀ key name, ByKey key ∈ units →
      (name ∈ choices ↔ is_Some (key !! name)).
Proof.
  assert (∃ b isl',
            Sample.prepare_run run_settings false (disk plates)
                               (fresh (Some true)) = Ok (b, isl'))
    as (b & isl' & Hrun) by (eexists _, _; vm_compute; reflexivity).
  assert (∃ hc',
            get_header run_settings (disk plates) ∅ =
              (Ok (header_to_column <$> ["Metadata_Plate"; "Titration"]),
               hc'))
    as (hc' & Hget) by (eexists; vm_compute; reflexivity).
  destruct (metadata_choices_are_key_names Ref.int_of_string
              Ref.float_of_string run_settings (disk plates) ∅ hc'
              (fresh (Some true)) b isl' ["Metadata_Plate"; "Titration"]
              (tail plates) Hrun)
    as (choices & units & Hchoices & Hreq & Hnames);
    [vm_compute; reflexivity|exact Hget|].
  exists b, isl', hc', choices, units.
  split_and!; [exact Hrun|exact Hchoices|exact Hreq|exact Hnames].
Defined.
